(** * Push notification consumer: a shallow embedding of
      [push_service/consumer.py] and the properties of its delivery pipeline.

    The consumer pulls one message at a time from a RabbitMQ queue, enriches
    it over HTTP (user profile, template), renders the template, hands the
    notification to the push gateway and then acknowledges, schedules a retry
    or dead-letters the message.

    Conventions of the model:
    - a Python value that can come out of [json.loads] is a [json] term;
      Python's [None] is [JNull]; a [dict] is an association list in
      insertion order;
    - a queue body is either undecodable or stands for the value that
      [json.loads] returns for it (the wire syntax of JSON is not modelled,
      and the keys of an object are distinct); [json.dumps] is [Encoded];
    - a Python [str] is a [string]; the algorithms below only compare
      characters for equality, so the size of the alphabet is immaterial;
    - the outside world (HTTP collaborators, push gateway, broker faults,
      clock) is an [Env] of oracles; the calls issued on the channel, on the
      status endpoint and on the gateway are recorded, in order, in a trace;
    - logging is not modelled, except where evaluating the logged expression
      can raise. *)

From Stdlib Require Import ZArith List String Ascii Bool Lia.
From Stdlib Require Import DecimalString Permutation.
From Stdlib Require Import Floats.SpecFloat.
Import ListNotations.
Local Open Scope string_scope.
Local Open Scope Z_scope.

(** ** Python values *)

#[local] Set Warnings "-register-all".

Inductive json : Type :=
| JNull
| JBool (b : bool)
| JInt (n : Z)
| JFloat (f : spec_float)
| JStr (s : string)
| JList (items : list json)
| JObj (fields : list (string * json)).

(** A Python [dict] whose keys may be any hashable value (the gateway's
    [data] mapping can receive such keys from [dict.update]). *)
Definition pydict := list (json * json).

(** The parts of the Python runtime whose output format is not modelled:
    [repr] of a float and of a string (quoting and escaping), and
    [dict.update] applied to an iterable of pairs that is not a mapping
    ([None] when it raises). *)
Class PyRuntime := {
  float_repr : spec_float -> string;
  str_repr : string -> string;
  dict_update_iterable : pydict -> json -> option pydict
}.

Inductive exn : Type :=
| JSONDecodeError
| AttributeError
| TypeError
| IndexError
| ValueError
| AMQPError.

Inductive result (A : Type) : Type :=
| Ok (a : A)
| Raise (e : exn).
Arguments Ok {A} a.
Arguments Raise {A} e.

(** *** Truthiness, as tested by [if not x] *)

Definition float_is_zero (f : spec_float) : bool :=
  match f with S754_zero _ => true | _ => false end.

Definition truthy (v : json) : bool :=
  match v with
  | JNull => false
  | JBool b => b
  | JInt n => negb (n =? 0)
  | JFloat f => negb (float_is_zero f)
  | JStr s => negb (s =? "")%string
  | JList l => match l with [] => false | _ => true end
  | JObj d => match d with [] => false | _ => true end
  end.

(** *** Dictionaries *)

Fixpoint dict_lookup (d : list (string * json)) (k : string) : option json :=
  match d with
  | [] => None
  | (k', v) :: d' => if (k' =? k)%string then Some v else dict_lookup d' k
  end.

(** [d[k] = v]: an existing key keeps its position, a new key goes last. *)
Fixpoint dict_set (d : list (string * json)) (k : string) (v : json)
  : list (string * json) :=
  match d with
  | [] => [(k, v)]
  | (k', v') :: d' =>
      if (k' =? k)%string then (k', v) :: d' else (k', v') :: dict_set d' k v
  end.

Definition dict_keys (d : list (string * json)) : list string := map fst d.

(** [obj.get(key, default)]; [AttributeError] when [obj] is not a dict
    ([None], numbers, strings and lists have no [get]). *)
Definition py_get (obj : json) (k : string) (default : json) : result json :=
  match obj with
  | JObj d => Ok (match dict_lookup d k with Some v => v | None => default end)
  | _ => Raise AttributeError
  end.

(** *** Numbers

    A [JFloat] holds a binary64 value in the canonical form of [SpecFloat]. *)

Definition binary64_add : spec_float -> spec_float -> spec_float :=
  SFadd 53 1024.

Definition float_of_small_Z (n : Z) : spec_float :=
  match n with
  | Z0 => S754_zero false
  | Zpos p => binary_normalize 53 1024 (Zpos p) 0 false
  | Zneg p => binary_normalize 53 1024 (Zneg p) 0 false
  end.

(** [x + n] for an integer literal [n]; [bool] is a subclass of [int]. *)
Definition py_add_int (x : json) (n : Z) : result json :=
  match x with
  | JInt a => Ok (JInt (a + n))
  | JBool b => Ok (JInt ((if b then 1 else 0) + n))
  | JFloat f => Ok (JFloat (binary64_add f (float_of_small_Z n)))
  | _ => Raise TypeError
  end.

(** Exact comparison of a float with an integer, as Python performs it:
    [m * 2^e < n], infinities at the ends, [nan] below nothing. *)
Definition float_lt_Z (f : spec_float) (n : Z) : bool :=
  match f with
  | S754_zero _ => 0 <? n
  | S754_infinity s => s
  | S754_nan => false
  | S754_finite s m e =>
      let v := if s then Zneg m else Zpos m in
      if 0 <=? e then v * 2 ^ e <? n else v <? n * 2 ^ (- e)
  end.

(** [x < n] for an integer literal [n]. *)
Definition py_lt_int (x : json) (n : Z) : result bool :=
  match x with
  | JInt a => Ok (a <? n)
  | JBool b => Ok ((if b then 1 else 0) <? n)
  | JFloat f => Ok (float_lt_Z f n)
  | _ => Raise TypeError
  end.

(** [xs[i]] on a list of integers: negative indices count from the end,
    a float is not an index. *)
Definition py_index (xs : list Z) (i : json) : result Z :=
  let at_ (n : Z) :=
    let len := Z.of_nat (List.length xs) in
    let n' := if n <? 0 then n + len else n in
    if (n' <? 0) || (len <=? n') then Raise IndexError
    else Ok (nth (Z.to_nat n') xs 0) in
  match i with
  | JInt n => at_ n
  | JBool b => at_ (if b then 1 else 0)
  | _ => Raise TypeError
  end.

(** *** [str] and [repr] *)

Definition str_of_Z (n : Z) : string := NilZero.string_of_int (Z.to_int n).

Definition join (sep : string) (parts : list string) : string :=
  String.concat sep parts.

Section Repr.
Context {rt : PyRuntime}.

Fixpoint py_repr (v : json) : string :=
  match v with
  | JNull => "None"
  | JBool b => if b then "True" else "False"
  | JInt n => str_of_Z n
  | JFloat f => float_repr f
  | JStr s => str_repr s
  | JList l => "[" ++ join ", " (map py_repr l) ++ "]"
  | JObj d =>
      "{" ++ join ", "
        (map (fun kv => str_repr (fst kv) ++ ": " ++ py_repr (snd kv)) d)
      ++ "}"
  end.

(** [str(v)]: a string is itself, anything else prints as its [repr]. *)
Definition py_str (v : json) : string :=
  match v with
  | JStr s => s
  | _ => py_repr v
  end.
End Repr.

(** *** [str.replace] *)

Fixpoint starts_with (pat s : string) : bool :=
  match pat with
  | EmptyString => true
  | String p pat' =>
      match s with
      | EmptyString => false
      | String c s' => Ascii.eqb p c && starts_with pat' s'
      end
  end.

(** Left-to-right scan for non-overlapping occurrences of a non-empty [old];
    [skip] counts the characters of a matched occurrence still to be
    dropped. *)
Fixpoint replace_scan (old new : string) (skip : nat) (s : string) : string :=
  match s with
  | EmptyString => EmptyString
  | String c s' =>
      match skip with
      | S k => replace_scan old new k s'
      | O =>
          if starts_with old s
          then new ++ replace_scan old new (Nat.pred (String.length old)) s'
          else String c (replace_scan old new O s')
      end
  end.

Fixpoint intersperse (new s : string) : string :=
  match s with
  | EmptyString => new
  | String c s' => new ++ String c (intersperse new s')
  end.

(** [s.replace(old, new)]; an empty [old] matches between all characters. *)
Definition str_replace (s old new : string) : string :=
  match old with
  | EmptyString => intersperse new s
  | _ => replace_scan old new O s
  end.

(** *** [datetime.isoformat] *)

Record datetime := {
  year : Z; month : Z; day : Z;
  hour : Z; minute : Z; second : Z; microsecond : Z
}.

Definition valid_datetime (t : datetime) : Prop :=
  1 <= year t <= 9999 /\ 1 <= month t <= 12 /\ 1 <= day t <= 31 /\
  0 <= hour t <= 23 /\ 0 <= minute t <= 59 /\ 0 <= second t <= 59 /\
  0 <= microsecond t <= 999999.

Definition digit_char (d : Z) : ascii := ascii_of_nat (48 + Z.to_nat d).

(** The [w] low decimal digits of [n]. *)
Fixpoint fixed_digits (w : nat) (n : Z) : string :=
  match w with
  | O => ""
  | S w' => fixed_digits w' (n / 10) ++ String (digit_char (n mod 10)) ""
  end.

(** [%0wd]: zeros on the left up to the width [w], which counts the sign;
    a number with more digits is printed in full. *)
Definition zero_pad_nonneg (w : nat) (n : Z) : string :=
  if n <? 10 ^ Z.of_nat w then fixed_digits w n else str_of_Z n.

Definition zero_pad (w : nat) (n : Z) : string :=
  if n <? 0 then "-" ++ zero_pad_nonneg (w - 1) (- n)
  else zero_pad_nonneg w n.

Definition isoformat (t : datetime) : string :=
  zero_pad 4 (year t) ++ "-" ++ zero_pad 2 (month t) ++ "-" ++
  zero_pad 2 (day t) ++ "T" ++ zero_pad 2 (hour t) ++ ":" ++
  zero_pad 2 (minute t) ++ ":" ++ zero_pad 2 (second t) ++
  (if microsecond t =? 0 then "" else "." ++ zero_pad 6 (microsecond t)).

(** ** Template rendering *)

Section Render.
Context {rt : PyRuntime}.

(** [f"{{{{{key}}}}}"] *)
Definition placeholder (key : string) : string := "{{" ++ key ++ "}}".

(** One iteration of the loop: [result = result.replace(placeholder,
    str(value))]; only a [str] has [replace]. *)
Definition render_step (acc : result json) (kv : string * json)
  : result json :=
  match acc with
  | Ok (JStr r) =>
      Ok (JStr (str_replace r (placeholder (fst kv)) (py_str (snd kv))))
  | Ok _ => Raise AttributeError
  | Raise e => Raise e
  end.

Definition render_template_variables (template_string variables : json)
  : result json :=
  if negb (truthy template_string) then Ok (JStr "")
  else
    match variables with
    | JObj items => fold_left render_step items (Ok template_string)
    | _ => Raise AttributeError
    end.

(** The loop on a string template, for the statements about rendering. *)
Definition render_str (template : string) (items : list (string * json))
  : string :=
  fold_left
    (fun r kv => str_replace r (placeholder (fst kv)) (py_str (snd kv)))
    items template.
End Render.

(** ** The outside world *)

(** A queue body: [json.loads] either fails on it or returns the value it
    encodes. *)
Inductive body : Type :=
| Undecodable
| Encoded (v : json).

Definition json_loads (b : body) : result json :=
  match b with
  | Undecodable => Raise JSONDecodeError
  | Encoded v => Ok v
  end.

Definition json_dumps (v : json) : body := Encoded v.

(** What [requests.get] does: time out, fail otherwise, or answer with a
    status code and a body that [response.json()] may fail to decode. *)
Inductive http_outcome : Type :=
| HttpTimeout
| HttpError
| HttpResponse (status_code : Z) (payload : option json).

(** The calls the consumer issues, with their arguments. A gateway call
    carries what [send_push_notification_fcm] returned or raised. *)
Inductive event : Type :=
| QueueDeclare (queue : string) (durable : bool)
    (arguments : list (string * json))
| BasicPublish (exchange routing_key : string) (payload : body)
    (delivery_mode : Z)
| BasicAck (delivery_tag : Z)
| BasicNack (delivery_tag : Z) (requeue : bool)
| StatusPost (payload : list (string * json))
| GatewayCall (device_token title body_text : json) (data : pydict)
    (image_url : json) (outcome : result bool).

Record Env := {
  QUEUE_NAME : string;
  user_service : json -> http_outcome;
  template_service : json -> http_outcome;
  firebase_initialized : bool;
  (* [messaging.send]: [true] when it returns, [false] when it raises *)
  messaging_send : json -> json -> json -> pydict -> json -> bool;
  (* whether the broker makes a channel call raise *)
  channel_fault : event -> bool;
  (* the value of [datetime.utcnow()] at its n-th call for this message *)
  utcnow : nat -> datetime
}.

Definition MAX_RETRY_COUNT : Z := 3.
Definition RETRY_DELAYS : list Z := [60; 300; 900].

(** ** Effects: a trace, a clock and the mutable [message] dict *)

Record world := {
  trace : list event;
  clock_reads : nat;
  message : json
}.

Definition init_world : world :=
  {| trace := []; clock_reads := 0; message := JNull |}.

Definition M (A : Type) : Type := world -> result A * world.

Definition ret {A} (a : A) : M A := fun w => (Ok a, w).

Definition bind {A B} (m : M A) (k : A -> M B) : M B :=
  fun w =>
    match m w with
    | (Ok a, w') => k a w'
    | (Raise e, w') => (Raise e, w')
    end.

Definition lift {A} (r : result A) : M A := fun w => (r, w).

Definition try_except {A} (m : M A) (handler : exn -> M A) : M A :=
  fun w =>
    match m w with
    | (Ok a, w') => (Ok a, w')
    | (Raise e, w') => handler e w'
    end.

Definition emit (ev : event) : M unit :=
  fun w =>
    (Ok tt, {| trace := trace w ++ [ev];
               clock_reads := clock_reads w;
               message := message w |}).

Definition read_message : M json := fun w => (Ok (message w), w).

Definition write_message (v : json) : M unit :=
  fun w =>
    (Ok tt, {| trace := trace w;
               clock_reads := clock_reads w;
               message := v |}).

Declare Scope py_scope.
Delimit Scope py_scope with py.
Notation "x <- m ;; k" := (bind m (fun x => k))
  (at level 61, m at next level, right associativity) : py_scope.
Notation "m ;; k" := (bind m (fun _ => k))
  (at level 61, right associativity) : py_scope.
Local Open Scope py_scope.

(** [message.get(key, default)] *)
Definition message_get (k : string) (default : json) : M json :=
  msg <- read_message ;; lift (py_get msg k default).

(** [message[key] = value] *)
Definition message_setitem (k : string) (v : json) : M unit :=
  msg <- read_message ;;
  match msg with
  | JObj d => write_message (JObj (dict_set d k v))
  | _ => lift (Raise TypeError)
  end.

(** [d[k] = v] on the gateway's data mapping, for a string key. *)
Fixpoint pydict_set (d : pydict) (k : string) (v : json) : pydict :=
  match d with
  | [] => [(JStr k, v)]
  | (JStr k', v') :: d' =>
      if (k' =? k)%string then (JStr k', v) :: d'
      else (JStr k', v') :: pydict_set d' k v
  | kv :: d' => kv :: pydict_set d' k v
  end.

Section Consumer.
Context {rt : PyRuntime}.
Variable E : Env.

(** A call on the channel: issued, then raising if the broker faults. *)
Definition channel_call (ev : event) : M unit :=
  emit ev ;;
  if channel_fault E ev then lift (Raise AMQPError) else ret tt.

Definition read_utcnow : M datetime :=
  fun w =>
    (Ok (utcnow E (clock_reads w)),
     {| trace := trace w;
        clock_reads := S (clock_reads w);
        message := message w |}).

(** Both fetchers have the same shape: the [data] member of a 200
    response, [None] on any other status and on any exception (among them
    an undecodable body and a body that is not an object). *)
Definition fetch_data (o : http_outcome) : json :=
  match o with
  | HttpResponse status (Some data) =>
      if status =? 200 then
        match py_get data "data" JNull with
        | Ok v => v
        | Raise _ => JNull
        end
      else JNull
  | HttpResponse status None => JNull
  | HttpTimeout => JNull
  | HttpError => JNull
  end.

Definition fetch_user_data (user_id : json) : json :=
  fetch_data (user_service E user_id).

Definition fetch_template_data (template_code : json) : json :=
  fetch_data (template_service E template_code).

Definition send_push_notification_fcm
  (device_token title body_text : json) (data : pydict) (image_url : json)
  : M bool :=
  let outcome :=
    if negb (firebase_initialized E) then
      (* simulated: the log line slices [device_token[:20]] *)
      match device_token with
      | JStr _ | JList _ => Ok true
      | _ => Raise TypeError
      end
    else Ok (messaging_send E device_token title body_text data image_url)
  in
  emit (GatewayCall device_token title body_text data image_url outcome) ;;
  lift outcome.

Definition update_notification_status
  (notification_id : json) (status : string) (error : option string)
  : M unit :=
  try_except
    (now <- read_utcnow ;;
     let payload :=
       [("notification_id", notification_id);
        ("status", JStr status);
        ("timestamp", JStr (isoformat now ++ "Z"))] in
     let payload :=
       match error with
       | Some e =>
           if negb (e =? "")%string then dict_set payload "error" (JStr e)
           else payload
       | None => payload
       end in
     emit (StatusPost payload))
    (fun _ => ret tt).

Definition move_to_dlq (reason : string) : M unit :=
  try_except
    (let dlq_name := "failed.queue" in
     channel_call (QueueDeclare dlq_name true []) ;;
     message_setitem "failure_reason" (JStr reason) ;;
     now <- read_utcnow ;;
     message_setitem "failed_at" (JStr (isoformat now ++ "Z")) ;;
     msg <- read_message ;;
     channel_call (BasicPublish "" dlq_name (json_dumps msg) 2))
    (fun _ => ret tt).

Definition schedule_retry (delay : Z) : M unit :=
  try_except
    (let retry_queue := "push.retry." ++ str_of_Z delay in
     channel_call
       (QueueDeclare retry_queue true
          [("x-message-ttl", JInt (delay * 1000));
           ("x-dead-letter-exchange", JStr "");
           ("x-dead-letter-routing-key", JStr (QUEUE_NAME E))]) ;;
     msg <- read_message ;;
     channel_call (BasicPublish "" retry_queue (json_dumps msg) 2) ;;
     (* the log line evaluates [retry_count + 1] *)
     retry_count <- message_get "retry_count" (JInt 0) ;;
     _ <- lift (py_add_int retry_count 1) ;;
     ret tt)
    (fun _ => ret tt).

Definition basic_ack (delivery_tag : Z) : M unit :=
  channel_call (BasicAck delivery_tag).

Definition basic_nack (delivery_tag : Z) (requeue : bool) : M unit :=
  channel_call (BasicNack delivery_tag requeue).

(** [data_payload.update(meta)] *)
Definition data_payload_update (d : pydict) (meta : json) : result pydict :=
  match meta with
  | JObj fields =>
      Ok (fold_left (fun acc kv => pydict_set acc (fst kv) (snd kv))
            fields d)
  | _ =>
      match dict_update_iterable d meta with
      | Some d' => Ok d'
      | None => Raise TypeError
      end
  end.
Definition process_message (delivery_tag : Z) (b : body) : M unit :=
  try_except
    (parsed <- lift (json_loads b) ;;
     write_message parsed ;;
     notification_id <- message_get "notification_id" JNull ;;
     user_id <- message_get "user_id" JNull ;;
     template_code <- message_get "template_code" JNull ;;
     variables <- message_get "variables" (JObj []) ;;
     retry_count <- message_get "retry_count" (JInt 0) ;;
     (* the log line evaluates [retry_count + 1] *)
     _ <- lift (py_add_int retry_count 1) ;;
     let user_data := fetch_user_data user_id in
     if negb (truthy user_data) then
       move_to_dlq "User not found" ;;
       basic_ack delivery_tag ;;
       update_notification_status notification_id "failed"
         (Some "User not found")
     else
     push_token <- lift (py_get user_data "push_token" JNull) ;;
     if negb (truthy push_token) then
       move_to_dlq "Missing push token" ;;
       basic_ack delivery_tag ;;
       update_notification_status notification_id "failed"
         (Some "Missing push token")
     else
     preferences <- lift (py_get user_data "preferences" (JObj [])) ;;
     push <- lift (py_get preferences "push" (JBool true)) ;;
     if negb (truthy push) then
       basic_ack delivery_tag ;;
       update_notification_status notification_id "skipped"
         (Some "User disabled push notifications")
     else
     let template_data := fetch_template_data template_code in
     if negb (truthy template_data) then
       move_to_dlq "Template not found" ;;
       basic_ack delivery_tag ;;
       update_notification_status notification_id "failed"
         (Some "Template not found")
     else
     title_template <-
       lift (py_get template_data "title" (JStr "Notification")) ;;
     title <- lift (render_template_variables title_template variables) ;;
     body_template <- lift (py_get template_data "body" (JStr "")) ;;
     body_text <-
       lift (render_template_variables body_template variables) ;;
     image_url <- lift (py_get template_data "image_url" JNull) ;;
     link <- lift (py_get variables "link" (JStr "")) ;;
     let data_payload : pydict :=
       [(JStr "notification_id", notification_id);
        (JStr "link", JStr (py_str link))] in
     meta <- lift (py_get variables "meta" JNull) ;;
     data_payload <-
       (if truthy meta then lift (data_payload_update data_payload meta)
        else ret data_payload) ;;
     success <-
       send_push_notification_fcm push_token title body_text data_payload
         image_url ;;
     if success then
       basic_ack delivery_tag ;;
       update_notification_status notification_id "delivered" None
     else
     may_retry <- lift (py_lt_int retry_count MAX_RETRY_COUNT) ;;
     if may_retry then
       next_count <- lift (py_add_int retry_count 1) ;;
       message_setitem "retry_count" next_count ;;
       in_table <-
         lift (py_lt_int retry_count (Z.of_nat (List.length RETRY_DELAYS))) ;;
       delay <-
         lift (if in_table then py_index RETRY_DELAYS retry_count
               else py_index RETRY_DELAYS (JInt (-1))) ;;
       schedule_retry delay ;;
       basic_ack delivery_tag ;;
       attempt <- lift (py_add_int retry_count 1) ;;
       update_notification_status notification_id "pending"
         (Some ("Retry scheduled (attempt " ++ py_str attempt ++ ")"))
     else
       move_to_dlq "Max retries exceeded" ;;
       basic_ack delivery_tag ;;
       update_notification_status notification_id "failed"
         (Some "Max retries exceeded"))
    (fun e =>
       match e with
       | JSONDecodeError => basic_nack delivery_tag false
       | _ => basic_nack delivery_tag false
       end).

(** One delivery of [b] by the broker: what the callback returns (or the
    exception that escapes it) and the calls it issued. *)
Definition run (delivery_tag : Z) (b : body) : result unit * world :=
  process_message delivery_tag b init_world.

Definition calls (delivery_tag : Z) (b : body) : list event :=
  trace (snd (run delivery_tag b)).
End Consumer.

(** ** The broker's side of a retry

    A retry queue is declared with a TTL and with the main queue as its
    dead-letter target: a body published there comes back on the main queue
    when the TTL expires, and the consumer receives it again. *)

Definition is_retry_publish (ev : event) : bool :=
  match ev with
  | BasicPublish _ routing_key _ _ => starts_with "push.retry." routing_key
  | _ => false
  end.

Definition is_dead_letter_publish (ev : event) : bool :=
  match ev with
  | BasicPublish _ routing_key _ _ => (routing_key =? "failed.queue")%string
  | _ => false
  end.

(** The body a delivery left on a retry queue, if the broker accepted it. *)
Definition retry_published (E : Env) (tr : list event) : option body :=
  match
    find (fun ev => is_retry_publish ev && negb (channel_fault E ev)) tr
  with
  | Some (BasicPublish _ _ payload _) => Some payload
  | _ => None
  end.

(** The calls issued over the successive deliveries of one item, one
    environment and delivery tag per delivery, for as long as a delivery
    leaves a copy on a retry queue. *)
Fixpoint lifecycle {rt : PyRuntime} (deliveries : list (Env * Z)) (b : body)
  : list (list event) :=
  match deliveries with
  | [] => []
  | (E, tag) :: rest =>
      let tr := calls E tag b in
      tr :: match retry_published E tr with
            | Some b' => lifecycle rest b'
            | None => []
            end
  end.

(** ** Vocabulary of the statements *)

(** [d.get(k, default)] on the fields of a message. *)
Definition field (d : list (string * json)) (k : string) (default : json)
  : json :=
  match dict_lookup d k with Some v => v | None => default end.

Definition broker_healthy (E : Env) : Prop :=
  forall ev, channel_fault E ev = false.

Definition is_ack (ev : event) : bool :=
  match ev with BasicAck _ => true | _ => false end.

Definition is_nack (ev : event) : bool :=
  match ev with BasicNack _ _ => true | _ => false end.

Definition is_status_post (ev : event) : bool :=
  match ev with StatusPost _ => true | _ => false end.

Definition is_publish (ev : event) : bool :=
  match ev with BasicPublish _ _ _ _ => true | _ => false end.

Definition is_gateway_call (ev : event) : bool :=
  match ev with GatewayCall _ _ _ _ _ _ => true | _ => false end.

(** The gateway was called and reported a failure ([success] is [False]). *)
Definition delivery_failed (ev : event) : bool :=
  match ev with
  | GatewayCall _ _ _ _ _ (Ok false) => true
  | _ => false
  end.

(** A status report with the given status and reason. *)
Definition reports (status reason : string) (ev : event) : bool :=
  match ev with
  | StatusPost payload =>
      match dict_lookup payload "status", dict_lookup payload "error" with
      | Some (JStr s), Some (JStr e) =>
          (s =? status)%string && (e =? reason)%string
      | _, _ => false
      end
  | _ => false
  end.

(** A status report with status [skipped]. *)
Definition is_skip_report (ev : event) : bool :=
  match ev with
  | StatusPost payload =>
      match dict_lookup payload "status" with
      | Some (JStr s) => (s =? "skipped")%string
      | _ => false
      end
  | _ => false
  end.

(** No publish is issued once an acknowledgement has been issued. *)
Fixpoint publishes_precede_acks (acked : bool) (tr : list event) : bool :=
  match tr with
  | [] => true
  | ev :: tr' =>
      if is_publish ev then negb acked && publishes_precede_acks acked tr'
      else publishes_precede_acks (acked || is_ack ev) tr'
  end.

(** Every publish is followed by an acknowledgement. *)
Fixpoint publishes_are_acked (tr : list event) : bool :=
  match tr with
  | [] => true
  | ev :: tr' =>
      (if is_publish ev then existsb is_ack tr' else true)
      && publishes_are_acked tr'
  end.

(** The tier table at index [k], the last tier beyond the table. *)
Definition tier_delay (k : Z) : Z :=
  nth (Z.to_nat k) RETRY_DELAYS (last RETRY_DELAYS 0).

Definition status_payload (notification_id : json) (status : string)
  (now : datetime) (error : option string) : list (string * json) :=
  [("notification_id", notification_id);
   ("status", JStr status);
   ("timestamp", JStr (isoformat now ++ "Z"))]
  ++ match error with Some e => [("error", JStr e)] | None => [] end.

(** The message with the two dead-letter fields assigned. *)
Definition dead_lettered (d : list (string * json)) (reason : string)
  (now : datetime) : list (string * json) :=
  dict_set (dict_set d "failure_reason" (JStr reason))
    "failed_at" (JStr (isoformat now ++ "Z")).

(** What a healthy broker sees of a dead-lettering: the declaration of the
    dead-letter queue, the publish, the acknowledgement; then the status
    report. *)
Definition dead_letter_calls (E : Env) (tag : Z) (d : list (string * json))
  (reason : string) : list event :=
  [QueueDeclare "failed.queue" true [];
   BasicPublish "" "failed.queue"
     (Encoded (JObj (dead_lettered d reason (utcnow E 0)))) 2;
   BasicAck tag;
   StatusPost
     (status_payload (field d "notification_id" JNull) "failed"
        (utcnow E 1) (Some reason))].

(** What a healthy broker sees of a retry of an item at attempt count [k]. *)
Definition retry_calls (E : Env) (tag : Z) (d : list (string * json))
  (k : Z) : list event :=
  let delay := tier_delay k in
  let retry_queue := "push.retry." ++ str_of_Z delay in
  [QueueDeclare retry_queue true
     [("x-message-ttl", JInt (delay * 1000));
      ("x-dead-letter-exchange", JStr "");
      ("x-dead-letter-routing-key", JStr (QUEUE_NAME E))];
   BasicPublish "" retry_queue
     (Encoded (JObj (dict_set d "retry_count" (JInt (k + 1))))) 2;
   BasicAck tag;
   StatusPost
     (status_payload (field d "notification_id" JNull) "pending"
        (utcnow E 0)
        (Some ("Retry scheduled (attempt " ++ str_of_Z (k + 1) ++ ")")))].

Definition skip_calls (E : Env) (tag : Z) (d : list (string * json))
  (reason : string) : list event :=
  [BasicAck tag;
   StatusPost
     (status_payload (field d "notification_id" JNull) "skipped"
        (utcnow E 0) (Some reason))].

(** *** Timestamps *)

Definition is_digit (c : ascii) : bool :=
  let n := nat_of_ascii c in (48 <=? n)%nat && (n <=? 57)%nat.

(** Exactly [n] decimal digits. *)
Fixpoint is_digits (n : nat) (s : string) : bool :=
  match n, s with
  | O, EmptyString => true
  | S n', String c s' => is_digit c && is_digits n' s'
  | _, _ => false
  end.

(** [n] digits at the front of [s], and what follows them. *)
Fixpoint take_digits (n : nat) (s : string) : option string :=
  match n with
  | O => Some s
  | S n' =>
      match s with
      | String c s' => if is_digit c then take_digits n' s' else None
      | EmptyString => None
      end
  end.

Definition take_char (c : ascii) (s : string) : option string :=
  match s with
  | String c' s' => if Ascii.eqb c c' then Some s' else None
  | EmptyString => None
  end.

Definition and_then {A B} (o : option A) (f : A -> option B) : option B :=
  match o with Some a => f a | None => None end.

(** [YYYY-MM-DDTHH:MM:SS] with an optional [.ffffff], then [Z]. *)
Definition iso8601_utc_z (s : string) : bool :=
  match
    and_then (take_digits 4 s) (fun s =>
    and_then (take_char "-" s) (fun s =>
    and_then (take_digits 2 s) (fun s =>
    and_then (take_char "-" s) (fun s =>
    and_then (take_digits 2 s) (fun s =>
    and_then (take_char "T" s) (fun s =>
    and_then (take_digits 2 s) (fun s =>
    and_then (take_char ":" s) (fun s =>
    and_then (take_digits 2 s) (fun s =>
    and_then (take_char ":" s) (fun s =>
    take_digits 2 s))))))))))
  with
  | Some "Z" => true
  | Some rest =>
      match and_then (take_char "." rest) (take_digits 6) with
      | Some "Z" => true
      | _ => false
      end
  | None => false
  end.

(** *** Occurrences and replacement, stated without the scan *)

Definition occurs_at (old s a b : string) : Prop := s = a ++ old ++ b.

(** [r] is [s] with the non-overlapping occurrences of [old], taken from
    the left, replaced by [new]. *)
Inductive replaced (old new : string) : string -> string -> Prop :=
| replaced_none s :
    (forall a b, ~ occurs_at old s a b) ->
    replaced old new s s
| replaced_hit a b r :
    (forall a' b', occurs_at old (a ++ old ++ b) a' b' ->
                   (String.length a <= String.length a')%nat) ->
    replaced old new b r ->
    replaced old new (a ++ old ++ b) (a ++ new ++ r).

(** The variables applied one after the other, in insertion order. *)
Inductive rendered {rt : PyRuntime}
  : list (string * json) -> string -> string -> Prop :=
| rendered_nil t : rendered [] t t
| rendered_cons k v items t t' out :
    replaced (placeholder k) (py_str v) t t' ->
    rendered items t' out ->
    rendered ((k, v) :: items) t out.

(** *** Templates as text and tokens *)

Inductive segment : Type :=
| Text (s : string)
| Token (name : string).

Definition segment_text (sg : segment) : string :=
  match sg with
  | Text s => s
  | Token name => placeholder name
  end.

Fixpoint flatten (segs : list segment) : string :=
  match segs with
  | [] => ""
  | sg :: segs' => segment_text sg ++ flatten segs'
  end.

Fixpoint has_char (c : ascii) (s : string) : bool :=
  match s with
  | EmptyString => false
  | String c' s' => Ascii.eqb c c' || has_char c s'
  end.

Definition no_open_brace (s : string) : bool := negb (has_char "{" s).

Definition brace_free (s : string) : bool :=
  negb (has_char "{" s) && negb (has_char "}" s).

(** Text without an opening brace, token names without braces. *)
Definition plain_segment (sg : segment) : bool :=
  match sg with
  | Text s => no_open_brace s
  | Token name => brace_free name
  end.

(** Keys without braces, values whose string form has no opening brace. *)
Definition plain_variable {rt : PyRuntime} (kv : string * json) : bool :=
  brace_free (fst kv) && no_open_brace (py_str (snd kv)).

(** A token whose name is a variable becomes the value's string form; any
    other segment stays as it is. *)
Definition substitute {rt : PyRuntime} (items : list (string * json))
  (sg : segment) : segment :=
  match sg with
  | Text s => Text s
  | Token name =>
      match dict_lookup items name with
      | Some v => Text (py_str v)
      | None => Token name
      end
  end.

Definition substitute_one (k val : string) (sg : segment) : segment :=
  match sg with
  | Text s => Text s
  | Token name => if (k =? name)%string then Text val else Token name
  end.

(** *** Sample data *)

Definition sample_runtime : PyRuntime :=
  {| float_repr := fun _ => "0.0";
     str_repr := fun s => "'" ++ s ++ "'";
     dict_update_iterable := fun _ _ => None |}.

Definition sample_time : datetime :=
  {| year := 2025; month := 11; day := 3;
     hour := 9; minute := 5; second := 7; microsecond := 120 |}.

Definition ok_response (data : json) : http_outcome :=
  HttpResponse 200 (Some (JObj [("data", data)])).

Definition sample_user : json :=
  JObj [("push_token", JStr "device-1");
        ("preferences", JObj [("push", JBool true)])].

Definition sample_template : json :=
  JObj [("title", JStr "Hello"); ("body", JStr "Hi {{name}}")].

(** An environment with a healthy broker and a configured gateway that
    answers every send with [gateway_ok]. *)
Definition sample_env (user template : http_outcome) (gateway_ok : bool)
  : Env :=
  {| QUEUE_NAME := "push.queue";
     user_service := fun _ => user;
     template_service := fun _ => template;
     firebase_initialized := true;
     messaging_send := fun _ _ _ _ _ => gateway_ok;
     channel_fault := fun _ => false;
     utcnow := fun _ => sample_time |}.

Definition failing_env : Env :=
  sample_env (ok_response sample_user) (ok_response sample_template) false.

Definition sample_fields : list (string * json) :=
  [("notification_id", JStr "n-1");
   ("user_id", JStr "u-1");
   ("template_code", JStr "welcome");
   ("variables", JObj [("name", JStr "Ada")])].

Definition sample_item (retry_count : Z) : list (string * json) :=
  dict_set sample_fields "retry_count" (JInt retry_count).

(** ** Vocabulary of the further properties *)

Definition DEAD_LETTER_REASONS : list string :=
  ["User not found"; "Missing push token"; "Template not found";
   "Max retries exceeded"].

(** The fields of the message a body stands for; none when the body is not
    an object. *)
Definition message_fields (b : body) : list (string * json) :=
  match b with
  | Encoded (JObj d) => d
  | _ => []
  end.

Definition count (p : event -> bool) (tr : list event) : nat :=
  List.length (filter p tr).

(** A call satisfying [p] can only be the last one. *)
Fixpoint only_last (p : event -> bool) (tr : list event) : bool :=
  match tr with
  | [] => true
  | ev :: tr' =>
      (if p ev then match tr' with [] => true | _ => false end else true)
      && only_last p tr'
  end.

(** A publish on a retry queue comes after a failed gateway call. *)
Fixpoint retries_follow_failure (failed : bool) (tr : list event) : bool :=
  match tr with
  | [] => true
  | ev :: tr' =>
      (if is_retry_publish ev then failed else true)
      && retries_follow_failure (failed || delivery_failed ev) tr'
  end.

(** The gateway call, when there is one, is the first call. *)
Definition gateway_call_is_first (tr : list event) : bool :=
  match tr with
  | [] => true
  | _ :: tr' => negb (existsb is_gateway_call tr')
  end.

Definition is_queue_declare (ev : event) : bool :=
  match ev with QueueDeclare _ _ _ => true | _ => false end.

Definition is_dead_letter_declare (ev : event) : bool :=
  match ev with
  | QueueDeclare queue _ _ => (queue =? "failed.queue")%string
  | _ => false
  end.

Definition is_retry_declare (ev : event) : bool :=
  match ev with
  | QueueDeclare queue _ _ => starts_with "push.retry." queue
  | _ => false
  end.

(** The gateway was called and reported a success ([success] is [True]). *)
Definition delivery_succeeded (ev : event) : bool :=
  match ev with
  | GatewayCall _ _ _ _ _ (Ok true) => true
  | _ => false
  end.

(** The gateway was called and [send_push_notification_fcm] raised. *)
Definition gateway_raised (ev : event) : bool :=
  match ev with
  | GatewayCall _ _ _ _ _ (Raise _) => true
  | _ => false
  end.

(** A status report with the given status. *)
Definition has_status (status : string) (ev : event) : bool :=
  match ev with
  | StatusPost payload =>
      match dict_lookup payload "status" with
      | Some (JStr s) => (s =? status)%string
      | _ => false
      end
  | _ => false
  end.

Definition shape_ok (tr : list event) : bool :=
  (count is_gateway_call tr <=? 1)%nat
  && (count is_ack tr <=? 1)%nat
  && (count is_nack tr <=? 1)%nat
  && (count is_status_post tr <=? 1)%nat
  && (existsb is_ack tr || existsb is_nack tr)
  && only_last is_status_post tr
  && only_last is_nack tr
  && implb (existsb is_status_post tr) (existsb is_ack tr)
  && retries_follow_failure false tr
  && implb (existsb is_publish tr && existsb is_gateway_call tr)
       (existsb delivery_failed tr)
  && gateway_call_is_first tr
  && (count is_publish tr <=? 1)%nat
  && (count is_queue_declare tr <=? 1)%nat.

(** How the status report, the queue declared and the settlement go with
    what the gateway answered. *)
Definition outcome_ok (tr : list event) : bool :=
  implb (existsb gateway_raised tr)
    ((List.length tr =? 2)%nat && existsb is_nack tr)
  && implb (existsb delivery_succeeded tr)
       (negb (existsb is_queue_declare tr) && existsb is_ack tr)
  && implb (existsb (has_status "delivered") tr)
       (existsb delivery_succeeded tr)
  && implb (existsb delivery_succeeded tr && existsb is_status_post tr)
       (existsb (has_status "delivered") tr)
  && implb (existsb (has_status "skipped") tr) (List.length tr =? 2)%nat
  && implb (existsb (has_status "pending") tr)
       (existsb delivery_failed tr && existsb is_retry_declare tr)
  && implb (existsb is_retry_declare tr && existsb is_status_post tr)
       (existsb (has_status "pending") tr)
  && implb (existsb is_retry_declare tr) (existsb delivery_failed tr)
  && implb (existsb (has_status "failed") tr)
       (existsb is_dead_letter_declare tr)
  && implb (existsb is_dead_letter_declare tr && existsb is_status_post tr)
       (existsb (has_status "failed") tr)
  && implb (existsb (reports "failed" "Max retries exceeded") tr)
       (existsb delivery_failed tr)
  && implb
       (existsb is_dead_letter_declare tr && existsb delivery_failed tr
        && existsb is_status_post tr)
       (existsb (reports "failed" "Max retries exceeded") tr)
  && implb (existsb is_queue_declare tr) (existsb is_ack tr)
  && implb (existsb delivery_failed tr)
       (existsb is_queue_declare tr || existsb is_nack tr).

(** How the calls go with the faults of the broker: a publish is issued
    exactly when the declaration of its queue went through, and an
    acknowledgement is followed by a negative one when it is refused, by
    the status report when it is accepted. *)
Definition faults_ok (E : Env) (tag : Z) (tr : list event) : bool :=
  forallb
    (fun ev =>
       implb (is_queue_declare ev)
         (Bool.eqb (channel_fault E ev) (negb (existsb is_publish tr))))
    tr
  && implb (existsb is_ack tr)
       (if channel_fault E (BasicAck tag) then existsb is_nack tr
        else existsb is_status_post tr).

(** The reason reported to the status endpoint is the one stored in the
    dead-lettered message. *)
Definition reasons_agree (tr : list event) : Prop :=
  forall exchange routing_key fields mode payload,
    In (BasicPublish exchange routing_key (Encoded (JObj fields)) mode) tr ->
    In (StatusPost payload) tr ->
    routing_key = "failed.queue" ->
    dict_lookup payload "error" = dict_lookup fields "failure_reason".

(** Every publish comes right after the declaration of its queue. *)
Fixpoint publish_follows_declare (prev : option event) (tr : list event)
  : Prop :=
  match tr with
  | [] => True
  | ev :: tr' =>
      match ev with
      | BasicPublish _ routing_key _ _ =>
          exists arguments,
            prev = Some (QueueDeclare routing_key true arguments)
      | _ => True
      end
      /\ publish_follows_declare (Some ev) tr'
  end.

Definition retry_queue_arguments (E : Env) (delay : Z)
  : list (string * json) :=
  [("x-message-ttl", JInt (delay * 1000));
   ("x-dead-letter-exchange", JStr "");
   ("x-dead-letter-routing-key", JStr (QUEUE_NAME E))].

(** What [send_push_notification_fcm] answers. *)
Definition gateway_outcome (E : Env) (device_token title body_text : json)
  (data : pydict) (image_url : json) : result bool :=
  if negb (firebase_initialized E) then
    match device_token with
    | JStr _ | JList _ => Ok true
    | _ => Raise TypeError
    end
  else Ok (messaging_send E device_token title body_text data image_url).

Section CallContracts.
Context {rt : PyRuntime}.
Variable E : Env.
Variable tag : Z.
Variable d : list (string * json).

(** The status and reason pairs the consumer reports. *)
Definition status_ok (status : string) (error : option string) : Prop :=
  (status = "delivered" /\ error = None)
  \/ (status = "skipped"
      /\ error = Some "User disabled push notifications")
  \/ (status = "failed"
      /\ exists reason, In reason DEAD_LETTER_REASONS /\ error = Some reason)
  \/ (status = "pending"
      /\ exists next,
           py_add_int (field d "retry_count" (JInt 0)) 1 = Ok next
           /\ error
              = Some ("Retry scheduled (attempt " ++ py_str next ++ ")")).

(** How the arguments of a gateway call derive from the message, the user
    profile and the template record. *)
Definition gateway_request_ok (device_token title body_text : json)
  (data : pydict) (image_url : json) (outcome : result bool) : Prop :=
  let user := fetch_user_data E (field d "user_id" JNull) in
  let template := fetch_template_data E (field d "template_code" JNull) in
  let variables := field d "variables" (JObj []) in
  truthy user = true
  /\ py_get user "push_token" JNull = Ok device_token
  /\ truthy device_token = true
  /\ (exists preferences push,
        py_get user "preferences" (JObj []) = Ok preferences
        /\ py_get preferences "push" (JBool true) = Ok push
        /\ truthy push = true)
  /\ truthy template = true
  /\ (exists title_template,
        py_get template "title" (JStr "Notification") = Ok title_template
        /\ render_template_variables title_template variables = Ok title)
  /\ (exists body_template,
        py_get template "body" (JStr "") = Ok body_template
        /\ render_template_variables body_template variables = Ok body_text)
  /\ py_get template "image_url" JNull = Ok image_url
  /\ (exists link meta,
        py_get variables "link" (JStr "") = Ok link
        /\ py_get variables "meta" JNull = Ok meta
        /\ let base :=
             [(JStr "notification_id", field d "notification_id" JNull);
              (JStr "link", JStr (py_str link))] in
           if truthy meta then data_payload_update base meta = Ok data
           else data = base)
  /\ outcome
     = gateway_outcome E device_token title body_text data image_url.

(** What each call of a delivery looks like, given the fields [d] of the
    message. *)
Definition call_ok (ev : event) : Prop :=
  match ev with
  | QueueDeclare queue durable arguments =>
      durable = true
      /\ ((queue = "failed.queue" /\ arguments = [])
          \/ exists delay,
               In delay RETRY_DELAYS
               /\ queue = "push.retry." ++ str_of_Z delay
               /\ arguments = retry_queue_arguments E delay)
  | BasicPublish exchange routing_key payload delivery_mode =>
      exchange = "" /\ delivery_mode = 2
      /\ ((routing_key = "failed.queue"
           /\ exists reason,
                In reason DEAD_LETTER_REASONS
                /\ payload
                   = Encoded (JObj (dead_lettered d reason (utcnow E 0))))
          \/ exists delay next,
               In delay RETRY_DELAYS
               /\ routing_key = "push.retry." ++ str_of_Z delay
               /\ py_lt_int (field d "retry_count" (JInt 0)) MAX_RETRY_COUNT
                  = Ok true
               /\ py_add_int (field d "retry_count" (JInt 0)) 1 = Ok next
               /\ payload
                  = Encoded (JObj (dict_set d "retry_count" next)))
  | BasicAck delivery_tag => delivery_tag = tag
  | BasicNack delivery_tag requeue => delivery_tag = tag /\ requeue = false
  | StatusPost payload =>
      exists status error n,
        (n <= 1)%nat
        /\ status_ok status error
        /\ payload
           = status_payload (field d "notification_id" JNull) status
               (utcnow E n) error
  | GatewayCall device_token title body_text data image_url outcome =>
      gateway_request_ok device_token title body_text data image_url outcome
  end.
End CallContracts.

(** What follows a failure reported by the gateway, by the attempt count
    of the message [d]: dead-lettering at or beyond the limit, a retry on
    the tier the count selects, or a rejection when the count is no index
    of the tier table. *)
Definition after_failure_ok (E : Env) (tag : Z) (d : list (string * json))
  (tr : list event) : Prop :=
  existsb delivery_failed tr = true ->
  match py_lt_int (field d "retry_count" (JInt 0)) MAX_RETRY_COUNT with
  | Ok false =>
      existsb is_dead_letter_declare tr = true
      /\ forall exchange routing_key payload mode,
           In (BasicPublish exchange routing_key payload mode) tr ->
           payload
           = Encoded
               (JObj (dead_lettered d "Max retries exceeded" (utcnow E 0)))
  | Ok true =>
      match py_index RETRY_DELAYS (field d "retry_count" (JInt 0)) with
      | Ok delay =>
          In (QueueDeclare ("push.retry." ++ str_of_Z delay) true
                (retry_queue_arguments E delay)) tr
      | Raise _ => exists g, tr = [g; BasicNack tag false]
      end
  | Raise _ => False
  end.

(** No acknowledgement is issued before a queue is declared. *)
Fixpoint declares_precede_acks (acked : bool) (tr : list event) : bool :=
  match tr with
  | [] => true
  | ev :: tr' =>
      if is_queue_declare ev
      then negb acked && declares_precede_acks acked tr'
      else declares_precede_acks (acked || is_ack ev) tr'
  end.

(** The reason for which [process_message] dead-letters the message [d]
    before it gets to the gateway, when it does: the three guards on the
    user profile, the push token and the template, in the order of the
    code. *)
Definition early_dead_letter (E : Env) (d : list (string * json))
  : option string :=
  let user_data := fetch_user_data E (field d "user_id" JNull) in
  if negb (truthy user_data) then Some "User not found"
  else
    match py_get user_data "push_token" JNull with
    | Raise _ => None
    | Ok push_token =>
        if negb (truthy push_token) then Some "Missing push token"
        else
          match py_get user_data "preferences" (JObj []) with
          | Raise _ => None
          | Ok preferences =>
              match py_get preferences "push" (JBool true) with
              | Raise _ => None
              | Ok push =>
                  if negb (truthy push) then None
                  else if negb
                            (truthy
                               (fetch_template_data E
                                  (field d "template_code" JNull)))
                  then Some "Template not found"
                  else None
              end
          end
    end.

(** The paths of [process_message] that call [move_to_dlq] or
    [schedule_retry] on the message [d], whose calls are [tr]: the message
    has a numeric attempt count and either one of the three early guards
    dead-letters it, or the gateway reported a failure and the count is at
    or beyond the limit (dead-letter) or selects a tier (retry). *)
Definition dead_letters_or_retries (E : Env) (d : list (string * json))
  (tr : list event) : Prop :=
  (exists next, py_add_int (field d "retry_count" (JInt 0)) 1 = Ok next)
  /\ ((exists reason, early_dead_letter E d = Some reason)
      \/ (existsb delivery_failed tr = true
          /\ (py_lt_int (field d "retry_count" (JInt 0)) MAX_RETRY_COUNT
              = Ok false
              \/ exists delay,
                   py_index RETRY_DELAYS (field d "retry_count" (JInt 0))
                   = Ok delay))).

(** [d.get(k)] on the gateway's data mapping, for a string key. *)
Fixpoint pydict_lookup (d : pydict) (k : string) : option json :=
  match d with
  | [] => None
  | (JStr k', v) :: d' =>
      if (k' =? k)%string then Some v else pydict_lookup d' k
  | _ :: d' => pydict_lookup d' k
  end.

(** *** Further sample data *)

(** [E] with a broker that refuses the calls selected by [refused]. *)
Definition with_faults (E : Env) (refused : event -> bool) : Env :=
  {| QUEUE_NAME := QUEUE_NAME E;
     user_service := user_service E;
     template_service := template_service E;
     firebase_initialized := firebase_initialized E;
     messaging_send := messaging_send E;
     channel_fault := refused;
     utcnow := utcnow E |}.

(** [E] without Firebase credentials: the gateway is simulated. *)
Definition without_firebase (E : Env) : Env :=
  {| QUEUE_NAME := QUEUE_NAME E;
     user_service := user_service E;
     template_service := template_service E;
     firebase_initialized := false;
     messaging_send := messaging_send E;
     channel_fault := channel_fault E;
     utcnow := utcnow E |}.

Definition delivering_env : Env :=
  sample_env (ok_response sample_user) (ok_response sample_template) true.

(** ** The consumer loop

    [start_consumer] connects, declares the queue, registers the callback
    and blocks in [start_consuming]; it leaves the loop on
    [KeyboardInterrupt] and starts over, after five seconds, on any other
    exception. The loop is modelled by the calls it issues on the client
    library and on [time.sleep], each of which returns or raises as the
    outside world decides; the deliveries handled inside
    [start_consuming] are those of [process_message] above. *)

(** What a call can raise, by the [except] clause it meets. *)
Inductive raised : Type :=
| KeyboardInterrupt
| AMQPConnectionError
| OtherException       (* any other subclass of [Exception] *)
| OtherBaseException.  (* [SystemExit] and the like *)

Inductive consumer_call : Type :=
| Connect (heartbeat blocked_connection_timeout : Z)
| OpenChannel
| DeclareQueue (queue : string) (durable : bool)
    (arguments : list (string * json))
| BasicQos (prefetch_count : Z)
| BasicConsume (queue : string) (auto_ack : bool)
| StartConsuming
| Sleep (seconds : Z).

(** Whether the call issued after [n] earlier ones raises. *)
Definition Outside : Type := nat -> consumer_call -> option raised.

(** A computation of the loop: the calls issued so far are threaded, and
    a result or an exception comes out. *)
Definition LoopM (A : Type) : Type :=
  list consumer_call -> (A + raised) * list consumer_call.

Definition then_ {A B} (m : LoopM A) (k : LoopM B) : LoopM B :=
  fun issued =>
    match m issued with
    | (inl _, issued') => k issued'
    | (inr e, issued') => (inr e, issued')
    end.

Inductive consumer_state : Type :=
| Stopped   (* the loop was left by [break] *)
| Running.  (* the loop is still turning *)

Section Loop.
Variable E : Env.
Variable outside : Outside.

Definition invoke (c : consumer_call) : LoopM unit :=
  fun issued =>
    (match outside (List.length issued) c with
     | Some e => inr e
     | None => inl tt
     end,
     (issued ++ [c])%list).

(** An exception of class [Exception] is logged and raised again. *)
Definition get_rabbitmq_connection : LoopM unit :=
  fun issued =>
    match invoke (Connect 600 300) issued with
    | (inr AMQPConnectionError, issued') => (inr AMQPConnectionError, issued')
    | (inr OtherException, issued') => (inr OtherException, issued')
    | done => done
    end.

(** The body of the [try] statement of the loop. *)
Definition session : LoopM unit :=
  then_ get_rabbitmq_connection
    (then_ (invoke OpenChannel)
       (then_ (invoke
               (DeclareQueue (QUEUE_NAME E) true
                  [("x-max-priority", JInt 10)]))
          (then_ (invoke (BasicQos 1))
             (then_ (invoke (BasicConsume (QUEUE_NAME E) false))
                (invoke StartConsuming))))).

(** [fuel] turns of the [while True] loop. *)
Fixpoint start_consumer (fuel : nat) : LoopM consumer_state :=
  match fuel with
  | O => fun issued => (inl Running, issued)
  | S fuel' =>
      fun issued =>
        match session issued with
        | (inl _, issued') => start_consumer fuel' issued'
        | (inr KeyboardInterrupt, issued') => (inl Stopped, issued')
        | (inr AMQPConnectionError, issued') =>
            then_ (invoke (Sleep 5)) (start_consumer fuel') issued'
        | (inr OtherException, issued') =>
            then_ (invoke (Sleep 5)) (start_consumer fuel') issued'
        | (inr OtherBaseException, issued') =>
            (inr OtherBaseException, issued')
        end
  end.
End Loop.

(** The calls of a session that runs undisturbed. *)
Definition session_calls (E : Env) : list consumer_call :=
  [Connect 600 300;
   OpenChannel;
   DeclareQueue (QUEUE_NAME E) true [("x-max-priority", JInt 10)];
   BasicQos 1;
   BasicConsume (QUEUE_NAME E) false;
   StartConsuming].

(** The calls that set a session up, before it starts consuming. *)
Definition setup_calls (E : Env) : list consumer_call :=
  [Connect 600 300;
   OpenChannel;
   DeclareQueue (QUEUE_NAME E) true [("x-max-priority", JInt 10)];
   BasicQos 1;
   BasicConsume (QUEUE_NAME E) false].

Definition is_sleep (c : consumer_call) : bool :=
  match c with Sleep _ => true | _ => false end.

(** Exceptions that no clause of the loop turns into a new session. *)
Definition ends_loop (e : raised) : bool :=
  match e with
  | KeyboardInterrupt | OtherBaseException => true
  | AMQPConnectionError | OtherException => false
  end.

(** An outside world in which only the call after [n] earlier ones raises,
    and raises [e]. *)
Definition raises_at (n : nat) (e : raised) : Outside :=
  fun m _ => if (m =? n)%nat then Some e else None.

(** The calls of the loop from the position [p] on: a session that
    returned is followed by the next one at once; a session that raised is
    a prefix of [session_calls] whose calls but the last returned, and it
    is the end of the loop or is followed by a pause of five seconds. *)
Inductive rounds (E : Env) (outside : Outside)
  : nat -> list consumer_call -> Prop :=
| rounds_done p : rounds E outside p []
| rounds_returned p tr :
    (forall i c,
       nth_error (session_calls E) i = Some c ->
       outside (i + p)%nat c = None) ->
    rounds E outside (6 + p) tr ->
    rounds E outside p (session_calls E ++ tr)
| rounds_left p n :
    (1 <= n <= 6)%nat ->
    (forall i c,
       (i < n - 1)%nat -> nth_error (session_calls E) i = Some c ->
       outside (i + p)%nat c = None) ->
    rounds E outside p (firstn n (session_calls E))
| rounds_pause p n tr :
    (1 <= n <= 6)%nat ->
    (forall i c,
       (i < n - 1)%nat -> nth_error (session_calls E) i = Some c ->
       outside (i + p)%nat c = None) ->
    rounds E outside (S (n + p)) tr ->
    rounds E outside p (firstn n (session_calls E) ++ Sleep 5 :: tr).

(** A broker that is down: every connection attempt fails. *)
Definition broker_down : Outside :=
  fun _ c =>
    match c with
    | Connect _ _ => Some AMQPConnectionError
    | _ => None
    end.

(** ** The model on concrete messages *)

Example isoformat_sample :
  isoformat sample_time = "2025-11-03T09:05:07.000120".
Proof. reflexivity. Qed.

Example isoformat_whole_second :
  isoformat {| year := 987; month := 1; day := 2;
               hour := 0; minute := 0; second := 59; microsecond := 0 |}
  = "0987-01-02T00:00:59".
Proof. reflexivity. Qed.

Example str_replace_leftmost : str_replace "aaaa" "aa" "b" = "bb".
Proof. reflexivity. Qed.

Example str_replace_overlap : str_replace "{{{a}}}" "{{a}}" "1" = "{1}".
Proof. reflexivity. Qed.

Example py_str_list :
  py_str (rt := sample_runtime) (JList [JInt (-12); JStr "a"; JNull; JBool true])
  = "[-12, 'a', None, True]".
Proof. reflexivity. Qed.

Example negative_index : py_index RETRY_DELAYS (JInt (-1)) = Ok 900.
Proof. reflexivity. Qed.

Example index_out_of_range :
  py_index RETRY_DELAYS (JInt (-4)) = Raise IndexError.
Proof. reflexivity. Qed.

(** A delivered notification: one gateway call, the acknowledgement, the
    status report. *)
Example delivered_calls :
  calls (rt := sample_runtime)
    (sample_env (ok_response sample_user) (ok_response sample_template) true)
    1 (Encoded (JObj sample_fields))
  = [GatewayCall (JStr "device-1") (JStr "Hello") (JStr "Hi Ada")
       [(JStr "notification_id", JStr "n-1"); (JStr "link", JStr "")]
       JNull (Ok true);
     BasicAck 1;
     StatusPost
       [("notification_id", JStr "n-1"); ("status", JStr "delivered");
        ("timestamp", JStr "2025-11-03T09:05:07.000120Z")]].
Proof. reflexivity. Qed.

(** Scenario A: a profile without push token. *)
Example missing_token_calls :
  calls (rt := sample_runtime)
    (sample_env (ok_response (JObj [("preferences", JObj [])]))
       (ok_response sample_template) true)
    1 (Encoded (JObj sample_fields))
  = dead_letter_calls failing_env 1 sample_fields "Missing push token".
Proof. reflexivity. Qed.

(** A first failure: the copy goes to the 60 s retry queue with attempt
    count 1. *)
Example first_failure_calls :
  calls (rt := sample_runtime) failing_env 1 (Encoded (JObj sample_fields))
  = [GatewayCall (JStr "device-1") (JStr "Hello") (JStr "Hi Ada")
       [(JStr "notification_id", JStr "n-1"); (JStr "link", JStr "")]
       JNull (Ok false);
     QueueDeclare "push.retry.60" true
       [("x-message-ttl", JInt 60000);
        ("x-dead-letter-exchange", JStr "");
        ("x-dead-letter-routing-key", JStr "push.queue")];
     BasicPublish "" "push.retry.60" (Encoded (JObj (sample_item 1))) 2;
     BasicAck 1;
     StatusPost
       [("notification_id", JStr "n-1"); ("status", JStr "pending");
        ("timestamp", JStr "2025-11-03T09:05:07.000120Z");
        ("error", JStr "Retry scheduled (attempt 1)")]].
Proof. reflexivity. Qed.

(** An attempt count that is not a number stops the message at the first
    log line, before any lookup. *)
Example textual_retry_count_rejected :
  calls (rt := sample_runtime) failing_env 1
    (Encoded (JObj [("notification_id", JStr "n-1");
                    ("retry_count", JStr "2")]))
  = [BasicNack 1 false].
Proof. reflexivity. Qed.

(** A broker that refuses the declaration of the dead-letter queue: the
    fault is swallowed, nothing is published, the message is acknowledged
    all the same. *)
Example dead_letter_fault_swallowed :
  calls (rt := sample_runtime)
    {| QUEUE_NAME := "push.queue";
       user_service := fun _ => HttpTimeout;
       template_service := fun _ => HttpTimeout;
       firebase_initialized := false;
       messaging_send := fun _ _ _ _ _ => true;
       channel_fault :=
         fun ev => match ev with QueueDeclare _ _ _ => true | _ => false end;
       utcnow := fun _ => sample_time |}
    1 (Encoded (JObj sample_fields))
  = [QueueDeclare "failed.queue" true [];
     BasicAck 1;
     StatusPost
       [("notification_id", JStr "n-1"); ("status", JStr "failed");
        ("timestamp", JStr "2025-11-03T09:05:07.000120Z");
        ("error", JStr "User not found")]].
Proof. reflexivity. Qed.

(** ** Lemmas on strings and dictionaries *)

Lemma append_assoc (a b c : string) : ((a ++ b) ++ c = a ++ (b ++ c))%string.
Proof. induction a as [|x a IH]; simpl; [reflexivity | now rewrite IH]. Qed.

Lemma append_nil_r (a : string) : (a ++ "")%string = a.
Proof. induction a as [|x a IH]; simpl; [reflexivity | now rewrite IH]. Qed.

Lemma length_append (a b : string) :
  String.length (a ++ b) = (String.length a + String.length b)%nat.
Proof. induction a as [|x a IH]; simpl; [reflexivity | now rewrite IH]. Qed.

Lemma starts_with_append (p t : string) : starts_with p (p ++ t) = true.
Proof.
  induction p as [|c p IH]; simpl; [reflexivity|].
  now rewrite Ascii.eqb_refl, IH.
Qed.

Lemma starts_with_inv (p s : string) :
  starts_with p s = true -> exists t, s = (p ++ t)%string.
Proof.
  revert s; induction p as [|c p IH]; intros s H; simpl in *.
  - now exists s.
  - destruct s as [|c' s]; [discriminate|].
    apply andb_true_iff in H as [Hc Hp].
    apply Ascii.eqb_eq in Hc; subst c'.
    destruct (IH _ Hp) as [t ->]. now exists t.
Qed.

Lemma replace_scan_skip (old new u t : string) :
  replace_scan old new (String.length u) (u ++ t) = replace_scan old new 0 t.
Proof. induction u as [|c u IH]; simpl; [reflexivity | exact IH]. Qed.

(** Where the scan finds [old] at the front, it emits [new] and resumes
    after the occurrence. *)
Lemma replace_scan_hit (old new b : string) :
  old <> "" ->
  replace_scan old new 0 (old ++ b) = (new ++ replace_scan old new 0 b)%string.
Proof.
  intros Hne. destruct old as [|o old']; [congruence|].
  change ((String o old' ++ b)%string) with (String o (old' ++ b)).
  cbn [replace_scan].
  change (String o (old' ++ b)) with ((String o old' ++ b)%string).
  rewrite starts_with_append.
  cbn [String.length Nat.pred]. now rewrite replace_scan_skip.
Qed.

Lemma replace_scan_miss (old new : string) (c : ascii) (s : string) :
  starts_with old (String c s) = false ->
  replace_scan old new 0 (String c s) = String c (replace_scan old new 0 s).
Proof. intros H. cbn [replace_scan]. now rewrite H. Qed.

Lemma occurs_at_cons (old : string) (c : ascii) (s a b : string) :
  occurs_at old (String c s) a b ->
  (a = "" /\ starts_with old (String c s) = true) \/
  (exists a', a = String c a' /\ occurs_at old s a' b).
Proof.
  unfold occurs_at. intros H. destruct a as [|x a'].
  - left. split; [reflexivity|]. simpl in H. rewrite H.
    apply starts_with_append.
  - right. simpl in H. injection H as -> ->. now exists a'.
Qed.

Lemma replaced_cons (old new : string) (c : ascii) (s r : string) :
  starts_with old (String c s) = false ->
  replaced old new s r ->
  replaced old new (String c s) (String c r).
Proof.
  intros Hmiss Hr. destruct Hr as [s Hnone | a b r Hleft Hr].
  - apply replaced_none. intros a b Hocc.
    apply occurs_at_cons in Hocc as [[_ Hp] | (a' & _ & Hocc)].
    + congruence.
    + exact (Hnone _ _ Hocc).
  - change (String c (a ++ old ++ b)) with ((String c a ++ old ++ b)%string).
    change (String c (a ++ new ++ r)) with ((String c a ++ new ++ r)%string).
    apply replaced_hit; [|exact Hr].
    intros a' b' Hocc.
    change ((String c a ++ old ++ b)%string)
      with (String c (a ++ old ++ b)) in Hocc.
    apply occurs_at_cons in Hocc as [[_ Hp] | (a'' & -> & Hocc)].
    + change (String c (a ++ old ++ b)) with (String c (a ++ old ++ b)) in Hp.
      congruence.
    + simpl. apply le_n_S. exact (Hleft _ _ Hocc).
Qed.

Lemma replace_scan_replaced (old new : string) :
  old <> "" ->
  forall n s, (String.length s < n)%nat ->
    replaced old new s (replace_scan old new 0 s).
Proof.
  intros Hne. induction n as [|n IH]; intros s Hlen; [lia|].
  destruct s as [|c s].
  - simpl. apply replaced_none. intros a b Hocc. unfold occurs_at in Hocc.
    destruct a; [|discriminate]. simpl in Hocc.
    destruct old; [congruence | discriminate].
  - destruct (starts_with old (String c s)) eqn:Hp.
    + destruct (starts_with_inv _ _ Hp) as [b Hb]. rewrite Hb.
      rewrite replace_scan_hit by exact Hne.
      apply (replaced_hit old new "" b).
      * intros; simpl; lia.
      * apply IH.
        assert (Hl : String.length (String c s) = String.length (old ++ b))
          by now rewrite Hb.
        rewrite length_append in Hl. simpl in Hl, Hlen.
        destruct old; [congruence|]. simpl in Hl. lia.
    + rewrite replace_scan_miss by exact Hp.
      apply replaced_cons; [exact Hp|]. apply IH. simpl in Hlen. lia.
Qed.

Lemma placeholder_nonempty (k : string) : placeholder k <> "".
Proof. unfold placeholder. simpl. discriminate. Qed.

Lemma str_replace_placeholder (s k new : string) :
  str_replace s (placeholder k) new = replace_scan (placeholder k) new 0 s.
Proof. reflexivity. Qed.

Lemma str_replace_replaced (s k new : string) :
  replaced (placeholder k) new s (str_replace s (placeholder k) new).
Proof.
  rewrite str_replace_placeholder.
  apply (replace_scan_replaced _ _ (placeholder_nonempty k)
           (S (String.length s))). lia.
Qed.

Lemma render_template_variables_str {rt : PyRuntime} (t : string)
  (items : list (string * json)) :
  render_template_variables (JStr t) (JObj items)
  = Ok (JStr (render_str t items)).
Proof.
  unfold render_template_variables, render_str.
  destruct (negb (truthy (JStr t))) eqn:Ht.
  - cbn in Ht. apply negb_true_iff, negb_false_iff, String.eqb_eq in Ht.
    subst t. clear. induction items as [|kv items IH]; [reflexivity|].
    cbn [fold_left]. rewrite str_replace_placeholder. exact IH.
  - clear Ht. revert t. induction items as [|kv items IH]; intros t.
    + reflexivity.
    + cbn [fold_left render_step]. apply IH.
Qed.

Lemma rendered_render_str {rt : PyRuntime} (items : list (string * json)) :
  forall t, rendered items t (render_str t items).
Proof.
  induction items as [|[k v] items IH]; intros t.
  - apply rendered_nil.
  - unfold render_str. cbn [fold_left fst snd].
    eapply rendered_cons; [apply str_replace_replaced | apply IH].
Qed.

(** *** The scan on a template made of text and tokens *)

Lemma has_char_cons_false (c x : ascii) (s : string) :
  has_char c (String x s) = false -> Ascii.eqb c x = false /\ has_char c s = false.
Proof. simpl. intros H. now apply orb_false_iff in H. Qed.

Lemma brace_free_cons (x : ascii) (s : string) :
  brace_free (String x s) = true ->
  Ascii.eqb "{" x = false /\ Ascii.eqb "}" x = false /\ brace_free s = true.
Proof.
  unfold brace_free. intros H. apply andb_true_iff in H as [H1 H2].
  apply negb_true_iff, has_char_cons_false in H1 as [? H1].
  apply negb_true_iff, has_char_cons_false in H2 as [? H2].
  now rewrite H1, H2.
Qed.

Lemma brace_free_no_open (s : string) :
  brace_free s = true -> no_open_brace s = true.
Proof. unfold brace_free. intros H. now apply andb_true_iff in H. Qed.

Lemma scan_text (k new s t : string) :
  no_open_brace s = true ->
  replace_scan (placeholder k) new 0 (s ++ t)
  = (s ++ replace_scan (placeholder k) new 0 t)%string.
Proof.
  induction s as [|c s IH]; intros Hs; [reflexivity|].
  apply negb_true_iff, has_char_cons_false in Hs as [Hc Hs].
  change ((String c s ++ t)%string) with (String c (s ++ t)).
  rewrite replace_scan_miss.
  - rewrite IH; [reflexivity | now apply negb_true_iff].
  - unfold placeholder. cbn [append starts_with]. now rewrite Hc.
Qed.

Lemma starts_with_name (k n t : string) :
  brace_free k = true -> brace_free n = true ->
  starts_with (k ++ "}}") ((n ++ "}}") ++ t) = (k =? n)%string.
Proof.
  revert n. induction k as [|c k IH]; intros n Hk Hn.
  - destruct n as [|c' n]; [reflexivity|].
    apply brace_free_cons in Hn as (_ & Hc & _).
    cbn [append starts_with String.eqb]. now rewrite Hc.
  - apply brace_free_cons in Hk as (_ & Hc & Hk).
    destruct n as [|c' n].
    + cbn [append starts_with String.eqb].
      rewrite Ascii.eqb_sym in Hc. now rewrite Hc.
    + apply brace_free_cons in Hn as (_ & _ & Hn).
      cbn [append starts_with String.eqb].
      now rewrite (IH n Hk Hn).
Qed.

Lemma placeholder_append (n t : string) :
  (placeholder n ++ t)%string
  = String "{" (String "{" ((n ++ "}}") ++ t)).
Proof. reflexivity. Qed.

Lemma starts_with_token (k n t : string) :
  brace_free k = true -> brace_free n = true ->
  starts_with (placeholder k) (placeholder n ++ t) = (k =? n)%string.
Proof.
  intros Hk Hn. rewrite placeholder_append. unfold placeholder.
  cbn [append starts_with]. rewrite !Ascii.eqb_refl.
  now apply starts_with_name.
Qed.

Lemma scan_token_miss (k n new t : string) :
  brace_free k = true -> brace_free n = true -> (k =? n)%string = false ->
  replace_scan (placeholder k) new 0 (placeholder n ++ t)
  = (placeholder n ++ replace_scan (placeholder k) new 0 t)%string.
Proof.
  intros Hk Hn Hkn.
  pose proof (starts_with_token k n t Hk Hn) as H0. rewrite Hkn in H0.
  rewrite !placeholder_append in *.
  rewrite replace_scan_miss by exact H0.
  rewrite replace_scan_miss.
  2:{ unfold placeholder. cbn [append starts_with].
      rewrite Ascii.eqb_refl.
      destruct n as [|c n]; cbn [append starts_with]; [reflexivity|].
      apply brace_free_cons in Hn as (Hc & _ & _). now rewrite Hc. }
  rewrite append_assoc.
  rewrite scan_text by now apply brace_free_no_open.
  change (("}}" ++ t)%string) with (String "}" (String "}" t)).
  rewrite !replace_scan_miss by reflexivity.
  rewrite append_assoc. reflexivity.
Qed.

Lemma str_replace_flatten (k val : string) (segs : list segment) :
  brace_free k = true ->
  forallb plain_segment segs = true ->
  str_replace (flatten segs) (placeholder k) val
  = flatten (map (substitute_one k val) segs).
Proof.
  intros Hk. rewrite str_replace_placeholder.
  induction segs as [|sg segs IH]; intros Hsegs; [reflexivity|].
  cbn [forallb] in Hsegs. apply andb_true_iff in Hsegs as [Hsg Hsegs].
  cbn [flatten map]. destruct sg as [s | n]; cbn [segment_text substitute_one].
  - rewrite scan_text by exact Hsg. now rewrite IH.
  - cbn [plain_segment] in Hsg.
    destruct (k =? n)%string eqn:Hkn.
    + apply String.eqb_eq in Hkn; subst n.
      rewrite replace_scan_hit by apply placeholder_nonempty.
      cbn [segment_text]. now rewrite IH.
    + rewrite scan_token_miss by assumption.
      cbn [segment_text]. now rewrite IH.
Qed.

Lemma substitute_one_plain {rt : PyRuntime} (k : string) (v : json)
  (segs : list segment) :
  plain_variable (k, v) = true ->
  forallb plain_segment segs = true ->
  forallb plain_segment (map (substitute_one k (py_str v)) segs) = true.
Proof.
  intros Hkv. apply andb_true_iff in Hkv as [_ Hv]. cbn [snd] in Hv.
  induction segs as [|sg segs IH]; intros H; [reflexivity|].
  cbn [forallb map] in *. apply andb_true_iff in H as [Hsg H].
  rewrite (IH H), andb_true_r.
  destruct sg as [s | n]; cbn [substitute_one]; [exact Hsg|].
  destruct (k =? n)%string; [exact Hv | exact Hsg].
Qed.

Lemma substitute_cons {rt : PyRuntime} (k : string) (v : json)
  (items : list (string * json)) (sg : segment) :
  substitute items (substitute_one k (py_str v) sg)
  = substitute ((k, v) :: items) sg.
Proof.
  destruct sg as [s | n]; cbn [substitute substitute_one dict_lookup];
    [reflexivity|].
  destruct (k =? n)%string; reflexivity.
Qed.

(** On plain templates and variables the loop is a simultaneous
    substitution of the tokens. *)
Lemma render_str_flatten {rt : PyRuntime} (items : list (string * json)) :
  forallb plain_variable items = true ->
  forall segs, forallb plain_segment segs = true ->
    render_str (flatten segs) items = flatten (map (substitute items) segs).
Proof.
  induction items as [|[k v] items IH]; intros Hitems segs Hsegs.
  - cbn. f_equal. clear. induction segs as [|[s|n] segs IH]; cbn; congruence.
  - cbn [forallb] in Hitems. apply andb_true_iff in Hitems as [Hkv Hitems].
    unfold render_str. cbn [fold_left fst snd].
    fold (render_str (str_replace (flatten segs) (placeholder k) (py_str v))
            items).
    pose proof Hkv as Hk. apply andb_true_iff in Hk as [Hk _]. cbn [fst] in Hk.
    rewrite str_replace_flatten by assumption.
    rewrite (IH Hitems) by now apply substitute_one_plain.
    rewrite map_map. f_equal. apply map_ext. intros sg.
    apply substitute_cons.
Qed.

Lemma dict_lookup_not_in (items : list (string * json)) (k : string) :
  ~ In k (dict_keys items) -> dict_lookup items k = None.
Proof.
  induction items as [|[k' v] items IH]; intros H; [reflexivity|].
  cbn in *. destruct (k' =? k)%string eqn:Hk.
  - apply String.eqb_eq in Hk. tauto.
  - apply IH. tauto.
Qed.

Lemma dict_lookup_permutation (items items' : list (string * json))
  (k : string) :
  NoDup (dict_keys items) -> Permutation items items' ->
  dict_lookup items k = dict_lookup items' k.
Proof.
  intros Hnd Hp. induction Hp as [| [k1 v1] l l' Hp IH
                                  | [k1 v1] [k2 v2] l
                                  | l l' l'' Hp1 IH1 Hp2 IH2].
  - reflexivity.
  - cbn in *. inversion Hnd; subst. now rewrite IH.
  - cbn in *. inversion Hnd as [|? ? Hnot _]; subst.
    destruct (k2 =? k)%string eqn:H2, (k1 =? k)%string eqn:H1; try reflexivity.
    apply String.eqb_eq in H1, H2. subst. exfalso. apply Hnot. now left.
  - rewrite IH1 by exact Hnd. apply IH2.
    unfold dict_keys in *.
    eapply Permutation_NoDup; [apply Permutation_map; exact Hp1 | exact Hnd].
Qed.

(** *** Dictionaries *)

Lemma dict_lookup_set_same (d : list (string * json)) (k : string) (v : json) :
  dict_lookup (dict_set d k v) k = Some v.
Proof.
  induction d as [|[k' v'] d IH]; cbn.
  - now rewrite String.eqb_refl.
  - destruct (k' =? k)%string eqn:Hk; cbn; now rewrite Hk.
Qed.

Lemma dict_lookup_set_other (d : list (string * json)) (k k' : string)
  (v : json) :
  k <> k' -> dict_lookup (dict_set d k v) k' = dict_lookup d k'.
Proof.
  intros Hne. induction d as [|[k0 v0] d IH]; cbn.
  - apply String.eqb_neq in Hne. now rewrite Hne.
  - destruct (k0 =? k)%string eqn:Hk; cbn; [|now rewrite IH].
    apply String.eqb_eq in Hk; subst k0.
    apply String.eqb_neq in Hne. now rewrite Hne.
Qed.

Lemma dict_keys_set (d : list (string * json)) (k : string) (v : json)
  (x : string) :
  In x (dict_keys (dict_set d k v)) <-> In x (dict_keys d) \/ x = k.
Proof.
  induction d as [|[k0 v0] d IH]; cbn.
  - intuition congruence.
  - destruct (k0 =? k)%string eqn:Hk; cbn.
    + apply String.eqb_eq in Hk; subst k0. intuition congruence.
    + rewrite IH. tauto.
Qed.

Lemma dict_set_fresh (d : list (string * json)) (k : string) (v : json) :
  dict_lookup d k = None -> dict_set d k v = (d ++ [(k, v)])%list.
Proof.
  induction d as [|[k0 v0] d IH]; cbn; [reflexivity|].
  destruct (k0 =? k)%string; [discriminate|].
  intros H. now rewrite IH.
Qed.

Lemma dict_set_set (d : list (string * json)) (k : string) (v v' : json) :
  dict_set (dict_set d k v) k v' = dict_set d k v'.
Proof.
  induction d as [|[k0 v0] d IH]; cbn.
  - now rewrite String.eqb_refl.
  - destruct (k0 =? k)%string eqn:Hk; cbn; rewrite Hk; [reflexivity|].
    now rewrite IH.
Qed.

Lemma field_set_same (d : list (string * json)) (k : string) (v def : json) :
  field (dict_set d k v) k def = v.
Proof. unfold field. now rewrite dict_lookup_set_same. Qed.

Lemma field_set_other (d : list (string * json)) (k k' : string)
  (v def : json) :
  k <> k' -> field (dict_set d k v) k' def = field d k' def.
Proof. intros H. unfold field. now rewrite dict_lookup_set_other. Qed.

Lemma py_get_obj (d : list (string * json)) (k : string) (def : json) :
  py_get (JObj d) k def = Ok (field d k def).
Proof. reflexivity. Qed.

(** *** Timestamps *)

Lemma digit_char_is_digit (d : Z) :
  0 <= d <= 9 -> is_digit (digit_char d) = true.
Proof.
  intros H.
  assert (Hd : d = 0 \/ d = 1 \/ d = 2 \/ d = 3 \/ d = 4 \/ d = 5 \/
               d = 6 \/ d = 7 \/ d = 8 \/ d = 9) by lia.
  repeat destruct Hd as [-> | Hd]; try subst d; reflexivity.
Qed.

Lemma is_digits_snoc (w : nat) :
  forall s c, is_digits w s = true -> is_digit c = true ->
    is_digits (S w) (s ++ String c "") = true.
Proof.
  induction w as [|w IH]; intros s c Hs Hc; destruct s as [|x s];
    cbn [is_digits] in Hs; try discriminate.
  - cbn. now rewrite Hc.
  - apply andb_true_iff in Hs as [Hx Hs].
    cbn [append is_digits]. rewrite Hx. cbn [andb]. now apply IH.
Qed.

Lemma fixed_digits_is_digits (w : nat) (n : Z) :
  is_digits w (fixed_digits w n) = true.
Proof.
  revert n. induction w as [|w IH]; intros n; [reflexivity|].
  cbn [fixed_digits]. apply is_digits_snoc; [apply IH|].
  apply digit_char_is_digit.
  pose proof (Z.mod_pos_bound n 10). lia.
Qed.

Lemma zero_pad_is_digits (w : nat) (n : Z) :
  0 <= n < 10 ^ Z.of_nat w -> is_digits w (zero_pad w n) = true.
Proof.
  intros H. unfold zero_pad, zero_pad_nonneg.
  replace (n <? 0) with false by (symmetry; apply Z.ltb_ge; lia).
  replace (n <? 10 ^ Z.of_nat w) with true by (symmetry; apply Z.ltb_lt; lia).
  apply fixed_digits_is_digits.
Qed.

Lemma take_digits_append (n : nat) :
  forall s rest, is_digits n s = true -> take_digits n (s ++ rest) = Some rest.
Proof.
  induction n as [|n IH]; intros s rest H; destruct s as [|c s];
    cbn [is_digits] in H; try discriminate.
  - reflexivity.
  - apply andb_true_iff in H as [Hc Hs].
    cbn [append take_digits]. rewrite Hc. now apply IH.
Qed.

Lemma isoformat_iso8601 (t : datetime) :
  valid_datetime t -> iso8601_utc_z (isoformat t ++ "Z") = true.
Proof.
  intros (Hy & Hmo & Hd & Hh & Hmi & Hs & Hus).
  unfold isoformat, iso8601_utc_z.
  rewrite !append_assoc.
  rewrite (take_digits_append 4) by (apply zero_pad_is_digits; cbn; lia).
  cbn [and_then take_char append Ascii.eqb Bool.eqb].
  rewrite (take_digits_append 2) by (apply zero_pad_is_digits; cbn; lia).
  cbn [and_then take_char append Ascii.eqb Bool.eqb].
  rewrite (take_digits_append 2) by (apply zero_pad_is_digits; cbn; lia).
  cbn [and_then take_char append Ascii.eqb Bool.eqb].
  rewrite (take_digits_append 2) by (apply zero_pad_is_digits; cbn; lia).
  cbn [and_then take_char append Ascii.eqb Bool.eqb].
  rewrite (take_digits_append 2) by (apply zero_pad_is_digits; cbn; lia).
  cbn [and_then take_char append Ascii.eqb Bool.eqb].
  rewrite (take_digits_append 2) by (apply zero_pad_is_digits; cbn; lia).
  cbn [and_then].
  destruct (microsecond t =? 0) eqn:Hz.
  - reflexivity.
  - rewrite ?append_assoc. cbn [append and_then take_char Ascii.eqb Bool.eqb].
    rewrite (take_digits_append 6) by (apply zero_pad_is_digits; cbn; lia).
    reflexivity.
Qed.

(** ** Symbolic execution of [process_message]

    [exec H] normalises the computation on the right of [H : tr = ...] and
    follows it branch by branch: a test whose value is known from the
    context is rewritten, any other is split in cases. *)

Ltac head_scrut t :=
  lazymatch t with
  | match ?x with _ => _ end => head_scrut x
  | ?f _ => match_head f t
  | _ => constr:(t)
  end
with match_head f t :=
  lazymatch f with
  | match ?x with _ => _ end => head_scrut x
  | ?g _ => match_head g t
  | _ => constr:(t)
  end.

Ltac exec_cbv H :=
  cbv beta iota zeta delta
    [bind ret lift try_except message_get message_setitem read_message
     write_message emit move_to_dlq schedule_retry basic_ack basic_nack
     channel_call update_notification_status read_utcnow
     send_push_notification_fcm json_loads json_dumps init_world
     trace clock_reads message snd fst app negb String.eqb Ascii.eqb Bool.eqb
     String.append MAX_RETRY_COUNT] in H;
  rewrite ?field_set_same in H;
  rewrite ?field_set_other in H by discriminate;
  repeat
    match goal with
    | K : field _ _ _ = _ |- _ => rewrite K in H
    end.

(** The value of the test [r], when the context or a computation gives
    it. *)
Ltac use_known H r :=
  match goal with
  | K : ?l = _ |- _ => constr_eq l r; rewrite K in H
  | K : broker_healthy _ |- _ =>
      lazymatch r with channel_fault _ ?ev => rewrite (K ev) in H end
  | |- _ =>
      lazymatch r with py_get (JObj _) _ _ => rewrite py_get_obj in H end
  | |- _ =>
      let r' :=
        lazymatch r with
        | py_add_int _ _ => eval cbv beta iota delta [py_add_int] in r
        | py_lt_int _ _ => eval cbv beta iota delta [py_lt_int] in r
        | py_get _ _ _ => eval cbv in r
        | truthy _ => eval cbv in r
        | py_index _ _ => eval cbv in r
        end in
      lazymatch r' with
      | true => idtac
      | false => idtac
      | Ok _ => idtac
      | Raise _ => idtac
      end;
      change r with r' in H
  end.

Ltac exec_step H :=
  lazymatch type of H with
  | _ = ?rhs =>
      let r := head_scrut rhs in
      lazymatch r with
      | rhs => fail "done"
      | _ => first [ use_known H r | destruct r eqn:? ]
      end
  end; exec_cbv H.

Ltac exec H :=
  unfold calls, run, process_message in H; exec_cbv H; repeat exec_step H.

(** Runs every [calls] of the goal. *)
Ltac exec_calls :=
  repeat
    match goal with
    | |- context [calls ?E ?tag ?b] =>
        let tr := fresh "tr" in
        let Hc := fresh "Hc" in
        remember (calls E tag b) as tr eqn:Hc; exec Hc; subst tr
    end.

(** ** Retrying and dead-lettering *)

Lemma py_index_tier (k : Z) :
  0 <= k < MAX_RETRY_COUNT ->
  py_index RETRY_DELAYS (JInt k) = Ok (tier_delay k).
Proof.
  unfold MAX_RETRY_COUNT. intros H.
  assert (Hk : k = 0 \/ k = 1 \/ k = 2) by lia.
  destruct Hk as [-> | [-> | ->]]; reflexivity.
Qed.

Lemma delivery_failed_is_call (g : event) :
  delivery_failed g = true ->
  is_retry_publish g = false /\ is_publish g = false /\ is_ack g = false.
Proof. destruct g; try discriminate. now intros _. Qed.

Lemma dead_letter_at_limit {rt : PyRuntime} (E : Env) (tag : Z)
  (d : list (string * json)) :
  broker_healthy E ->
  field d "retry_count" (JInt 0) = JInt MAX_RETRY_COUNT ->
  existsb delivery_failed (calls E tag (Encoded (JObj d))) = true ->
  exists g,
    calls E tag (Encoded (JObj d))
    = g :: dead_letter_calls E tag d "Max retries exceeded"
    /\ delivery_failed g = true.
Proof.
  intros Hh Hrc Hf.
  remember (calls E tag (Encoded (JObj d))) as tr eqn:Hc.
  assert (Hlt : (3 <? 3) = false) by reflexivity.
  exec Hc; subst tr; try discriminate Hf.
  all: eexists; split; reflexivity.
Qed.

Lemma retry_below_limit {rt : PyRuntime} (E : Env) (tag : Z)
  (d : list (string * json)) (k : Z) :
  broker_healthy E ->
  field d "retry_count" (JInt 0) = JInt k ->
  0 <= k < MAX_RETRY_COUNT ->
  existsb delivery_failed (calls E tag (Encoded (JObj d))) = true ->
  exists g,
    calls E tag (Encoded (JObj d)) = g :: retry_calls E tag d k
    /\ delivery_failed g = true.
Proof.
  intros Hh Hrc Hk Hf.
  remember (calls E tag (Encoded (JObj d))) as tr eqn:Hc.
  pose proof (py_index_tier k Hk) as Hidx.
  assert (Hlt : (k <? 3) = true) by (apply Z.ltb_lt; exact (proj2 Hk)).
  assert (Hlen : (k <? Z.of_nat (List.length RETRY_DELAYS)) = true)
    by (apply Z.ltb_lt; exact (proj2 Hk)).
  exec Hc; subst tr; try discriminate Hf.
  all: eexists; split; reflexivity.
Qed.

Lemma retry_published_retry_calls (E : Env) (tag : Z)
  (d : list (string * json)) (k : Z) (g : event) :
  broker_healthy E ->
  delivery_failed g = true ->
  retry_published E (g :: retry_calls E tag d k)
  = Some (Encoded (JObj (dict_set d "retry_count" (JInt (k + 1))))).
Proof.
  intros Hh Hg. apply delivery_failed_is_call in Hg as (Hg & _ & _).
  unfold retry_published, retry_calls.
  cbn [find is_retry_publish andb]. rewrite Hg. cbn [andb].
  rewrite starts_with_append, Hh. reflexivity.
Qed.

Lemma retry_published_dead_letter (E : Env) (tag : Z)
  (d : list (string * json)) (reason : string) (g : event) :
  delivery_failed g = true ->
  retry_published E (g :: dead_letter_calls E tag d reason) = None.
Proof.
  intros Hg. apply delivery_failed_is_call in Hg as (Hg & _ & _).
  unfold retry_published, dead_letter_calls.
  cbn [find is_retry_publish andb]. rewrite Hg. reflexivity.
Qed.

(** An item that fails at every delivery is retried three times, after
    60 s, 300 s and 900 s, and dead-lettered at its fourth delivery. *)
Lemma four_failed_deliveries {rt : PyRuntime} (E1 E2 E3 E4 : Env)
  (t1 t2 t3 t4 : Z) (d : list (string * json)) :
  let item k := dict_set d "retry_count" (JInt k) in
  broker_healthy E1 -> broker_healthy E2 ->
  broker_healthy E3 -> broker_healthy E4 ->
  field d "retry_count" (JInt 0) = JInt 0 ->
  existsb delivery_failed (calls E1 t1 (Encoded (JObj d))) = true ->
  existsb delivery_failed (calls E2 t2 (Encoded (JObj (item 1)))) = true ->
  existsb delivery_failed (calls E3 t3 (Encoded (JObj (item 2)))) = true ->
  existsb delivery_failed (calls E4 t4 (Encoded (JObj (item 3)))) = true ->
  exists g1 g2 g3 g4,
    lifecycle [(E1, t1); (E2, t2); (E3, t3); (E4, t4)] (Encoded (JObj d))
    = [g1 :: retry_calls E1 t1 d 0;
       g2 :: retry_calls E2 t2 (item 1) 1;
       g3 :: retry_calls E3 t3 (item 2) 2;
       g4 :: dead_letter_calls E4 t4 (item 3) "Max retries exceeded"]
    /\ Forall (fun g => delivery_failed g = true) [g1; g2; g3; g4].
Proof.
  intros item H1 H2 H3 H4 Hrc F1 F2 F3 F4.
  destruct (retry_below_limit E1 t1 d 0 H1 Hrc ltac:(cbv; intuition congruence) F1)
    as (g1 & C1 & G1).
  destruct (retry_below_limit E2 t2 (item 1) 1 H2 (field_set_same _ _ _ _)
              ltac:(cbv; intuition congruence) F2) as (g2 & C2 & G2).
  destruct (retry_below_limit E3 t3 (item 2) 2 H3 (field_set_same _ _ _ _)
              ltac:(cbv; intuition congruence) F3) as (g3 & C3 & G3).
  destruct (dead_letter_at_limit E4 t4 (item 3) H4 (field_set_same _ _ _ _) F4)
    as (g4 & C4 & G4).
  exists g1, g2, g3, g4. split; [|repeat constructor; assumption].
  assert (I1 : dict_set d "retry_count" (JInt (0 + 1)) = item 1)
    by reflexivity.
  assert (I2 : dict_set (item 1) "retry_count" (JInt (1 + 1)) = item 2)
    by (unfold item; now rewrite dict_set_set).
  assert (I3 : dict_set (item 2) "retry_count" (JInt (2 + 1)) = item 3)
    by (unfold item; now rewrite dict_set_set).
  cbn [lifecycle].
  rewrite C1, (retry_published_retry_calls E1 t1 d 0 g1 H1 G1), I1.
  rewrite C2, (retry_published_retry_calls E2 t2 (item 1) 1 g2 H2 G2), I2.
  rewrite C3, (retry_published_retry_calls E3 t3 (item 2) 2 g3 H3 G3), I3.
  rewrite C4, (retry_published_dead_letter E4 t4 (item 3) _ g4 G4).
  reflexivity.
Qed.

(** The same on two runs at once: a test settled in one is settled in the
    other. *)
Ltac exec_cbv2 H H' := exec_cbv H; exec_cbv H'.

Ltac use_known2 H H' r :=
  match goal with
  | K : ?l = _ |- _ => constr_eq l r; rewrite K in H; rewrite ?K in H'
  | K : broker_healthy _ |- _ =>
      lazymatch r with
      | channel_fault _ ?ev => rewrite (K ev) in H; rewrite ?(K ev) in H'
      end
  | |- _ =>
      lazymatch r with
      | py_get (JObj _) _ _ => rewrite py_get_obj in H; rewrite ?py_get_obj in H'
      end
  | |- _ =>
      let r' :=
        lazymatch r with
        | py_add_int _ _ => eval cbv beta iota delta [py_add_int] in r
        | py_lt_int _ _ => eval cbv beta iota delta [py_lt_int] in r
        | py_get _ _ _ => eval cbv in r
        | truthy _ => eval cbv in r
        | py_index _ _ => eval cbv in r
        end in
      lazymatch r' with
      | true => idtac
      | false => idtac
      | Ok _ => idtac
      | Raise _ => idtac
      end;
      change r with r' in H; try change r with r' in H'
  end.

Ltac exec_step2 H H' :=
  lazymatch type of H with
  | _ = ?rhs =>
      let r := head_scrut rhs in
      lazymatch r with
      | rhs => fail "done"
      | _ => first [ use_known2 H H' r | destruct r eqn:? ]
      end
  end; exec_cbv2 H H'.

Ltac exec2 H H' :=
  unfold calls, run, process_message in H, H'; exec_cbv2 H H';
  repeat exec_step2 H H'; repeat exec_step2 H' H.

(** Whether the gateway is called does not depend on the attempt count of
    the message. *)
Lemma gateway_call_ignores_retry_count {rt : PyRuntime} (E : Env) (tag : Z)
  (d : list (string * json)) (k k' : Z) :
  broker_healthy E ->
  existsb is_gateway_call
    (calls E tag (Encoded (JObj (dict_set d "retry_count" (JInt k)))))
  = existsb is_gateway_call
      (calls E tag (Encoded (JObj (dict_set d "retry_count" (JInt k'))))).
Proof.
  intros Hh.
  remember (calls E tag (Encoded (JObj (dict_set d "retry_count" (JInt k)))))
    as tr eqn:H1.
  remember (calls E tag (Encoded (JObj (dict_set d "retry_count" (JInt k')))))
    as tr' eqn:H2.
  exec2 H1 H2.
  all: subst tr tr'; reflexivity.
Qed.

(** ** Claims on retries and dead-lettering *)

(** C1 (as amended). A failed delivery of an item whose attempt count equals
    [MAX_RETRY_COUNT] dead-letters it with reason "Max retries exceeded",
    acknowledges the message and reports [failed]; nothing is published on
    a retry queue. An item that fails on attempts 0, 1 and 2 is not
    dead-lettered after its third failure: it is published again with
    attempt count 3 on the 900 s tier, the copy with attempt count 3 is
    handed to the gateway whenever the copy with attempt count 2 was, and
    it is the failure of this fourth delivery that dead-letters the item. *)
Theorem dead_lettered_when_retries_exhausted {rt : PyRuntime} :
  (forall E tag d,
     broker_healthy E ->
     field d "retry_count" (JInt 0) = JInt MAX_RETRY_COUNT ->
     existsb delivery_failed (calls E tag (Encoded (JObj d))) = true ->
     exists g,
       calls E tag (Encoded (JObj d))
       = g :: dead_letter_calls E tag d "Max retries exceeded"
       /\ delivery_failed g = true
       /\ existsb is_retry_publish (calls E tag (Encoded (JObj d))) = false)
  /\
  (forall E1 E2 E3 E4 t1 t2 t3 t4 d,
     let item k := dict_set d "retry_count" (JInt k) in
     broker_healthy E1 -> broker_healthy E2 ->
     broker_healthy E3 -> broker_healthy E4 ->
     field d "retry_count" (JInt 0) = JInt 0 ->
     existsb delivery_failed (calls E1 t1 (Encoded (JObj d))) = true ->
     existsb delivery_failed (calls E2 t2 (Encoded (JObj (item 1)))) = true ->
     existsb delivery_failed (calls E3 t3 (Encoded (JObj (item 2)))) = true ->
     existsb delivery_failed (calls E4 t4 (Encoded (JObj (item 3)))) = true ->
     exists g1 g2 g3 g4,
       lifecycle [(E1, t1); (E2, t2); (E3, t3); (E4, t4)] (Encoded (JObj d))
       = [g1 :: retry_calls E1 t1 d 0;
          g2 :: retry_calls E2 t2 (item 1) 1;
          g3 :: retry_calls E3 t3 (item 2) 2;
          g4 :: dead_letter_calls E4 t4 (item 3) "Max retries exceeded"]
       /\ Forall (fun g => delivery_failed g = true) [g1; g2; g3; g4])
  /\
  (forall E tag d,
     broker_healthy E ->
     existsb is_gateway_call
       (calls E tag (Encoded (JObj (dict_set d "retry_count" (JInt 3)))))
     = existsb is_gateway_call
         (calls E tag (Encoded (JObj (dict_set d "retry_count" (JInt 2)))))).
Proof.
  split; [|split].
  - intros E tag d Hh Hrc Hf.
    destruct (dead_letter_at_limit E tag d Hh Hrc Hf) as (g & Hc & Hg).
    exists g. repeat split; try assumption.
    rewrite Hc. apply delivery_failed_is_call in Hg as (Hg & _ & _).
    cbn [existsb]. rewrite Hg. reflexivity.
  - intros. now apply four_failed_deliveries.
  - intros E tag d Hh. now apply gateway_call_ignores_retry_count.
Qed.

Lemma dead_lettered_when_retries_exhausted_witness :
  (exists g,
     calls (rt := sample_runtime) failing_env 4 (Encoded (JObj (sample_item 3)))
     = g :: dead_letter_calls failing_env 4 (sample_item 3)
              "Max retries exceeded"
     /\ delivery_failed g = true
     /\ existsb is_retry_publish
          (calls (rt := sample_runtime) failing_env 4
             (Encoded (JObj (sample_item 3)))) = false)
  /\
  (exists g1 g2 g3 g4,
     lifecycle (rt := sample_runtime)
       [(failing_env, 1); (failing_env, 2); (failing_env, 3); (failing_env, 4)]
       (Encoded (JObj sample_fields))
     = [g1 :: retry_calls failing_env 1 sample_fields 0;
        g2 :: retry_calls failing_env 2 (sample_item 1) 1;
        g3 :: retry_calls failing_env 3 (sample_item 2) 2;
        g4 :: dead_letter_calls failing_env 4 (sample_item 3)
                "Max retries exceeded"]
     /\ Forall (fun g => delivery_failed g = true) [g1; g2; g3; g4])
  /\
  existsb is_gateway_call
    (calls (rt := sample_runtime) failing_env 4
       (Encoded (JObj (dict_set sample_fields "retry_count" (JInt 3)))))
  = existsb is_gateway_call
      (calls (rt := sample_runtime) failing_env 4
         (Encoded (JObj (dict_set sample_fields "retry_count" (JInt 2))))).
Proof.
  split; [|split].
  - apply (proj1 (dead_lettered_when_retries_exhausted (rt := sample_runtime))
             failing_env 4 (sample_item 3));
      [intros ev; reflexivity | reflexivity | vm_compute; reflexivity].
  - apply (proj1 (proj2
             (dead_lettered_when_retries_exhausted (rt := sample_runtime)))
             failing_env failing_env failing_env failing_env 1 2 3 4
             sample_fields);
      first [intros ev; reflexivity | vm_compute; reflexivity].
  - apply (proj2 (proj2
             (dead_lettered_when_retries_exhausted (rt := sample_runtime)))
             failing_env 4 sample_fields).
    intros ev; reflexivity.
Defined.

(** C1 as stated fails: with a gateway that keeps failing, the third
    failure of an item leaves it on a retry queue, not on the dead-letter
    queue, and the gateway is called a fourth time. *)
Lemma fourth_attempt_after_three_failures :
  let deliveries :=
    lifecycle (rt := sample_runtime)
      [(failing_env, 1); (failing_env, 2); (failing_env, 3); (failing_env, 4)]
      (Encoded (JObj sample_fields)) in
  map (existsb delivery_failed) deliveries = [true; true; true; true]
  /\ map (existsb is_dead_letter_publish) deliveries
     = [false; false; false; true]
  /\ map (existsb is_retry_publish) deliveries = [true; true; true; false].
Proof. vm_compute. repeat split. Qed.

(** C2. A failed delivery of an item at attempt count [k], [0 <= k < 3],
    publishes the message with attempt count [k + 1] on the retry queue of
    the tier at index [k] of [60; 300; 900] (TTL in milliseconds, expiring
    to the main queue), then acknowledges the original message and reports
    [pending]. *)
Theorem retry_scheduled_below_limit {rt : PyRuntime} (E : Env) (tag : Z)
  (d : list (string * json)) (k : Z) :
  broker_healthy E ->
  field d "retry_count" (JInt 0) = JInt k ->
  0 <= k < MAX_RETRY_COUNT ->
  existsb delivery_failed (calls E tag (Encoded (JObj d))) = true ->
  (exists g,
     calls E tag (Encoded (JObj d)) = g :: retry_calls E tag d k
     /\ delivery_failed g = true)
  /\ tier_delay k = nth (Z.to_nat k) [60; 300; 900] 900
  /\ field (dict_set d "retry_count" (JInt (k + 1))) "retry_count" (JInt 0)
     = JInt (k + 1).
Proof.
  intros Hh Hrc Hk Hf. split; [|split].
  - now apply retry_below_limit.
  - reflexivity.
  - apply field_set_same.
Qed.

Lemma retry_scheduled_below_limit_witness :
  (exists g,
     calls (rt := sample_runtime) failing_env 2 (Encoded (JObj (sample_item 1)))
     = g :: retry_calls failing_env 2 (sample_item 1) 1
     /\ delivery_failed g = true)
  /\ tier_delay 1 = nth (Z.to_nat 1) [60; 300; 900] 900
  /\ field (dict_set (sample_item 1) "retry_count" (JInt (1 + 1)))
       "retry_count" (JInt 0) = JInt (1 + 1).
Proof.
  apply (retry_scheduled_below_limit (rt := sample_runtime) failing_env 2
           (sample_item 1) 1);
    [intros ev; reflexivity | reflexivity | cbv; intuition congruence
    | vm_compute; reflexivity].
Defined.

(** ** Claims on malformed messages *)

(** A body that decodes to something other than an object is rejected in
    the same way: [message.get] raises on it. *)
Lemma non_object_body_rejected {rt : PyRuntime} (E : Env) (tag : Z)
  (v : json) :
  (forall d, v <> JObj d) ->
  calls E tag (Encoded v) = [BasicNack tag false].
Proof.
  intros Hv.
  destruct v as [ | x | x | x | x | x | x ];
    lazymatch goal with
    | |- context [JObj x] => now destruct (Hv x)
    | |- _ => exec_calls; reflexivity
    end.
Qed.

(** C3 (as amended). A body that is not decodable as JSON is rejected
    without requeue and nothing else is issued: no retry, no dead-letter
    entry, no status report. *)
Theorem undecodable_body_rejected {rt : PyRuntime} (E : Env) (tag : Z) :
  calls E tag Undecodable = [BasicNack tag false]
  /\ existsb is_publish (calls E tag Undecodable) = false
  /\ existsb is_status_post (calls E tag Undecodable) = false.
Proof.
  assert (H : calls E tag Undecodable = [BasicNack tag false])
    by (exec_calls; reflexivity).
  rewrite H. repeat split.
Qed.

(** C3 as stated fails: an object without [notification_id] is processed
    like any other message; here the user lookup fails, so the message is
    dead-lettered, acknowledged and reported, and not rejected. *)
Lemma missing_notification_id_is_processed :
  let d := [("user_id", JStr "u-1")] in
  let tr :=
    calls (rt := sample_runtime)
      (sample_env (HttpResponse 404 None) (ok_response sample_template) true)
      5 (Encoded (JObj d)) in
  dict_lookup d "notification_id" = None
  /\ existsb is_nack tr = false
  /\ existsb is_dead_letter_publish tr = true
  /\ existsb is_ack tr = true
  /\ existsb is_status_post tr = true.
Proof. vm_compute. repeat split. Qed.

(** ** Claims on the order of the side effects *)

Lemma publishes_precede_acks_split (tr : list event) :
  forall acked pre ev post,
    publishes_precede_acks acked tr = true ->
    tr = (pre ++ ev :: post)%list ->
    is_publish ev = true ->
    acked = false /\ forall e, In e pre -> is_ack e = false.
Proof.
  induction tr as [|x tr IH]; intros acked pre ev post H Heq Hev.
  - destruct pre; discriminate.
  - destruct pre as [|p pre]; cbn in Heq; injection Heq as -> ->.
    + cbn [publishes_precede_acks] in H. rewrite Hev in H.
      apply andb_true_iff in H as [H _]. apply negb_true_iff in H.
      split; [exact H | intros e []].
    + cbn [publishes_precede_acks] in H.
      destruct (is_publish p) eqn:Hp.
      * apply andb_true_iff in H as [Ha H].
        destruct (IH _ _ _ _ H eq_refl Hev) as [Hacked Hpre].
        split; [exact Hacked|]. intros e [<- | He]; [|now apply Hpre].
        destruct p; try discriminate; reflexivity.
      * destruct (IH _ _ _ _ H eq_refl Hev) as [Hacked Hpre].
        apply orb_false_iff in Hacked as [Hacked Hp'].
        split; [exact Hacked|]. intros e [<- | He]; [exact Hp' | now apply Hpre].
Qed.

Lemma publishes_are_acked_split (tr : list event) :
  forall pre ev post,
    publishes_are_acked tr = true ->
    tr = (pre ++ ev :: post)%list ->
    is_publish ev = true ->
    exists e, In e post /\ is_ack e = true.
Proof.
  induction tr as [|x tr IH]; intros pre ev post H Heq Hev.
  - destruct pre; discriminate.
  - cbn [publishes_are_acked] in H. apply andb_true_iff in H as [Hx H].
    destruct pre as [|p pre]; cbn in Heq; injection Heq as -> ->.
    + rewrite Hev in Hx. now apply existsb_exists in Hx.
    + exact (IH _ _ _ H eq_refl Hev).
Qed.

Lemma calls_ordered {rt : PyRuntime} (E : Env) (tag : Z) (b : body) :
  publishes_precede_acks false (calls E tag b) = true
  /\ publishes_are_acked (calls E tag b) = true.
Proof.
  remember (calls E tag b) as tr eqn:Hc.
  destruct b as [|v]; [|destruct v].
  all: exec Hc.
  all: subst tr; split; reflexivity.
Qed.

(** ** Claims on the dead-letter payload *)

Lemma dead_letter_publish_payload {rt : PyRuntime} (E : Env) (tag : Z)
  (b : body) (ev : event) :
  In ev (calls E tag b) ->
  is_dead_letter_publish ev = true ->
  exists d reason,
    b = Encoded (JObj d)
    /\ ev = BasicPublish "" "failed.queue"
              (Encoded (JObj (dead_lettered d reason (utcnow E 0)))) 2.
Proof.
  intros Hin His.
  remember (calls E tag b) as tr eqn:Hc.
  destruct b as [|v]; [|destruct v].
  all: exec Hc.
  all: subst tr; cbn [In] in Hin.
  all: repeat (destruct Hin as [<- | Hin]; [try discriminate His|]);
    try contradiction.
  all: try (cbv [is_dead_letter_publish String.eqb Ascii.eqb Bool.eqb] in His;
            discriminate His).
  all: do 2 eexists; split; reflexivity.
Qed.

Lemma dead_lettered_frame (d : list (string * json)) (reason : string)
  (now : datetime) (k : string) :
  k <> "failure_reason" -> k <> "failed_at" ->
  dict_lookup (dead_lettered d reason now) k = dict_lookup d k.
Proof.
  intros H1 H2. unfold dead_lettered.
  rewrite !dict_lookup_set_other by congruence. reflexivity.
Qed.

Lemma dead_lettered_keys (d : list (string * json)) (reason : string)
  (now : datetime) (k : string) :
  In k (dict_keys (dead_lettered d reason now))
  <-> In k (dict_keys d) \/ k = "failure_reason" \/ k = "failed_at".
Proof. unfold dead_lettered. rewrite !dict_keys_set. tauto. Qed.

Lemma dead_lettered_fresh (d : list (string * json)) (reason : string)
  (now : datetime) :
  dict_lookup d "failure_reason" = None ->
  dict_lookup d "failed_at" = None ->
  dead_lettered d reason now
  = (d ++ [("failure_reason", JStr reason);
           ("failed_at", JStr (isoformat now ++ "Z"))])%list.
Proof.
  intros H1 H2. unfold dead_lettered.
  rewrite (dict_set_fresh d) by exact H1.
  rewrite dict_set_fresh.
  - now rewrite <- app_assoc.
  - clear H1. induction d as [|[k v] d IH]; cbn in *; [reflexivity|].
    destruct (k =? "failed_at")%string; [discriminate | now apply IH].
Qed.

(** C5 (as amended). The payload published on the dead-letter queue is the
    original message with [failure_reason] and [failed_at] assigned: every
    other field of the original is present with its value, no other field
    is added, and [failed_at] is the UTC time in ISO-8601 form followed by
    [Z]. When the original message has neither field, the payload is the
    original fields followed by exactly these two. *)
Theorem dead_letter_payload_fields {rt : PyRuntime} (E : Env) (tag : Z)
  (b : body) (ev : event) :
  In ev (calls E tag b) ->
  is_dead_letter_publish ev = true ->
  exists d reason p,
    b = Encoded (JObj d)
    /\ ev = BasicPublish "" "failed.queue" (Encoded (JObj p)) 2
    /\ (forall k, k <> "failure_reason" -> k <> "failed_at" ->
                  dict_lookup p k = dict_lookup d k)
    /\ dict_lookup p "failure_reason" = Some (JStr reason)
    /\ dict_lookup p "failed_at"
       = Some (JStr (isoformat (utcnow E 0) ++ "Z"))
    /\ (forall k, In k (dict_keys p) <->
                  In k (dict_keys d) \/ k = "failure_reason"
                  \/ k = "failed_at")
    /\ (dict_lookup d "failure_reason" = None ->
        dict_lookup d "failed_at" = None ->
        p = (d ++ [("failure_reason", JStr reason);
                   ("failed_at", JStr (isoformat (utcnow E 0) ++ "Z"))])%list)
    /\ (valid_datetime (utcnow E 0) ->
        iso8601_utc_z (isoformat (utcnow E 0) ++ "Z") = true).
Proof.
  intros Hin His.
  destruct (dead_letter_publish_payload E tag b ev Hin His)
    as (d & reason & -> & ->).
  exists d, reason, (dead_lettered d reason (utcnow E 0)).
  repeat split.
  - intros k H1 H2. now apply dead_lettered_frame.
  - unfold dead_lettered.
    rewrite dict_lookup_set_other by discriminate.
    apply dict_lookup_set_same.
  - unfold dead_lettered. apply dict_lookup_set_same.
  - now apply dead_lettered_keys.
  - now apply dead_lettered_keys.
  - apply dead_lettered_fresh.
  - apply isoformat_iso8601.
Qed.

Lemma dead_letter_payload_fields_witness :
  exists d reason p,
    Encoded (JObj (sample_item 3)) = Encoded (JObj d)
    /\ BasicPublish "" "failed.queue"
         (Encoded
            (JObj (dead_lettered (sample_item 3) "Max retries exceeded"
                     sample_time))) 2
       = BasicPublish "" "failed.queue" (Encoded (JObj p)) 2
    /\ (forall k, k <> "failure_reason" -> k <> "failed_at" ->
                  dict_lookup p k = dict_lookup d k)
    /\ dict_lookup p "failure_reason" = Some (JStr reason)
    /\ dict_lookup p "failed_at"
       = Some (JStr (isoformat (utcnow failing_env 0) ++ "Z"))
    /\ (forall k, In k (dict_keys p) <->
                  In k (dict_keys d) \/ k = "failure_reason"
                  \/ k = "failed_at")
    /\ (dict_lookup d "failure_reason" = None ->
        dict_lookup d "failed_at" = None ->
        p = (d ++ [("failure_reason", JStr reason);
                   ("failed_at",
                    JStr (isoformat (utcnow failing_env 0) ++ "Z"))])%list)
    /\ (valid_datetime (utcnow failing_env 0) ->
        iso8601_utc_z (isoformat (utcnow failing_env 0) ++ "Z") = true).
Proof.
  apply (dead_letter_payload_fields (rt := sample_runtime) failing_env 4
           (Encoded (JObj (sample_item 3)))).
  - vm_compute. tauto.
  - reflexivity.
Defined.

(** C5 as stated fails on a message that already carries a
    [failure_reason]: the dead-letter payload holds the new reason in its
    place, so an original field has changed and one field, not two, was
    added. *)
Lemma dead_letter_overwrites_failure_reason :
  let d := [("notification_id", JStr "n-1"); ("user_id", JStr "u-1");
            ("failure_reason", JStr "earlier failure")] in
  let E :=
    sample_env (HttpResponse 404 None) (ok_response sample_template) true in
  exists p,
    In (BasicPublish "" "failed.queue" (Encoded (JObj p)) 2)
       (calls (rt := sample_runtime) E 5 (Encoded (JObj d)))
    /\ dict_lookup d "failure_reason" = Some (JStr "earlier failure")
    /\ dict_lookup p "failure_reason" = Some (JStr "User not found")
    /\ List.length p = S (List.length d).
Proof.
  eexists. split; [vm_compute; right; left; reflexivity|].
  vm_compute. repeat split.
Qed.

(** ** Claims on rendering *)

Lemma render_str_no_brace {rt : PyRuntime} (t : string)
  (items : list (string * json)) :
  no_open_brace t = true -> render_str t items = t.
Proof.
  intros Ht. induction items as [|[k v] items IH]; [reflexivity|].
  unfold render_str. cbn [fold_left fst snd].
  rewrite str_replace_placeholder.
  rewrite <- (append_nil_r t) at 1.
  rewrite scan_text by exact Ht.
  cbn [replace_scan]. rewrite append_nil_r. exact IH.
Qed.

(** C6 (as amended). On a template made of text without an opening brace
    and of [{{name}}] tokens with brace-free names, and for variables with
    distinct brace-free keys whose values print without an opening brace,
    the rendered output does not depend on the insertion order of the
    variables. *)
Theorem render_order_irrelevant_on_plain {rt : PyRuntime}
  (segs : list segment) (items items' : list (string * json)) :
  forallb plain_segment segs = true ->
  forallb plain_variable items = true ->
  NoDup (dict_keys items) ->
  Permutation items items' ->
  render_template_variables (JStr (flatten segs)) (JObj items)
  = render_template_variables (JStr (flatten segs)) (JObj items').
Proof.
  intros Hsegs Hitems Hnd Hperm.
  assert (Hitems' : forallb plain_variable items' = true).
  { apply forallb_forall. intros kv Hin.
    apply (proj1 (forallb_forall _ _) Hitems).
    eapply Permutation_in; [apply Permutation_sym; exact Hperm | exact Hin]. }
  rewrite !render_template_variables_str.
  rewrite !render_str_flatten by assumption.
  do 3 f_equal. apply map_ext. intros [s | name]; [reflexivity|].
  cbn [substitute].
  now rewrite (dict_lookup_permutation items items' name Hnd Hperm).
Qed.

Lemma render_order_irrelevant_on_plain_witness :
  render_template_variables (rt := sample_runtime)
    (JStr (flatten [Text "Hi "; Token "name"; Text " #"; Token "n"]))
    (JObj [("name", JStr "Ada"); ("n", JInt 2)])
  = render_template_variables (rt := sample_runtime)
      (JStr (flatten [Text "Hi "; Token "name"; Text " #"; Token "n"]))
      (JObj [("n", JInt 2); ("name", JStr "Ada")]).
Proof.
  apply (render_order_irrelevant_on_plain (rt := sample_runtime)).
  - reflexivity.
  - reflexivity.
  - repeat constructor; cbn; intuition discriminate.
  - apply perm_swap.
Defined.

(** C6 as stated fails: a value that contains the token of a later
    variable is substituted again, so two orders of the same pairs render
    differently. *)
Lemma render_depends_on_order :
  Permutation [("a", JStr "{{b}}"); ("b", JStr "X")]
              [("b", JStr "X"); ("a", JStr "{{b}}")]
  /\ render_template_variables (rt := sample_runtime) (JStr "{{a}}")
       (JObj [("a", JStr "{{b}}"); ("b", JStr "X")])
     = Ok (JStr "X")
  /\ render_template_variables (rt := sample_runtime) (JStr "{{a}}")
       (JObj [("b", JStr "X"); ("a", JStr "{{b}}")])
     = Ok (JStr "{{b}}").
Proof. split; [apply perm_swap | split; reflexivity]. Qed.

(** C7 (as amended). Rendering is a function of the template and the
    variables. An absent template ([None] or the empty string) renders to
    the empty string. Otherwise the variables are applied in turn, in
    insertion order, each replacing every occurrence of its [{{name}}]
    token, taken from the left, by the string form of its value in the
    output of the previous ones. On a plain template and plain variables
    (text without an opening brace, brace-free token names and keys, values
    that print without an opening brace) every token whose name is a
    variable is replaced by the string form of that variable's value and
    every other token is left as written. "Hi {{name}}" with name "Ada"
    renders to "Hi Ada". *)
Theorem render_replaces_tokens {rt : PyRuntime} :
  (forall variables,
     render_template_variables JNull variables = Ok (JStr "")
     /\ render_template_variables (JStr "") variables = Ok (JStr ""))
  /\ (forall t items,
        exists out,
          render_template_variables (JStr t) (JObj items) = Ok (JStr out)
          /\ rendered items t out)
  /\ (forall segs items,
        forallb plain_segment segs = true ->
        forallb plain_variable items = true ->
        render_template_variables (JStr (flatten segs)) (JObj items)
        = Ok (JStr (flatten (map (substitute items) segs))))
  /\ render_template_variables (JStr "Hi {{name}}")
       (JObj [("name", JStr "Ada")])
     = Ok (JStr "Hi Ada").
Proof.
  repeat split.
  - intros t items. exists (render_str t items). split.
    + apply render_template_variables_str.
    + apply rendered_render_str.
  - intros segs items Hsegs Hitems.
    rewrite render_template_variables_str.
    now rewrite render_str_flatten.
Qed.

Lemma render_replaces_tokens_witness :
  render_template_variables (rt := sample_runtime)
    (JStr (flatten [Text "Hi "; Token "name"; Text ", "; Token "unknown"]))
    (JObj [("name", JStr "Ada")])
  = Ok (JStr
          (flatten
             (map (substitute (rt := sample_runtime) [("name", JStr "Ada")])
                [Text "Hi "; Token "name"; Text ", "; Token "unknown"]))).
Proof.
  apply (proj1 (proj2 (proj2
           (render_replaces_tokens (rt := sample_runtime))))
           [Text "Hi "; Token "name"; Text ", "; Token "unknown"]
           [("name", JStr "Ada")]); reflexivity.
Defined.

(** C7 as stated fails off plain templates and variables. A value that
    holds the token of a later variable is substituted again, so the token
    [{{a}}] is not replaced by the string form of [a]; and a key that holds
    braces can span two placeholders that have no variable of their own,
    which are then not left as written. *)
Lemma rendering_is_not_simultaneous :
  render_template_variables (rt := sample_runtime)
    (JStr (flatten [Token "a"; Text " "; Token "b"]))
    (JObj [("a", JStr "{{b}}"); ("b", JStr "X")])
  = Ok (JStr "X X")
  /\ flatten
       (map (substitute (rt := sample_runtime)
               [("a", JStr "{{b}}"); ("b", JStr "X")])
          [Token "a"; Text " "; Token "b"])
     = "{{b}} X"
  /\ render_template_variables (rt := sample_runtime)
       (JStr (flatten [Token "x"; Text " and "; Token "y"]))
       (JObj [("x}} and {{y", JStr "Z")])
     = Ok (JStr "Z")
  /\ flatten
       (map (substitute (rt := sample_runtime) [("x}} and {{y", JStr "Z")])
          [Token "x"; Text " and "; Token "y"])
     = "{{x}} and {{y}}"
  /\ ~ (forall segs items,
          render_template_variables (rt := sample_runtime)
            (JStr (flatten segs)) (JObj items)
          = Ok (JStr
                  (flatten
                     (map (substitute (rt := sample_runtime) items) segs)))).
Proof.
  repeat split.
  intros H.
  specialize (H [Token "a"; Text " "; Token "b"]
                [("a", JStr "{{b}}"); ("b", JStr "X")]).
  discriminate H.
Qed.

(** ** Claims on the user profile and the template record *)

Lemma py_get_found (p : list (string * json)) (k : string) (def v : json) :
  dict_lookup p k = Some v -> py_get (JObj p) k def = Ok v.
Proof. intros H. cbn. now rewrite H. Qed.

Lemma py_get_default (p : list (string * json)) (k : string) (def : json) :
  dict_lookup p k = None -> py_get (JObj p) k def = Ok def.
Proof. intros H. cbn. now rewrite H. Qed.

Lemma truthy_obj_with_field (p : list (string * json)) (k : string)
  (v : json) :
  dict_lookup p k = Some v -> truthy (JObj p) = true.
Proof. destruct p; [discriminate | reflexivity]. Qed.

(** C8 (as amended). For a message whose user profile has a push token and
    [preferences.push] equal to [false], the consumer acknowledges the
    message and reports [skipped] with reason "User disabled push
    notifications"; nothing is published on the dead-letter queue or on a
    retry queue. When [push], or [preferences] altogether, is absent, the
    message is not skipped. *)
Theorem opted_out_user_is_skipped {rt : PyRuntime} (E : Env) (tag : Z)
  (d profile : list (string * json)) (token n : json) :
  broker_healthy E ->
  py_add_int (field d "retry_count" (JInt 0)) 1 = Ok n ->
  fetch_user_data E (field d "user_id" JNull) = JObj profile ->
  dict_lookup profile "push_token" = Some token ->
  truthy token = true ->
  (forall prefs,
     dict_lookup profile "preferences" = Some (JObj prefs) ->
     dict_lookup prefs "push" = Some (JBool false) ->
     calls E tag (Encoded (JObj d))
     = skip_calls E tag d "User disabled push notifications"
     /\ existsb is_publish (calls E tag (Encoded (JObj d))) = false)
  /\ (forall prefs,
        dict_lookup profile "preferences" = Some (JObj prefs) ->
        dict_lookup prefs "push" = None ->
        existsb is_skip_report (calls E tag (Encoded (JObj d))) = false)
  /\ (dict_lookup profile "preferences" = None ->
      existsb is_skip_report (calls E tag (Encoded (JObj d))) = false).
Proof.
  intros Hh Hn Hu Htok Htrue.
  pose proof (truthy_obj_with_field _ _ _ Htok) as Hup.
  pose proof (py_get_found profile "push_token" JNull token Htok) as Hgt.
  rewrite <- Hu in Hup, Hgt.
  split; [|split].
  - intros prefs Hprefs Hpush.
    pose proof (py_get_found profile "preferences" (JObj []) _ Hprefs) as Hgp.
    pose proof (py_get_found prefs "push" (JBool true) _ Hpush) as Hgq.
    rewrite <- Hu in Hgp.
    assert (Hfalse : truthy (JBool false) = false) by reflexivity.
    assert (Hc : calls E tag (Encoded (JObj d))
                 = skip_calls E tag d "User disabled push notifications").
    { remember (calls E tag (Encoded (JObj d))) as tr eqn:Hc.
      exec Hc; subst tr; reflexivity. }
    rewrite Hc. split; reflexivity.
  - intros prefs Hprefs Hpush.
    pose proof (py_get_found profile "preferences" (JObj []) _ Hprefs) as Hgp.
    pose proof (py_get_default prefs "push" (JBool true) Hpush) as Hgq.
    rewrite <- Hu in Hgp.
    assert (Htt : truthy (JBool true) = true) by reflexivity.
    remember (calls E tag (Encoded (JObj d))) as tr eqn:Hc.
    exec Hc; subst tr; reflexivity.
  - intros Hprefs.
    pose proof (py_get_default profile "preferences" (JObj []) Hprefs) as Hgp.
    assert (Hgq : py_get (JObj []) "push" (JBool true) = Ok (JBool true))
      by reflexivity.
    rewrite <- Hu in Hgp.
    assert (Htt : truthy (JBool true) = true) by reflexivity.
    remember (calls E tag (Encoded (JObj d))) as tr eqn:Hc.
    exec Hc; subst tr; reflexivity.
Qed.

Lemma opted_out_user_is_skipped_witness :
  let E :=
    sample_env
      (ok_response
         (JObj [("push_token", JStr "device-1");
                ("preferences", JObj [("push", JBool false)])]))
      (ok_response sample_template) true in
  calls (rt := sample_runtime) E 6 (Encoded (JObj sample_fields))
  = skip_calls E 6 sample_fields "User disabled push notifications"
  /\ existsb is_publish
       (calls (rt := sample_runtime) E 6 (Encoded (JObj sample_fields)))
     = false.
Proof.
  intros E.
  apply (proj1 (opted_out_user_is_skipped (rt := sample_runtime) E 6
                  sample_fields
                  [("push_token", JStr "device-1");
                   ("preferences", JObj [("push", JBool false)])]
                  (JStr "device-1") (JInt 1)
                  ltac:(intros ev; reflexivity) eq_refl eq_refl eq_refl
                  eq_refl)
           [("push", JBool false)]); reflexivity.
Defined.

(** C8 as stated fails twice. The reason reported for an opted-out user is
    not "push disabled by user"; and a profile with [push] set to [false]
    but without a push token is dead-lettered, the token being checked
    first. *)
Lemma opted_out_reason_and_missing_token :
  let with_token :=
    sample_env
      (ok_response
         (JObj [("push_token", JStr "device-1");
                ("preferences", JObj [("push", JBool false)])]))
      (ok_response sample_template) true in
  let without_token :=
    sample_env
      (ok_response (JObj [("preferences", JObj [("push", JBool false)])]))
      (ok_response sample_template) true in
  let tr1 :=
    calls (rt := sample_runtime) with_token 6
      (Encoded (JObj sample_fields)) in
  let tr2 :=
    calls (rt := sample_runtime) without_token 6
      (Encoded (JObj sample_fields)) in
  existsb (reports "skipped" "push disabled by user") tr1 = false
  /\ existsb (reports "skipped" "User disabled push notifications") tr1
     = true
  /\ existsb is_skip_report tr2 = false
  /\ existsb is_dead_letter_publish tr2 = true.
Proof. vm_compute. repeat split. Qed.

(** C9. The existence checks test truthiness. A 200 response of the user
    service whose [data] member is missing or is an empty object takes the
    "User not found" dead-letter path, as a lookup that fails (another
    status, a timeout, a transport error) does; a profile
    whose [push_token] is missing or is the empty string takes the "Missing
    push token" dead-letter path. In both pairs the calls issued are the
    same, so the two cases cannot be told apart on the queues. *)
Theorem empty_values_count_as_absent {rt : PyRuntime} (E : Env) (tag : Z)
  (d : list (string * json)) (n : json) :
  broker_healthy E ->
  py_add_int (field d "retry_count" (JInt 0)) 1 = Ok n ->
  (forall response,
     user_service E (field d "user_id" JNull)
     = HttpResponse 200 (Some (JObj response)) ->
     dict_lookup response "data" = None
     \/ dict_lookup response "data" = Some (JObj []) ->
     calls E tag (Encoded (JObj d))
     = dead_letter_calls E tag d "User not found")
  /\ (forall status payload,
        user_service E (field d "user_id" JNull)
        = HttpResponse status payload ->
        status <> 200 ->
        calls E tag (Encoded (JObj d))
        = dead_letter_calls E tag d "User not found")
  /\ (user_service E (field d "user_id" JNull) = HttpTimeout
      \/ user_service E (field d "user_id" JNull) = HttpError ->
      calls E tag (Encoded (JObj d))
      = dead_letter_calls E tag d "User not found")
  /\ (forall profile,
        fetch_user_data E (field d "user_id" JNull) = JObj profile ->
        profile <> [] ->
        dict_lookup profile "push_token" = None
        \/ dict_lookup profile "push_token" = Some (JStr "") ->
        calls E tag (Encoded (JObj d))
        = dead_letter_calls E tag d "Missing push token").
Proof.
  intros Hh Hn.
  assert (Hnone : truthy (fetch_user_data E (field d "user_id" JNull)) = false
                  -> calls E tag (Encoded (JObj d))
                     = dead_letter_calls E tag d "User not found").
  { intros Hu. remember (calls E tag (Encoded (JObj d))) as tr eqn:Hc.
    exec Hc; subst tr; reflexivity. }
  split; [|split; [|split]].
  - intros response Hr Hdata. apply Hnone.
    unfold fetch_user_data, fetch_data. rewrite Hr. cbn.
    destruct Hdata as [-> | ->]; reflexivity.
  - intros status payload Hr Hs. apply Hnone.
    unfold fetch_user_data, fetch_data. rewrite Hr.
    apply Z.eqb_neq in Hs. rewrite Hs. now destruct payload.
  - intros Hr. apply Hnone. unfold fetch_user_data, fetch_data.
    destruct Hr as [-> | ->]; reflexivity.
  - intros profile Hu Hne Htok.
    assert (Hup : truthy (fetch_user_data E (field d "user_id" JNull)) = true)
      by (rewrite Hu; destruct profile; [congruence | reflexivity]).
    assert (exists t,
              py_get (fetch_user_data E (field d "user_id" JNull))
                "push_token" JNull = Ok t /\ truthy t = false)
      as (t & Hgt & Ht).
    { rewrite Hu. destruct Htok as [H | H].
      - exists JNull. now rewrite (py_get_default _ _ _ H).
      - exists (JStr ""). now rewrite (py_get_found _ _ _ _ H). }
    remember (calls E tag (Encoded (JObj d))) as tr eqn:Hc.
    exec Hc; subst tr; reflexivity.
Qed.

Lemma empty_values_count_as_absent_witness :
  let E :=
    sample_env (HttpResponse 200 (Some (JObj [("data", JObj [])])))
      (ok_response sample_template) true in
  calls (rt := sample_runtime) E 7 (Encoded (JObj sample_fields))
  = dead_letter_calls E 7 sample_fields "User not found".
Proof.
  intros E.
  apply (proj1 (empty_values_count_as_absent (rt := sample_runtime) E 7
                  sample_fields (JInt 1)
                  ltac:(intros ev; reflexivity) eq_refl)
           [("data", JObj [])]);
    [reflexivity | right; reflexivity].
Defined.

Lemma render_default_title {rt : PyRuntime} (variables r : json) :
  render_template_variables (JStr "Notification") variables = Ok r ->
  r = JStr "Notification".
Proof.
  destruct variables; try discriminate.
  rewrite render_template_variables_str.
  rewrite render_str_no_brace by reflexivity.
  now intros [= <-].
Qed.

Lemma render_empty_body {rt : PyRuntime} (variables r : json) :
  render_template_variables (JStr "") variables = Ok r -> r = JStr "".
Proof. cbn. now intros [= <-]. Qed.

(** C10. When the template record has no [title], the title handed to the
    gateway is "Notification"; when it has no [body], the body handed to
    the gateway is the empty string. *)
Theorem default_title_and_body {rt : PyRuntime} (E : Env) (tag : Z)
  (d template : list (string * json))
  (token title body_text : json) (data : pydict) (image_url : json)
  (outcome : result bool) :
  fetch_template_data E (field d "template_code" JNull) = JObj template ->
  In (GatewayCall token title body_text data image_url outcome)
     (calls E tag (Encoded (JObj d))) ->
  (dict_lookup template "title" = None -> title = JStr "Notification")
  /\ (dict_lookup template "body" = None -> body_text = JStr "").
Proof.
  intros Ht Hin.
  assert (Hgt : forall k def,
            py_get (fetch_template_data E (field d "template_code" JNull))
              k def = Ok (field template k def))
    by (intros; now rewrite Ht).
  pose proof (Hgt "title" (JStr "Notification")) as Htitle.
  pose proof (Hgt "body" (JStr "")) as Hbody.
  clear Hgt.
  remember (calls E tag (Encoded (JObj d))) as tr eqn:Hc.
  exec Hc; subst tr; cbn [In] in Hin.
  all: repeat (destruct Hin as [Hin | Hin]; [try discriminate Hin|]);
    try contradiction.
  all: injection Hin as <- <- <- <- <- <-.
  all: split; intros Hnone.
  all: unfold field in *; rewrite Hnone in *.
  all: first [ eapply render_default_title; eassumption
             | eapply render_empty_body; eassumption ].
Qed.

Lemma default_title_and_body_witness :
  let E :=
    sample_env (ok_response sample_user) (ok_response (JObj [("x", JNull)]))
      true in
  exists token title body_text data image_url outcome,
    In (GatewayCall token title body_text data image_url outcome)
       (calls (rt := sample_runtime) E 8 (Encoded (JObj sample_fields)))
    /\ title = JStr "Notification"
    /\ body_text = JStr "".
Proof.
  intros E.
  assert (Hin :
    In (GatewayCall (JStr "device-1") (JStr "Notification") (JStr "")
          [(JStr "notification_id", JStr "n-1"); (JStr "link", JStr "")]
          JNull (Ok true))
       (calls (rt := sample_runtime) E 8 (Encoded (JObj sample_fields))))
    by (vm_compute; left; reflexivity).
  do 6 eexists. split; [exact Hin|].
  destruct (default_title_and_body (rt := sample_runtime) E 8 sample_fields
              [("x", JNull)] _ _ _ _ _ _ eq_refl Hin) as [Htitle Hbody].
  split; [apply Htitle | apply Hbody]; reflexivity.
Defined.

(** ** Invariants of a delivery *)

Lemma py_index_in (xs : list Z) (i : json) (z : Z) :
  py_index xs i = Ok z -> In z xs.
Proof.
  assert (H : forall n,
    (let len := Z.of_nat (List.length xs) in
     let n' := if n <? 0 then n + len else n in
     if (n' <? 0) || (len <=? n') then Raise IndexError
     else Ok (nth (Z.to_nat n') xs 0)) = Ok z -> In z xs).
  { intros n. cbv zeta.
    set (n' := if n <? 0 then n + Z.of_nat (List.length xs) else n).
    destruct ((n' <? 0) || (Z.of_nat (List.length xs) <=? n')) eqn:Hb;
      [discriminate|].
    apply orb_false_iff in Hb as [H1 H2].
    apply Z.ltb_ge in H1. apply Z.leb_gt in H2.
    intros [= <-]. apply nth_In. lia. }
  destruct i; try discriminate; apply H.
Qed.

(** Membership in one of the two fixed tables. *)
Ltac solve_in :=
  first [ eapply py_index_in; eassumption
        | cbn [In RETRY_DELAYS DEAD_LETTER_REASONS];
          repeat first [left; reflexivity | right] ].

Ltac solve_status :=
  first
    [ left; split; reflexivity
    | right; left; split; reflexivity
    | right; right; left; split; [reflexivity|];
      eexists; split; [|reflexivity]; solve_in
    | right; right; right; split; [reflexivity|];
      eexists; split; [eassumption | reflexivity] ].

(** The contract of one call of an executed path. *)
Ltac solve_call :=
  lazymatch goal with
  | |- call_ok _ _ _ (QueueDeclare _ _ _) =>
      split; [reflexivity|];
      first [ left; split; reflexivity
            | right; eexists; split; [|split; reflexivity]; solve_in ]
  | |- call_ok _ _ _ (BasicPublish _ _ _ _) =>
      split; [reflexivity | split; [reflexivity|]];
      first [ left; split; [reflexivity|];
              eexists; split; [|reflexivity]; solve_in
            | right; do 2 eexists;
              split; [|split; [reflexivity|];
                       split; [eassumption|];
                       split; [eassumption | reflexivity]];
              solve_in ]
  | |- call_ok _ _ _ (BasicAck _) => reflexivity
  | |- call_ok _ _ _ (BasicNack _ _) => split; reflexivity
  | |- call_ok ?E _ _ (StatusPost ?p) =>
      let s := lazymatch p with context [("status", JStr ?s)] => s end in
      let n := lazymatch p with context [utcnow E ?n] => n end in
      let err :=
        lazymatch p with
        | dict_set _ "error" (JStr ?e) => constr:(Some e)
        | _ => constr:(@None string)
        end in
      exists s, err, n;
      split; [repeat constructor | split; [solve_status | reflexivity]]
  | |- call_ok _ _ _ (GatewayCall _ _ _ _ _ _) =>
      cbv beta iota delta [call_ok gateway_request_ok]; cbv zeta;
      repeat
        match goal with
        | |- _ /\ _ => split
        | |- exists _, _ => eexists
        | |- if truthy ?m then _ else _ =>
            match goal with K : truthy m = _ |- _ => rewrite K end
        | |- _ = gateway_outcome _ _ _ _ _ _ =>
            unfold gateway_outcome;
            match goal with
            | K : firebase_initialized _ = _ |- _ => rewrite K
            end;
            cbn [negb];
            try match goal with
                | K : messaging_send _ _ _ _ _ _ = _ |- _ => rewrite K
                end
        | |- _ = _ => first [eassumption | reflexivity]
        end
  end.

Ltac solve_calls :=
  lazymatch goal with
  | |- Forall _ [] => constructor
  | |- Forall _ (_ :: _) => constructor; [solve_call | solve_calls]
  end.

(** What the two dead-letter assignments leave under [failure_reason]. *)
Lemma dead_letter_reason_stored (d : list (string * json)) (reason : json)
  (stamp : json) :
  dict_lookup (dict_set (dict_set d "failure_reason" reason) "failed_at" stamp)
    "failure_reason"
  = Some reason.
Proof.
  rewrite dict_lookup_set_other by discriminate.
  apply dict_lookup_set_same.
Qed.

Ltac solve_reasons :=
  let Hp := fresh "Hp" in
  let Hs := fresh "Hs" in
  let Hq := fresh "Hq" in
  intros ? ? ? ? ? Hp Hs Hq;
  cbn [In] in Hp, Hs;
  repeat
    match goal with
    | H : _ \/ _ |- _ => destruct H
    | H : False |- _ => destruct H
    | H : BasicPublish _ _ _ _ = BasicPublish _ _ _ _ |- _ =>
        injection H as <- <- <- <-
    | H : StatusPost _ = StatusPost _ |- _ => injection H as <-
    end;
  try discriminate;
  rewrite dead_letter_reason_stored; reflexivity.

Ltac solve_after_failure :=
  let Hf := fresh "Hf" in
  intros Hf;
  first
    [ discriminate Hf
    | unfold MAX_RETRY_COUNT;
      repeat
        match goal with
        | K : py_lt_int _ _ = _ |- _ => rewrite K
        | K : py_index _ _ = _ |- _ => rewrite K
        end;
      first
        [ eexists; reflexivity
        | cbn [In]; right; left; reflexivity
        | split;
          [ reflexivity
          | let Hp := fresh "Hp" in
            intros ? ? ? ? Hp; cbn [In] in Hp;
            repeat
              match goal with
              | H : _ \/ _ |- _ => destruct H
              | H : False |- _ => destruct H
              | H : BasicPublish _ _ _ _ = BasicPublish _ _ _ _ |- _ =>
                  injection H as <- <- <- <-
              end;
            try discriminate; reflexivity ] ] ].

(** A value that can be added to an integer can be compared with one. *)
Lemma number_compares (x v : json) (n m : Z) (e : exn) :
  py_add_int x n = Ok v -> py_lt_int x m = Raise e -> False.
Proof. destruct x; discriminate. Qed.

(** Paths that cannot be taken: the two tests of the attempt count against
    the limit and against the length of the tier table are the same test,
    and neither raises once [retry_count + 1] has been evaluated. *)
Ltac same_test :=
  match goal with
  | H1 : py_add_int ?x _ = Ok _, H2 : py_lt_int ?x _ = Raise _ |- _ =>
      exfalso; exact (number_compares _ _ _ _ _ H1 H2)
  | H1 : py_lt_int ?x 3 = ?a,
    H2 : py_lt_int ?x (Z.of_nat _) = ?b |- _ =>
      exfalso; change (py_lt_int x 3 = b) in H2; congruence
  end.

(** The early guards of an executed path. *)
Ltac solve_early :=
  let Hb := fresh "Hb" in
  let Hn := fresh "Hn" in
  let He := fresh "He" in
  intros ? ? ? Hb Hn He;
  first
    [ discriminate Hb
    | injection Hb as <-;
      first
        [ congruence
        | unfold early_dead_letter in He; cbv zeta in He;
          repeat
            (match goal with
             | K : truthy _ = _ |- _ => rewrite K in He
             | K : py_get _ _ _ = _ |- _ => rewrite K in He
             end;
             cbv beta iota delta [negb] in He);
          first [discriminate He | left; reflexivity] ] ].

Ltac solve_faults :=
  unfold faults_ok; cbn [forallb];
  repeat
    match goal with
    | K : channel_fault _ _ = _ |- _ => rewrite K
    end;
  reflexivity.

(** Every path of [process_message], under every pattern of broker faults:
    the shape of the trace, the contract of each call, and what the
    callback returns. *)
Lemma run_invariants {rt : PyRuntime} (E : Env) (tag : Z) (b : body) :
  shape_ok (calls E tag b) = true
  /\ Forall (call_ok E tag (message_fields b)) (calls E tag b)
  /\ publish_follows_declare None (calls E tag b)
  /\ (fst (run E tag b) = Ok tt
      \/ (fst (run E tag b) = Raise AMQPError
          /\ channel_fault E (BasicNack tag false) = true))
  /\ (existsb is_ack (calls E tag b) && existsb is_nack (calls E tag b)
      = true ->
      channel_fault E (BasicAck tag) = true)
  /\ outcome_ok (calls E tag b) = true
  /\ faults_ok E tag (calls E tag b) = true
  /\ reasons_agree (calls E tag b)
  /\ (calls E tag b = [BasicNack tag false]
      \/ exists next,
           py_add_int (field (message_fields b) "retry_count" (JInt 0)) 1
           = Ok next)
  /\ after_failure_ok E tag (message_fields b) (calls E tag b)
  /\ declares_precede_acks false (calls E tag b) = true
  /\ (forall d next reason,
        b = Encoded (JObj d) ->
        py_add_int (field d "retry_count" (JInt 0)) 1 = Ok next ->
        early_dead_letter E d = Some reason ->
        In (QueueDeclare "failed.queue" true []) (calls E tag b)).
Proof.
  unfold calls. remember (run E tag b) as r eqn:Hr.
  destruct b as [|v]; [|destruct v].
  all: exec Hr.
  all: try same_test.
  all: subst r; cbv beta iota delta [fst snd trace message_fields].
  all: split; [reflexivity|].
  all: split; [solve_calls|].
  all: split;
    [cbn [publish_follows_declare]; repeat split; eexists; reflexivity|].
  all: split; [first [left; reflexivity | right; split; reflexivity]|].
  all: split;
    [cbn [existsb is_ack is_nack orb andb];
     first [discriminate | intros _; reflexivity]|].
  all: split; [reflexivity|].
  all: split; [solve_faults|].
  all: split; [solve_reasons|].
  all: split; [first [left; reflexivity | right; eexists; eassumption]|].
  all: split; [solve_after_failure|].
  all: split; [reflexivity|].
  all: solve_early.
Qed.

Lemma calls_shape {rt : PyRuntime} (E : Env) (tag : Z) (b : body) :
  shape_ok (calls E tag b) = true.
Proof. apply run_invariants. Qed.

Lemma calls_contracts {rt : PyRuntime} (E : Env) (tag : Z) (b : body)
  (ev : event) :
  In ev (calls E tag b) -> call_ok E tag (message_fields b) ev.
Proof.
  intros Hin.
  destruct (run_invariants E tag b) as (_ & H & _).
  exact (proj1 (Forall_forall _ _) H ev Hin).
Qed.

Lemma body_is_object_or_rejected {rt : PyRuntime} (E : Env) (tag : Z)
  (b : body) :
  (exists d, b = Encoded (JObj d)) \/ calls E tag b = [BasicNack tag false].
Proof.
  destruct b as [|v]; [right; exec_calls; reflexivity|].
  destruct v; try (right; exec_calls; reflexivity).
  left. now eexists.
Qed.

Lemma callback_result {rt : PyRuntime} (E : Env) (tag : Z) (b : body) :
  fst (run E tag b) = Ok tt
  \/ (fst (run E tag b) = Raise AMQPError
      /\ channel_fault E (BasicNack tag false) = true).
Proof. apply run_invariants. Qed.

Lemma ack_then_nack_is_refused_ack {rt : PyRuntime} (E : Env) (tag : Z)
  (b : body) :
  existsb is_ack (calls E tag b) = true ->
  existsb is_nack (calls E tag b) = true ->
  channel_fault E (BasicAck tag) = true.
Proof.
  intros Ha Hn.
  destruct (run_invariants E tag b) as (_ & _ & _ & _ & H & _).
  apply H. now rewrite Ha, Hn.
Qed.

Lemma calls_outcome {rt : PyRuntime} (E : Env) (tag : Z) (b : body) :
  outcome_ok (calls E tag b) = true.
Proof. apply run_invariants. Qed.

Lemma calls_faults {rt : PyRuntime} (E : Env) (tag : Z) (b : body) :
  faults_ok E tag (calls E tag b) = true.
Proof. apply run_invariants. Qed.

Lemma calls_reasons {rt : PyRuntime} (E : Env) (tag : Z) (b : body) :
  reasons_agree (calls E tag b).
Proof. apply run_invariants. Qed.

Lemma calls_after_failure {rt : PyRuntime} (E : Env) (tag : Z) (b : body) :
  after_failure_ok E tag (message_fields b) (calls E tag b).
Proof.
  destruct (run_invariants E tag b)
    as (_ & _ & _ & _ & _ & _ & _ & _ & _ & H & _).
  exact H.
Qed.

Lemma calls_declare_first {rt : PyRuntime} (E : Env) (tag : Z) (b : body) :
  declares_precede_acks false (calls E tag b) = true.
Proof.
  destruct (run_invariants E tag b)
    as (_ & _ & _ & _ & _ & _ & _ & _ & _ & _ & H & _).
  exact H.
Qed.

Lemma early_guard_declares {rt : PyRuntime} (E : Env) (tag : Z)
  (d : list (string * json)) (next : json) (reason : string) :
  py_add_int (field d "retry_count" (JInt 0)) 1 = Ok next ->
  early_dead_letter E d = Some reason ->
  In (QueueDeclare "failed.queue" true []) (calls E tag (Encoded (JObj d))).
Proof.
  destruct (run_invariants E tag (Encoded (JObj d)))
    as (_ & _ & _ & _ & _ & _ & _ & _ & _ & _ & _ & H).
  intros Hn He. exact (H d next reason eq_refl Hn He).
Qed.

Lemma declares_precede_acks_split (tr : list event) :
  forall acked pre ev post,
    declares_precede_acks acked tr = true ->
    tr = (pre ++ ev :: post)%list ->
    is_queue_declare ev = true ->
    acked = false /\ existsb is_ack pre = false.
Proof.
  induction tr as [|x tr IH]; intros acked pre ev post H Heq Hev.
  - destruct pre; discriminate.
  - destruct pre as [|p pre]; cbn in Heq; injection Heq as -> ->.
    + cbn [declares_precede_acks] in H. rewrite Hev in H.
      apply andb_true_iff in H as [H _]. apply negb_true_iff in H.
      now split.
    + cbn [declares_precede_acks] in H.
      destruct (is_queue_declare p) eqn:Hp.
      * apply andb_true_iff in H as [Ha H].
        destruct (IH _ _ _ _ H eq_refl Hev) as [Hacked Hpre].
        split; [exact Hacked|]. cbn [existsb]. rewrite Hpre.
        now destruct p.
      * destruct (IH _ _ _ _ H eq_refl Hev) as [Hacked Hpre].
        apply orb_false_iff in Hacked as [Hacked Hp'].
        split; [exact Hacked|]. cbn [existsb]. now rewrite Hp', Hpre.
Qed.

Lemma retry_count_is_a_number {rt : PyRuntime} (E : Env) (tag : Z)
  (b : body) :
  calls E tag b = [BasicNack tag false]
  \/ exists next,
       py_add_int (field (message_fields b) "retry_count" (JInt 0)) 1
       = Ok next.
Proof.
  destruct (run_invariants E tag b) as (_ & _ & _ & _ & _ & _ & _ & _ & H & _).
  exact H.
Qed.

(** *** Reading the shape *)

Lemma shape_ok_parts (tr : list event) :
  shape_ok tr = true ->
  (count is_gateway_call tr <= 1)%nat
  /\ (count is_ack tr <= 1)%nat
  /\ (count is_nack tr <= 1)%nat
  /\ (count is_status_post tr <= 1)%nat
  /\ (existsb is_ack tr || existsb is_nack tr) = true
  /\ only_last is_status_post tr = true
  /\ only_last is_nack tr = true
  /\ (existsb is_status_post tr = true -> existsb is_ack tr = true)
  /\ retries_follow_failure false tr = true
  /\ (existsb is_publish tr = true -> existsb is_gateway_call tr = true ->
      existsb delivery_failed tr = true)
  /\ gateway_call_is_first tr = true
  /\ (count is_publish tr <= 1)%nat
  /\ (count is_queue_declare tr <= 1)%nat.
Proof.
  unfold shape_ok. intros H.
  repeat (apply andb_true_iff in H as [H ?]).
  repeat split; try (apply Nat.leb_le; assumption); try assumption.
  - intros Hs. now rewrite Hs in *.
  - intros Hp Hg. now rewrite Hp, Hg in *.
Qed.

Lemma count_existsb (p : event -> bool) (tr : list event) :
  existsb p tr = true <-> (1 <= count p tr)%nat.
Proof.
  unfold count. induction tr as [|ev tr IH]; cbn.
  - split; [discriminate | lia].
  - destruct (p ev); cbn; [split; [lia | reflexivity] | exact IH].
Qed.

Lemma only_last_split (p : event -> bool) (tr : list event) :
  only_last p tr = true ->
  forall pre ev post,
    tr = (pre ++ ev :: post)%list -> p ev = true -> post = [].
Proof.
  induction tr as [|x tr IH]; intros H pre ev post Heq Hp.
  - destruct pre; discriminate.
  - cbn [only_last] in H. apply andb_true_iff in H as [Hx H].
    destruct pre as [|y pre]; cbn in Heq; injection Heq as -> ->.
    + rewrite Hp in Hx. now destruct post.
    + exact (IH H _ _ _ eq_refl Hp).
Qed.

Lemma retries_follow_failure_in (tr : list event) :
  forall failed ev,
    retries_follow_failure failed tr = true ->
    In ev tr -> is_retry_publish ev = true ->
    failed = true \/ existsb delivery_failed tr = true.
Proof.
  induction tr as [|x tr IH]; intros failed ev H Hin Hev; [destruct Hin|].
  cbn [retries_follow_failure] in H. apply andb_true_iff in H as [Hx H].
  destruct Hin as [-> | Hin].
  - rewrite Hev in Hx. now left.
  - destruct (IH _ _ H Hin Hev) as [Hf | Hf].
    + apply orb_true_iff in Hf as [Hf | Hf]; [now left|].
      right. cbn. now rewrite Hf.
    + right. cbn. rewrite Hf. apply orb_true_r.
Qed.

Lemma publish_follows_declare_split (tr : list event) :
  forall prev pre exchange routing_key payload mode post,
    publish_follows_declare prev tr ->
    tr = (pre ++ BasicPublish exchange routing_key payload mode :: post)%list ->
    exists arguments,
      (pre = [] /\ prev = Some (QueueDeclare routing_key true arguments))
      \/ exists pre',
           pre = (pre' ++ [QueueDeclare routing_key true arguments])%list.
Proof.
  induction tr as [|x tr IH]; intros prev pre ex rk pl m post H Heq.
  - destruct pre; discriminate.
  - cbn [publish_follows_declare] in H. destruct H as [Hx H].
    destruct pre as [|y pre]; cbn in Heq; injection Heq as -> ->.
    + destruct Hx as [args Hx]. exists args. now left.
    + destruct (IH _ _ _ _ _ _ _ H eq_refl) as [args [[-> Hy] | [pre' ->]]].
      * injection Hy as ->. exists args. right. now exists [].
      * exists args. right. now exists (y :: pre').
Qed.

Lemma outcome_ok_parts (tr : list event) :
  outcome_ok tr = true ->
  (existsb gateway_raised tr = true ->
   List.length tr = 2%nat /\ existsb is_nack tr = true)
  /\ (existsb delivery_succeeded tr = true ->
      existsb is_queue_declare tr = false /\ existsb is_ack tr = true)
  /\ (existsb (has_status "delivered") tr = true ->
      existsb delivery_succeeded tr = true)
  /\ (existsb delivery_succeeded tr = true ->
      existsb is_status_post tr = true ->
      existsb (has_status "delivered") tr = true)
  /\ (existsb (has_status "skipped") tr = true -> List.length tr = 2%nat)
  /\ (existsb (has_status "pending") tr = true ->
      existsb delivery_failed tr = true
      /\ existsb is_retry_declare tr = true)
  /\ (existsb is_retry_declare tr = true ->
      existsb is_status_post tr = true ->
      existsb (has_status "pending") tr = true)
  /\ (existsb is_retry_declare tr = true ->
      existsb delivery_failed tr = true)
  /\ (existsb (has_status "failed") tr = true ->
      existsb is_dead_letter_declare tr = true)
  /\ (existsb is_dead_letter_declare tr = true ->
      existsb is_status_post tr = true ->
      existsb (has_status "failed") tr = true)
  /\ (existsb (reports "failed" "Max retries exceeded") tr = true ->
      existsb delivery_failed tr = true)
  /\ (existsb is_dead_letter_declare tr = true ->
      existsb delivery_failed tr = true ->
      existsb is_status_post tr = true ->
      existsb (reports "failed" "Max retries exceeded") tr = true)
  /\ (existsb is_queue_declare tr = true -> existsb is_ack tr = true)
  /\ (existsb delivery_failed tr = true ->
      existsb is_queue_declare tr = true \/ existsb is_nack tr = true).
Proof.
  unfold outcome_ok. intros H.
  repeat (apply andb_true_iff in H as [H ?]).
  repeat
    match goal with
    | K : implb _ _ = true |- _ =>
        let K' := fresh in
        pose proof (proj1 (implb_true_iff _ _) K) as K'; clear K
    end.
  repeat split; intros;
    repeat
      match goal with
      | K : ?x = true -> _, K' : ?x = true |- _ => specialize (K K')
      | K : ?x && ?y = true -> _, K1 : ?x = true, K2 : ?y = true |- _ =>
          rewrite K1, K2 in K; specialize (K eq_refl)
      | K : ?x && ?y && ?z = true -> _,
        K1 : ?x = true, K2 : ?y = true, K3 : ?z = true |- _ =>
          rewrite K1, K2, K3 in K; specialize (K eq_refl)
      | K : _ && _ = true |- _ => apply andb_true_iff in K as [? ?]
      | K : negb _ = true |- _ => apply negb_true_iff in K
      | K : (_ =? _)%nat = true |- _ => apply Nat.eqb_eq in K
      | K : _ || _ = true |- _ => apply orb_true_iff in K
      end;
    try assumption.
Qed.

Lemma faults_ok_parts (E : Env) (tag : Z) (tr : list event) :
  faults_ok E tag tr = true ->
  (forall ev,
     In ev tr -> is_queue_declare ev = true ->
     channel_fault E ev = negb (existsb is_publish tr))
  /\ (existsb is_ack tr = true ->
      if channel_fault E (BasicAck tag) then existsb is_nack tr = true
      else existsb is_status_post tr = true).
Proof.
  unfold faults_ok. intros H. apply andb_true_iff in H as [H1 H2].
  split.
  - intros ev Hin Hd.
    pose proof (proj1 (forallb_forall _ _) H1 ev Hin) as H.
    cbv beta in H. rewrite Hd in H. cbn [implb] in H.
    now apply eqb_prop.
  - intros Ha. rewrite Ha in H2. cbn [implb] in H2.
    now destruct (channel_fault E (BasicAck tag)).
Qed.

(** *** Counting calls *)

Lemma count_app (p : event -> bool) (l1 l2 : list event) :
  count p (l1 ++ l2) = (count p l1 + count p l2)%nat.
Proof. unfold count. now rewrite filter_app, length_app. Qed.

Lemma existsb_false_count (p : event -> bool) (tr : list event) :
  count p tr = 0%nat -> existsb p tr = false.
Proof.
  intros H. destruct (existsb p tr) eqn:He; [|reflexivity].
  apply count_existsb in He. lia.
Qed.

Lemma count_unique (p : event -> bool) (tr : list event) (a b : event) :
  (count p tr <= 1)%nat ->
  In a tr -> In b tr -> p a = true -> p b = true -> a = b.
Proof.
  unfold count. induction tr as [|x tr IH]; intros Hc Ha Hb Hpa Hpb;
    [destruct Ha|].
  cbn [filter] in Hc.
  assert (Hnone : forall y, p x = true -> In y tr -> p y = true -> False).
  { intros y Hx Hy Hpy. rewrite Hx in Hc. cbn in Hc.
    assert (1 <= List.length (filter p tr))%nat; [|lia].
    apply (count_existsb p tr). apply existsb_exists. now exists y. }
  destruct Ha as [-> | Ha], Hb as [-> | Hb].
  - reflexivity.
  - destruct (Hnone b Hpa Hb Hpb).
  - destruct (Hnone a Hpb Ha Hpa).
  - apply IH; try assumption. destruct (p x); cbn in Hc; lia.
Qed.

Lemma count_split_none (p : event -> bool) (pre post : list event)
  (ev : event) :
  (count p (pre ++ ev :: post) <= 1)%nat -> p ev = true ->
  existsb p pre = false /\ existsb p post = false.
Proof.
  intros Hc Hev. rewrite count_app in Hc.
  change (ev :: post) with ([ev] ++ post)%list in Hc.
  rewrite count_app in Hc.
  assert (count p [ev] = 1%nat) by (unfold count; cbn; now rewrite Hev).
  split; apply existsb_false_count; lia.
Qed.

(** ** The publish and the acknowledgement *)

(** On the paths that dead-letter or retry, the queue is declared. *)
Lemma stored_message_declares {rt : PyRuntime} (E : Env) (tag : Z)
  (d : list (string * json)) :
  dead_letters_or_retries E d (calls E tag (Encoded (JObj d))) ->
  exists queue arguments,
    In (QueueDeclare queue true arguments) (calls E tag (Encoded (JObj d)))
    /\ (queue = "failed.queue"
        \/ exists delay,
             py_index RETRY_DELAYS (field d "retry_count" (JInt 0))
             = Ok delay
             /\ queue = "push.retry." ++ str_of_Z delay).
Proof.
  intros [[next Hn] [[reason He] | [Hf Hcount]]].
  - exists "failed.queue", []. split; [|now left].
    exact (early_guard_declares E tag d next reason Hn He).
  - pose proof (calls_after_failure E tag (Encoded (JObj d)) Hf) as H.
    cbn [message_fields] in H.
    assert (Hnum : exists c,
              py_lt_int (field d "retry_count" (JInt 0)) MAX_RETRY_COUNT
              = Ok c).
    { destruct (field d "retry_count" (JInt 0)); try discriminate Hn;
        eexists; reflexivity. }
    destruct Hnum as [[|] Hlt]; rewrite Hlt in H.
    + destruct Hcount as [Hno | [delay Hidx]]; [congruence|].
      rewrite Hidx in H.
      exists ("push.retry." ++ str_of_Z delay), (retry_queue_arguments E delay).
      split; [exact H|]. right. now exists delay.
    + destruct H as [Hdl _].
      apply existsb_exists in Hdl as (ev & Hin & Hev).
      destruct ev; try discriminate Hev.
      cbn in Hev. apply String.eqb_eq in Hev. subst queue.
      destruct (calls_contracts E tag _ _ Hin) as (-> & _).
      exists "failed.queue", arguments. split; [exact Hin | now left].
Qed.

(** C4 (as amended). On every path of [process_message] that dead-letters
    the message or schedules a retry, the queue is declared before any
    acknowledgement; when the broker accepts the declaration, the publish
    on that queue is issued right after it, still before any
    acknowledgement, and the acknowledgement follows; when the broker
    refuses the declaration, the fault is swallowed: nothing is published
    and the message is acknowledged all the same. In every delivery, no
    acknowledgement precedes a publish and every publish is followed by the
    acknowledgement. *)
Theorem publish_happens_before_ack {rt : PyRuntime} (E : Env) (tag : Z)
  (d : list (string * json)) :
  dead_letters_or_retries E d (calls E tag (Encoded (JObj d))) ->
  (exists pre queue arguments post,
     calls E tag (Encoded (JObj d))
     = (pre ++ QueueDeclare queue true arguments :: post)%list
     /\ (queue = "failed.queue"
         \/ exists delay,
              py_index RETRY_DELAYS (field d "retry_count" (JInt 0))
              = Ok delay
              /\ queue = "push.retry." ++ str_of_Z delay)
     /\ existsb is_ack pre = false
     /\ existsb is_publish pre = false
     /\ if channel_fault E (QueueDeclare queue true arguments)
        then existsb is_publish post = false
             /\ existsb is_ack post = true
        else exists payload post',
               post = BasicPublish "" queue payload 2 :: post'
               /\ existsb is_publish post' = false
               /\ existsb is_ack post' = true)
  /\ (forall pre ev post,
        calls E tag (Encoded (JObj d)) = (pre ++ ev :: post)%list ->
        is_publish ev = true ->
        existsb is_ack pre = false /\ existsb is_ack post = true).
Proof.
  intros Hpath.
  assert (Hord : forall pre ev post,
            calls E tag (Encoded (JObj d)) = (pre ++ ev :: post)%list ->
            is_publish ev = true ->
            existsb is_ack pre = false /\ existsb is_ack post = true).
  { intros pre ev post Heq Hev.
    destruct (calls_ordered E tag (Encoded (JObj d))) as [H1 H2]. split.
    - apply not_true_is_false. intros Ha.
      apply existsb_exists in Ha as (e & Hin & He).
      rewrite (proj2 (publishes_precede_acks_split _ _ _ _ _ H1 Heq Hev)
                 e Hin) in He.
      discriminate He.
    - apply existsb_exists.
      exact (publishes_are_acked_split _ _ _ _ H2 Heq Hev). }
  split; [|exact Hord].
  destruct (stored_message_declares E tag d Hpath)
    as (queue & arguments & Hin & Hqueue).
  pose proof (calls_shape E tag (Encoded (JObj d))) as Hs.
  apply shape_ok_parts in Hs as (_ & _ & _ & _ & _ & _ & _ & _ & _ & _ & _
                                 & Hpubs & Hdecls).
  destruct (faults_ok_parts _ _ _ (calls_faults E tag (Encoded (JObj d))))
    as [Hf _].
  specialize (Hf _ Hin eq_refl).
  destruct (channel_fault E (QueueDeclare queue true arguments)) eqn:Hfault.
  - (* refused: nothing is published *)
    symmetry in Hf. apply negb_true_iff in Hf.
    apply in_split in Hin as (pre & post & Heq).
    exists pre, queue, arguments, post. rewrite Hfault.
    split; [exact Heq|]. split; [exact Hqueue|].
    destruct (declares_precede_acks_split _ _ _ _ _
                (calls_declare_first E tag (Encoded (JObj d))) Heq eq_refl)
      as [_ Hpre].
    rewrite Heq, existsb_app in Hf. cbn [existsb is_publish] in Hf.
    apply orb_false_iff in Hf as [Hp1 Hp2].
    split; [exact Hpre|]. split; [exact Hp1|]. split; [exact Hp2|].
    destruct (outcome_ok_parts _ (calls_outcome E tag (Encoded (JObj d))))
      as (_ & _ & _ & _ & _ & _ & _ & _ & _ & _ & _ & _ & Hdecl & _).
    assert (Hd : existsb is_queue_declare (calls E tag (Encoded (JObj d)))
                 = true).
    { rewrite Heq, existsb_app. cbn. apply orb_true_r. }
    specialize (Hdecl Hd). rewrite Heq, existsb_app, Hpre in Hdecl.
    exact Hdecl.
  - (* accepted: the publish comes next *)
    symmetry in Hf. apply negb_false_iff in Hf.
    apply existsb_exists in Hf as (ev & Hev & Hpub).
    destruct ev; try discriminate Hpub.
    destruct (calls_contracts E tag _ _ Hev) as (-> & -> & _).
    apply in_split in Hev as (pre2 & post2 & Heq).
    destruct (run_invariants E tag (Encoded (JObj d)))
      as (_ & _ & Hfollow & _).
    destruct (publish_follows_declare_split _ _ _ _ _ _ _ _ Hfollow Heq)
      as (arguments' & [[_ Hnone] | [pre' ->]]); [discriminate|].
    assert (Hsame : QueueDeclare routing_key true arguments'
                    = QueueDeclare queue true arguments).
    { apply (count_unique is_queue_declare _ _ _ Hdecls);
        try reflexivity; [|exact Hin].
      rewrite Heq, <- app_assoc. apply in_elt. }
    injection Hsame as -> ->.
    rewrite <- app_assoc in Heq. cbn [app] in Heq.
    exists pre', queue, arguments, (BasicPublish "" queue payload 2 :: post2).
    rewrite Hfault.
    split; [exact Heq|]. split; [exact Hqueue|].
    assert (Heq' : calls E tag (Encoded (JObj d))
                   = ((pre' ++ [QueueDeclare queue true arguments])
                      ++ BasicPublish "" queue payload 2 :: post2)%list).
    { rewrite Heq, <- app_assoc. reflexivity. }
    destruct (Hord _ _ _ Heq' eq_refl) as [Hpre Hpost].
    rewrite existsb_app in Hpre. apply orb_false_iff in Hpre as [Hpre _].
    rewrite Heq' in Hpubs.
    destruct (count_split_none is_publish _ _ _ Hpubs eq_refl) as [Hn1 Hn2].
    rewrite existsb_app in Hn1. apply orb_false_iff in Hn1 as [Hn1 _].
    split; [exact Hpre|]. split; [exact Hn1|].
    exists payload, post2. now repeat split.
Qed.

Lemma publish_happens_before_ack_witness :
  (exists pre queue arguments post,
     calls (rt := sample_runtime) failing_env 1
       (Encoded (JObj sample_fields))
     = (pre ++ QueueDeclare queue true arguments :: post)%list
     /\ (queue = "failed.queue"
         \/ exists delay,
              py_index RETRY_DELAYS
                (field sample_fields "retry_count" (JInt 0))
              = Ok delay
              /\ queue = "push.retry." ++ str_of_Z delay)
     /\ existsb is_ack pre = false
     /\ existsb is_publish pre = false
     /\ if channel_fault failing_env (QueueDeclare queue true arguments)
        then existsb is_publish post = false
             /\ existsb is_ack post = true
        else exists payload post',
               post = BasicPublish "" queue payload 2 :: post'
               /\ existsb is_publish post' = false
               /\ existsb is_ack post' = true)
  /\ (forall pre ev post,
        calls (rt := sample_runtime) failing_env 1
          (Encoded (JObj sample_fields))
        = (pre ++ ev :: post)%list ->
        is_publish ev = true ->
        existsb is_ack pre = false /\ existsb is_ack post = true).
Proof.
  apply (publish_happens_before_ack (rt := sample_runtime) failing_env 1
           sample_fields).
  split.
  - exists (JInt 1). reflexivity.
  - right. split; [reflexivity|]. right. exists 60. reflexivity.
Defined.

(** C4 as stated fails: when the broker refuses the declaration of the
    retry queue, the delivery is on the path that schedules a retry, and it
    is acknowledged and reported [pending] although no publish was
    issued. *)
Lemma retry_acknowledged_without_publish :
  dead_letters_or_retries (with_faults failing_env is_queue_declare)
    sample_fields
    (calls (rt := sample_runtime)
       (with_faults failing_env is_queue_declare) 1
       (Encoded (JObj sample_fields)))
  /\ calls (rt := sample_runtime)
       (with_faults failing_env is_queue_declare) 1
       (Encoded (JObj sample_fields))
     = [GatewayCall (JStr "device-1") (JStr "Hello") (JStr "Hi Ada")
          [(JStr "notification_id", JStr "n-1"); (JStr "link", JStr "")]
          JNull (Ok false);
        QueueDeclare "push.retry.60" true
          [("x-message-ttl", JInt 60000);
           ("x-dead-letter-exchange", JStr "");
           ("x-dead-letter-routing-key", JStr "push.queue")];
        BasicAck 1;
        StatusPost
          (status_payload (JStr "n-1") "pending" sample_time
             (Some "Retry scheduled (attempt 1)"))]
  /\ existsb is_ack
       (calls (rt := sample_runtime)
          (with_faults failing_env is_queue_declare) 1
          (Encoded (JObj sample_fields))) = true
  /\ existsb is_publish
       (calls (rt := sample_runtime)
          (with_faults failing_env is_queue_declare) 1
          (Encoded (JObj sample_fields))) = false.
Proof.
  split; [|repeat split].
  split.
  - exists (JInt 1). reflexivity.
  - right. split; [reflexivity|]. right. exists 60. reflexivity.
Qed.

(** ** Further properties of a delivery *)

(** X1. The callback returns normally whenever the broker accepts the
    negative acknowledgement: no fault of a collaborator, no ill-typed
    field and no refused publish or acknowledgement escapes it. *)
Theorem callback_returns_unless_nack_refused {rt : PyRuntime} (E : Env)
  (tag : Z) (b : body) :
  channel_fault E (BasicNack tag false) = false ->
  fst (run E tag b) = Ok tt.
Proof.
  intros Hn.
  destruct (callback_result E tag b) as [H | [_ H]]; congruence.
Qed.

Lemma callback_returns_unless_nack_refused_witness :
  fst (run (rt := sample_runtime) failing_env 1 (Encoded (JList [JInt 1])))
  = Ok tt.
Proof.
  apply (callback_returns_unless_nack_refused (rt := sample_runtime)
           failing_env 1 (Encoded (JList [JInt 1]))).
  reflexivity.
Defined.

(** X2. Every delivery is settled with its own delivery tag and is never
    requeued: at least one of [basic_ack] and [basic_nack] is issued, each at
    most once, a negative acknowledgement always has [requeue=False], and
    when the broker accepts the acknowledgement exactly one of the two is
    issued. *)
Theorem delivery_settled_once_never_requeued {rt : PyRuntime} (E : Env)
  (tag : Z) (b : body) :
  (forall t, In (BasicAck t) (calls E tag b) -> t = tag)
  /\ (forall t requeue,
        In (BasicNack t requeue) (calls E tag b) ->
        t = tag /\ requeue = false)
  /\ (count is_ack (calls E tag b) <= 1)%nat
  /\ (count is_nack (calls E tag b) <= 1)%nat
  /\ (1 <= count is_ack (calls E tag b) + count is_nack (calls E tag b))%nat
  /\ (channel_fault E (BasicAck tag) = false ->
      (count is_ack (calls E tag b) + count is_nack (calls E tag b))%nat
      = 1%nat).
Proof.
  pose proof (ack_then_nack_is_refused_ack E tag b) as Hboth.
  pose proof (calls_shape E tag b) as Hs.
  apply shape_ok_parts in Hs
    as (_ & Ha & Hn & _ & Hsettle & _).
  assert (H1 : (1 <= count is_ack (calls E tag b)
                     + count is_nack (calls E tag b))%nat).
  { apply orb_true_iff in Hsettle as [H | H];
      apply count_existsb in H; lia. }
  repeat split; try assumption.
  - intros t Hin. exact (calls_contracts E tag b _ Hin).
  - exact (proj1 (calls_contracts E tag b _ H)).
  - exact (proj2 (calls_contracts E tag b _ H)).
  - intros Hok.
    destruct (existsb is_ack (calls E tag b)) eqn:Hea,
             (existsb is_nack (calls E tag b)) eqn:Hen.
    + specialize (Hboth eq_refl eq_refl). congruence.
    + assert (count is_nack (calls E tag b) = 0%nat); [|lia].
      destruct (count is_nack (calls E tag b)) eqn:Hc; [reflexivity|].
      assert (existsb is_nack (calls E tag b) = true)
        by (apply count_existsb; lia). congruence.
    + assert (count is_ack (calls E tag b) = 0%nat); [|lia].
      destruct (count is_ack (calls E tag b)) eqn:Hc; [reflexivity|].
      assert (existsb is_ack (calls E tag b) = true)
        by (apply count_existsb; lia). congruence.
    + discriminate.
Qed.

Lemma delivery_settled_once_never_requeued_witness :
  (count is_ack
     (calls (rt := sample_runtime) failing_env 3
        (Encoded (JObj sample_fields)))
   + count is_nack
       (calls (rt := sample_runtime) failing_env 3
          (Encoded (JObj sample_fields))))%nat
  = 1%nat.
Proof.
  apply (delivery_settled_once_never_requeued (rt := sample_runtime)
           failing_env 3 (Encoded (JObj sample_fields))).
  reflexivity.
Defined.

(** X3. At most one status report is posted for a delivery; it is the last
    call, it comes after the acknowledgement, and a delivery that is
    negatively acknowledged posts none. *)
Theorem status_report_is_last_call {rt : PyRuntime} (E : Env) (tag : Z)
  (b : body) (pre post : list event) (ev : event) :
  calls E tag b = (pre ++ ev :: post)%list ->
  is_status_post ev = true ->
  post = []
  /\ existsb is_ack pre = true
  /\ existsb is_nack pre = false
  /\ existsb is_status_post pre = false.
Proof.
  intros Heq Hev.
  pose proof (calls_shape E tag b) as Hs. rewrite Heq in Hs.
  apply shape_ok_parts in Hs
    as (_ & _ & _ & Hc & _ & Hlast & Hnack & Hack & _).
  assert (Hpost : post = []) by exact (only_last_split _ _ Hlast _ _ _ eq_refl Hev).
  subst post.
  assert (Hex : existsb is_status_post (pre ++ [ev]) = true).
  { rewrite existsb_app. cbn. rewrite Hev. apply orb_true_r. }
  repeat split.
  - specialize (Hack Hex). rewrite existsb_app in Hack. cbn in Hack.
    destruct ev; try discriminate. cbn in Hack.
    now rewrite !orb_false_r in Hack.
  - destruct (existsb is_nack pre) eqn:Hn; [|reflexivity].
    apply existsb_exists in Hn as (x & Hin & Hx).
    apply in_split in Hin as (p1 & p2 & ->).
    rewrite <- app_assoc in Hnack. cbn [app] in Hnack.
    pose proof (only_last_split _ _ Hnack _ _ _ eq_refl Hx) as Hnil.
    destruct p2; discriminate.
  - apply existsb_false_count.
    rewrite count_app in Hc.
    assert (count is_status_post [ev] = 1%nat)
      by (unfold count; cbn; now rewrite Hev).
    lia.
Qed.

Lemma status_report_is_last_call_witness :
  existsb is_ack
    [GatewayCall (JStr "device-1") (JStr "Hello") (JStr "Hi Ada")
       [(JStr "notification_id", JStr "n-1"); (JStr "link", JStr "")]
       JNull (Ok true);
     BasicAck 1] = true.
Proof.
  apply (status_report_is_last_call (rt := sample_runtime)
           (sample_env (ok_response sample_user)
              (ok_response sample_template) true)
           1 (Encoded (JObj sample_fields))
           _ []
           (StatusPost
              [("notification_id", JStr "n-1"); ("status", JStr "delivered");
               ("timestamp", JStr "2025-11-03T09:05:07.000120Z")]));
    reflexivity.
Defined.

(** X4. A status report carries the [notification_id] of the message, one
    of the four statuses, the UTC time of the report in ISO-8601 form
    followed by [Z], and an [error] text unless the status is [delivered];
    it has no other field. *)
Theorem status_report_payload {rt : PyRuntime} (E : Env) (tag : Z)
  (b : body) (payload : list (string * json)) :
  In (StatusPost payload) (calls E tag b) ->
  exists status n,
    (n <= 1)%nat
    /\ In status ["delivered"; "skipped"; "pending"; "failed"]
    /\ dict_lookup payload "notification_id"
       = Some (field (message_fields b) "notification_id" JNull)
    /\ dict_lookup payload "status" = Some (JStr status)
    /\ dict_lookup payload "timestamp"
       = Some (JStr (isoformat (utcnow E n) ++ "Z"))
    /\ (dict_lookup payload "error" = None <-> status = "delivered")
    /\ (forall k, In k (dict_keys payload) ->
                  In k ["notification_id"; "status"; "timestamp"; "error"])
    /\ (valid_datetime (utcnow E n) ->
        iso8601_utc_z (isoformat (utcnow E n) ++ "Z") = true).
Proof.
  intros Hin.
  destruct (calls_contracts E tag b _ Hin) as (status & error & n & Hn & Hs & ->).
  exists status, n.
  assert (Hkeys : forall e k,
            In k (dict_keys
                    (status_payload
                       (field (message_fields b) "notification_id" JNull)
                       status (utcnow E n) e)) ->
            In k ["notification_id"; "status"; "timestamp"; "error"]).
  { intros e k. destruct e; cbn; tauto. }
  split; [exact Hn|].
  split.
  { destruct Hs as [[-> _] | [[-> _] | [[-> _] | [-> _]]]]; cbn; tauto. }
  split; [reflexivity|].
  split; [reflexivity|].
  split; [reflexivity|].
  split.
  { destruct Hs as [[-> ->] | [[-> ->] | [[-> (r & _ & ->)]
                                         | [-> (x & _ & ->)]]]];
      split; intros H; first [reflexivity | discriminate H]. }
  split; [apply Hkeys | apply isoformat_iso8601].
Qed.

Lemma status_report_payload_witness :
  exists status n,
    (n <= 1)%nat
    /\ In status ["delivered"; "skipped"; "pending"; "failed"]
    /\ dict_lookup
         (status_payload (JStr "n-1") "pending" sample_time
            (Some "Retry scheduled (attempt 1)")) "notification_id"
       = Some (field (message_fields (Encoded (JObj sample_fields)))
                 "notification_id" JNull)
    /\ dict_lookup
         (status_payload (JStr "n-1") "pending" sample_time
            (Some "Retry scheduled (attempt 1)")) "status"
       = Some (JStr status)
    /\ dict_lookup
         (status_payload (JStr "n-1") "pending" sample_time
            (Some "Retry scheduled (attempt 1)")) "timestamp"
       = Some (JStr (isoformat (utcnow failing_env n) ++ "Z"))
    /\ (dict_lookup
          (status_payload (JStr "n-1") "pending" sample_time
             (Some "Retry scheduled (attempt 1)")) "error" = None
        <-> status = "delivered")
    /\ (forall k,
          In k (dict_keys
                  (status_payload (JStr "n-1") "pending" sample_time
                     (Some "Retry scheduled (attempt 1)"))) ->
          In k ["notification_id"; "status"; "timestamp"; "error"])
    /\ (valid_datetime (utcnow failing_env n) ->
        iso8601_utc_z (isoformat (utcnow failing_env n) ++ "Z") = true).
Proof.
  apply (status_report_payload (rt := sample_runtime) failing_env 1
           (Encoded (JObj sample_fields))).
  vm_compute. tauto.
Defined.

(** X5. The copy published on a retry queue is the original message with
    only [retry_count] changed, to the original count plus one; it is
    published only for a count below [MAX_RETRY_COUNT], on the queue of one
    of the three tiers, and only after the gateway reported a failure. *)
Theorem retry_copy_changes_count_only {rt : PyRuntime} (E : Env) (tag : Z)
  (b : body) (ev : event) :
  In ev (calls E tag b) ->
  is_retry_publish ev = true ->
  exists d delay next,
    b = Encoded (JObj d)
    /\ ev = BasicPublish "" ("push.retry." ++ str_of_Z delay)
              (Encoded (JObj (dict_set d "retry_count" next))) 2
    /\ In delay [60; 300; 900]
    /\ py_lt_int (field d "retry_count" (JInt 0)) 3 = Ok true
    /\ py_add_int (field d "retry_count" (JInt 0)) 1 = Ok next
    /\ (forall k, k <> "retry_count" ->
          dict_lookup (dict_set d "retry_count" next) k = dict_lookup d k)
    /\ (forall k, field d "retry_count" (JInt 0) = JInt k ->
          k < 3 /\ next = JInt (k + 1))
    /\ existsb delivery_failed (calls E tag b) = true.
Proof.
  intros Hin Hev.
  destruct (body_is_object_or_rejected E tag b) as [[d ->] | Hrej].
  2:{ rewrite Hrej in Hin. destruct Hin as [<- | []]. discriminate. }
  pose proof (calls_contracts E tag _ _ Hin) as Hok.
  destruct ev; try discriminate Hev.
  cbn [call_ok message_fields] in Hok.
  destruct Hok as (-> & -> & [[-> _] | (delay & next & Hd & -> & Hlt & Hadd & ->)]);
    [discriminate Hev|].
  exists d, delay, next. repeat split; try assumption.
  - intros k Hk. now apply dict_lookup_set_other.
  - rewrite H in Hlt. cbn in Hlt. injection Hlt as Hlt.
    now apply Z.ltb_lt.
  - rewrite H in Hadd. cbn in Hadd. now injection Hadd as <-.
  - pose proof (calls_shape E tag (Encoded (JObj d))) as Hs.
    apply shape_ok_parts in Hs as (_ & _ & _ & _ & _ & _ & _ & _ & Hr & _).
    destruct (retries_follow_failure_in _ _ _ Hr Hin Hev); [discriminate|].
    assumption.
Qed.

Lemma retry_copy_changes_count_only_witness :
  exists d delay next,
    Encoded (JObj sample_fields) = Encoded (JObj d)
    /\ BasicPublish "" "push.retry.60" (Encoded (JObj (sample_item 1))) 2
       = BasicPublish "" ("push.retry." ++ str_of_Z delay)
           (Encoded (JObj (dict_set d "retry_count" next))) 2
    /\ In delay [60; 300; 900]
    /\ py_lt_int (field d "retry_count" (JInt 0)) 3 = Ok true
    /\ py_add_int (field d "retry_count" (JInt 0)) 1 = Ok next
    /\ (forall k, k <> "retry_count" ->
          dict_lookup (dict_set d "retry_count" next) k = dict_lookup d k)
    /\ (forall k, field d "retry_count" (JInt 0) = JInt k ->
          k < 3 /\ next = JInt (k + 1))
    /\ existsb delivery_failed
         (calls (rt := sample_runtime) failing_env 1
            (Encoded (JObj sample_fields))) = true.
Proof.
  apply (retry_copy_changes_count_only (rt := sample_runtime) failing_env 1
           (Encoded (JObj sample_fields))).
  - vm_compute. tauto.
  - reflexivity.
Defined.

Lemma status_excludes_nack (tr : list event) :
  shape_ok tr = true ->
  existsb is_status_post tr = true -> existsb is_nack tr = false.
Proof.
  intros Hs Hst.
  apply shape_ok_parts in Hs as (_ & _ & _ & _ & _ & Hlast & Hnack & _).
  destruct (existsb is_nack tr) eqn:Hn; [|reflexivity].
  apply existsb_exists in Hst as (s & Hins & Hs).
  apply existsb_exists in Hn as (n & Hinn & Hn).
  apply in_split in Hins as (p1 & p2 & ->).
  pose proof (only_last_split _ _ Hlast _ _ _ eq_refl Hs) as ->.
  apply in_app_or in Hinn as [Hinn | [<- | []]].
  - apply in_split in Hinn as (q1 & q2 & ->).
    rewrite <- app_assoc in Hnack. cbn [app] in Hnack.
    pose proof (only_last_split _ _ Hnack _ _ _ eq_refl Hn) as Hnil.
    destruct q2; discriminate.
  - destruct s; discriminate.
Qed.

Lemma gateway_call_outcomes (tr : list event) :
  existsb is_gateway_call tr = true ->
  existsb delivery_succeeded tr = true
  \/ existsb delivery_failed tr = true
  \/ existsb gateway_raised tr = true.
Proof.
  intros H. apply existsb_exists in H as (ev & Hin & Hev).
  destruct ev as [| | | | |? ? ? ? ? [[|]|]]; try discriminate.
  - left. apply existsb_exists.
    eexists. split; [exact Hin | reflexivity].
  - right. left. apply existsb_exists.
    eexists. split; [exact Hin | reflexivity].
  - right. right. apply existsb_exists.
    eexists. split; [exact Hin | reflexivity].
Qed.

(** X6. A message is published at most once per delivery, as a persistent
    message on the default exchange, right after the declaration of its
    queue was accepted; the queue is durable and is either the dead-letter
    queue, declared without arguments, or the retry queue of one of the
    three tiers, whose messages expire after the tier's delay in
    milliseconds and are then routed back to the consumer's own queue. *)
Theorem publish_follows_queue_declaration {rt : PyRuntime} (E : Env)
  (tag : Z) (b : body) (pre post : list event) (exchange routing_key : string)
  (payload : body) (mode : Z) :
  calls E tag b
  = (pre ++ BasicPublish exchange routing_key payload mode :: post)%list ->
  exchange = "" /\ mode = 2
  /\ (exists pre' arguments,
        pre = (pre' ++ [QueueDeclare routing_key true arguments])%list
        /\ channel_fault E (QueueDeclare routing_key true arguments) = false
        /\ ((routing_key = "failed.queue" /\ arguments = [])
            \/ exists delay,
                 In delay [60; 300; 900]
                 /\ routing_key = "push.retry." ++ str_of_Z delay
                 /\ arguments
                    = [("x-message-ttl", JInt (delay * 1000));
                       ("x-dead-letter-exchange", JStr "");
                       ("x-dead-letter-routing-key", JStr (QUEUE_NAME E))]))
  /\ existsb is_publish pre = false
  /\ existsb is_publish post = false.
Proof.
  intros Heq.
  assert (Hin : In (BasicPublish exchange routing_key payload mode)
                  (calls E tag b))
    by (rewrite Heq; apply in_elt).
  destruct (calls_contracts E tag b _ Hin) as (-> & -> & _).
  do 2 (split; [reflexivity|]).
  pose proof (calls_shape E tag b) as Hs.
  apply shape_ok_parts in Hs as (_ & _ & _ & _ & _ & _ & _ & _ & _ & _ & _
                                 & Hcount & _).
  rewrite Heq in Hcount.
  split; [|exact (count_split_none _ _ _ _ Hcount eq_refl)].
  destruct (run_invariants E tag b) as (_ & _ & Hfollow & _).
  destruct (publish_follows_declare_split _ _ _ _ _ _ _ _ Hfollow Heq)
    as (arguments & [[_ Hnone] | [pre' ->]]); [discriminate|].
  exists pre', arguments. split; [reflexivity|].
  assert (Hd : In (QueueDeclare routing_key true arguments) (calls E tag b)).
  { rewrite Heq, <- app_assoc. apply in_elt. }
  split.
  - destruct (faults_ok_parts _ _ _ (calls_faults E tag b)) as [Hf _].
    rewrite (Hf _ Hd eq_refl).
    apply negb_false_iff. apply existsb_exists.
    eexists. split; [exact Hin | reflexivity].
  - destruct (calls_contracts E tag b _ Hd) as (_ & Hq). exact Hq.
Qed.

Lemma publish_follows_queue_declaration_witness :
  ("" = "" /\ 2 = 2
   /\ (exists pre' arguments,
         [GatewayCall (JStr "device-1") (JStr "Hello") (JStr "Hi Ada")
            [(JStr "notification_id", JStr "n-1"); (JStr "link", JStr "")]
            JNull (Ok false);
          QueueDeclare "push.retry.60" true
            [("x-message-ttl", JInt 60000);
             ("x-dead-letter-exchange", JStr "");
             ("x-dead-letter-routing-key", JStr "push.queue")]]
         = (pre' ++ [QueueDeclare "push.retry.60" true arguments])%list
         /\ channel_fault failing_env
              (QueueDeclare "push.retry.60" true arguments) = false
         /\ (("push.retry.60" = "failed.queue" /\ arguments = [])
             \/ exists delay,
                  In delay [60; 300; 900]
                  /\ "push.retry.60" = "push.retry." ++ str_of_Z delay
                  /\ arguments
                     = [("x-message-ttl", JInt (delay * 1000));
                        ("x-dead-letter-exchange", JStr "");
                        ("x-dead-letter-routing-key",
                         JStr (QUEUE_NAME failing_env))]))
   /\ existsb is_publish
        [GatewayCall (JStr "device-1") (JStr "Hello") (JStr "Hi Ada")
           [(JStr "notification_id", JStr "n-1"); (JStr "link", JStr "")]
           JNull (Ok false);
         QueueDeclare "push.retry.60" true
           [("x-message-ttl", JInt 60000);
            ("x-dead-letter-exchange", JStr "");
            ("x-dead-letter-routing-key", JStr "push.queue")]] = false
   /\ existsb is_publish
        [BasicAck 1;
         StatusPost
           (status_payload (JStr "n-1") "pending" sample_time
              (Some "Retry scheduled (attempt 1)"))] = false).
Proof.
  apply (publish_follows_queue_declaration (rt := sample_runtime)
           failing_env 1 (Encoded (JObj sample_fields))
           _ _ "" "push.retry.60" (Encoded (JObj (sample_item 1))) 2).
  reflexivity.
Defined.

(** X7. Whatever the message, the delivery and the faults, a queue is always
    declared with the same durability and the same arguments, so that no
    declaration conflicts with an earlier one of the same queue. *)
Theorem queue_redeclared_identically {rt : PyRuntime} (E E' : Env)
  (tag tag' : Z) (b b' : body) (queue : string) (durable durable' : bool)
  (arguments arguments' : list (string * json)) :
  QUEUE_NAME E = QUEUE_NAME E' ->
  In (QueueDeclare queue durable arguments) (calls E tag b) ->
  In (QueueDeclare queue durable' arguments') (calls E' tag' b') ->
  durable = durable' /\ arguments = arguments'.
Proof.
  intros Hname H1 H2.
  destruct (calls_contracts E tag b _ H1) as (-> & Hq1).
  destruct (calls_contracts E' tag' b' _ H2) as (-> & Hq2).
  split; [reflexivity|].
  destruct Hq1 as [[-> ->] | (d1 & Hd1 & -> & ->)],
           Hq2 as [[Hq ->] | (d2 & Hd2 & Hq & ->)];
    try reflexivity; try discriminate Hq.
  unfold retry_queue_arguments. rewrite Hname.
  cbn [In RETRY_DELAYS] in Hd1, Hd2.
  destruct Hd1 as [<- | [<- | [<- | []]]],
           Hd2 as [<- | [<- | [<- | []]]];
    first [reflexivity | vm_compute in Hq; discriminate Hq].
Qed.

Lemma queue_redeclared_identically_witness :
  true = true
  /\ [("x-message-ttl", JInt 60000);
      ("x-dead-letter-exchange", JStr "");
      ("x-dead-letter-routing-key", JStr "push.queue")]
     = [("x-message-ttl", JInt 60000);
        ("x-dead-letter-exchange", JStr "");
        ("x-dead-letter-routing-key", JStr "push.queue")].
Proof.
  apply (queue_redeclared_identically (rt := sample_runtime)
           failing_env failing_env 1 2
           (Encoded (JObj sample_fields))
           (Encoded (JObj (dict_set sample_fields "user_id" (JStr "u-2"))))
           "push.retry.60").
  - reflexivity.
  - vm_compute. tauto.
  - vm_compute. tauto.
Defined.

(** X8. Once the acknowledgement has been issued, the status report is
    posted exactly when the broker accepted it; when the broker refused it,
    the delivery is negatively acknowledged instead and nothing is
    reported. *)
Theorem status_reported_iff_ack_accepted {rt : PyRuntime} (E : Env)
  (tag : Z) (b : body) :
  existsb is_ack (calls E tag b) = true ->
  existsb is_status_post (calls E tag b)
  = negb (channel_fault E (BasicAck tag))
  /\ existsb is_nack (calls E tag b) = channel_fault E (BasicAck tag).
Proof.
  intros Ha.
  destruct (faults_ok_parts _ _ _ (calls_faults E tag b)) as [_ Hf].
  specialize (Hf Ha).
  pose proof (status_excludes_nack _ (calls_shape E tag b)) as Hex.
  pose proof (ack_then_nack_is_refused_ack E tag b Ha) as Hboth.
  destruct (channel_fault E (BasicAck tag)) eqn:Hfault; cbn [negb].
  - split; [|exact Hf].
    destruct (existsb is_status_post (calls E tag b)); [|reflexivity].
    specialize (Hex eq_refl). congruence.
  - split; [exact Hf|].
    destruct (existsb is_nack (calls E tag b)); [|reflexivity].
    now specialize (Hboth eq_refl).
Qed.

Lemma status_reported_iff_ack_accepted_witness :
  existsb is_status_post
    (calls (rt := sample_runtime) (with_faults failing_env is_ack) 1
       (Encoded (JObj sample_fields)))
  = negb (channel_fault (with_faults failing_env is_ack) (BasicAck 1))
  /\ existsb is_nack
       (calls (rt := sample_runtime) (with_faults failing_env is_ack) 1
          (Encoded (JObj sample_fields)))
     = channel_fault (with_faults failing_env is_ack) (BasicAck 1).
Proof.
  apply (status_reported_iff_ack_accepted (rt := sample_runtime)
           (with_faults failing_env is_ack) 1
           (Encoded (JObj sample_fields))).
  reflexivity.
Defined.

(** *** The status report and the outcome of the delivery *)

Lemma existsb_unique (p q : event -> bool) (tr : list event) (ev : event) :
  (count p tr <= 1)%nat ->
  In ev tr -> p ev = true ->
  (forall e, q e = true -> p e = true) ->
  existsb q tr = q ev.
Proof.
  intros Hc Hin Hp Hq.
  destruct (existsb q tr) eqn:He.
  - apply existsb_exists in He as (e & Hine & Hqe).
    now rewrite (count_unique p tr ev e Hc Hin Hine Hp (Hq _ Hqe)).
  - destruct (q ev) eqn:Hqev; [|reflexivity].
    assert (existsb q tr = true); [|congruence].
    apply existsb_exists. now exists ev.
Qed.

Lemma has_status_is_status_post (s : string) (e : event) :
  has_status s e = true -> is_status_post e = true.
Proof. now destruct e. Qed.

Lemma reports_is_status_post (s r : string) (e : event) :
  reports s r e = true -> is_status_post e = true.
Proof. now destruct e. Qed.

Lemma status_post_unique {rt : PyRuntime} (E : Env) (tag : Z) (b : body)
  (ev : event) (q : event -> bool) :
  In ev (calls E tag b) -> is_status_post ev = true ->
  (forall e, q e = true -> is_status_post e = true) ->
  existsb q (calls E tag b) = q ev.
Proof.
  intros Hin Hev Hq.
  pose proof (calls_shape E tag b) as Hs.
  apply shape_ok_parts in Hs as (_ & _ & _ & Hc & _).
  exact (existsb_unique is_status_post q _ ev Hc Hin Hev Hq).
Qed.

Lemma queue_declare_kinds {rt : PyRuntime} (E : Env) (tag : Z) (b : body) :
  existsb is_queue_declare (calls E tag b)
  = existsb is_retry_declare (calls E tag b)
    || existsb is_dead_letter_declare (calls E tag b).
Proof.
  assert (H : forall ev, In ev (calls E tag b) ->
                         is_queue_declare ev
                         = is_retry_declare ev || is_dead_letter_declare ev).
  { intros ev Hin. pose proof (calls_contracts E tag b _ Hin) as Hok.
    destruct ev; try reflexivity.
    destruct Hok as (_ & [[-> _] | (delay & _ & -> & _)]); reflexivity. }
  induction (calls E tag b) as [|ev tr IH]; [reflexivity|].
  cbn [existsb]. rewrite IH by (intros; apply H; now right).
  rewrite (H ev) by now left.
  destruct (is_retry_declare ev), (is_dead_letter_declare ev),
    (existsb is_retry_declare tr), (existsb is_dead_letter_declare tr);
    reflexivity.
Qed.

Lemma status_of_payload (nid : json) (status s : string) (now : datetime)
  (error : option string) :
  has_status s (StatusPost (status_payload nid status now error))
  = (status =? s)%string.
Proof. reflexivity. Qed.

Lemma failed_status_iff_dead_letter_declared {rt : PyRuntime} (E : Env)
  (tag : Z) (b : body) (ev : event) :
  In ev (calls E tag b) ->
  is_status_post ev = true ->
  has_status "failed" ev = existsb is_dead_letter_declare (calls E tag b).
Proof.
  intros Hin Hev.
  pose proof (status_post_unique E tag b ev (has_status "failed") Hin Hev
                (has_status_is_status_post _)) as Hf.
  pose proof (status_post_unique E tag b ev is_status_post Hin Hev
                (fun e H => H)) as Hst.
  rewrite Hev in Hst.
  destruct (outcome_ok_parts _ (calls_outcome E tag b))
    as (_ & _ & _ & _ & _ & _ & _ & _ & Hfail & Hfail' & _).
  rewrite Hf in Hfail, Hfail'.
  apply eq_true_iff_eq. split; intros H.
  - exact (Hfail H).
  - exact (Hfail' H Hst).
Qed.

(** X9. The status reported for a delivery tells what was done with it:
    [delivered] exactly when the gateway returned a success, [pending]
    exactly when a retry queue was declared, [failed] exactly when the
    dead-letter queue was declared, [skipped] exactly when neither the
    gateway was called nor a queue declared; and the gateway had reported a
    failure exactly when the status is [pending] or is [failed] with the
    reason "Max retries exceeded". *)
Theorem status_report_tells_outcome {rt : PyRuntime} (E : Env) (tag : Z)
  (b : body) (ev : event) :
  In ev (calls E tag b) ->
  is_status_post ev = true ->
  has_status "delivered" ev = existsb delivery_succeeded (calls E tag b)
  /\ has_status "pending" ev = existsb is_retry_declare (calls E tag b)
  /\ has_status "failed" ev = existsb is_dead_letter_declare (calls E tag b)
  /\ has_status "skipped" ev
     = negb (existsb is_gateway_call (calls E tag b)
             || existsb is_queue_declare (calls E tag b))
  /\ has_status "pending" ev || reports "failed" "Max retries exceeded" ev
     = existsb delivery_failed (calls E tag b).
Proof.
  intros Hin Hev.
  pose proof (status_post_unique E tag b ev) as Hu.
  pose proof (Hu (has_status "delivered") Hin Hev
                (has_status_is_status_post _)) as Hd.
  pose proof (Hu (has_status "pending") Hin Hev
                (has_status_is_status_post _)) as Hp.
  pose proof (Hu (has_status "failed") Hin Hev
                (has_status_is_status_post _)) as Hf.
  pose proof (Hu (has_status "skipped") Hin Hev
                (has_status_is_status_post _)) as Hk.
  pose proof (Hu (reports "failed" "Max retries exceeded") Hin Hev
                (reports_is_status_post _ _)) as Hm.
  pose proof (Hu is_status_post Hin Hev (fun e H => H)) as Hst.
  rewrite Hev in Hst.
  pose proof (status_excludes_nack _ (calls_shape E tag b) Hst) as Hnack.
  pose proof (queue_declare_kinds E tag b) as Hkinds.
  pose proof (gateway_call_outcomes (calls E tag b)) as Hout.
  assert (Hfc : existsb delivery_failed (calls E tag b) = true ->
                existsb is_gateway_call (calls E tag b) = true).
  { intros H. apply existsb_exists in H as (g & Hg & Hfg).
    apply existsb_exists. exists g. split; [exact Hg|].
    now destruct g. }
  assert (Hsc : existsb delivery_succeeded (calls E tag b) = true ->
                existsb is_gateway_call (calls E tag b) = true).
  { intros H. apply existsb_exists in H as (g & Hg & Hfg).
    apply existsb_exists. exists g. split; [exact Hg|].
    now destruct g. }
  assert (Hone : has_status "delivered" ev = true
                 \/ has_status "skipped" ev = true
                 \/ has_status "pending" ev = true
                 \/ has_status "failed" ev = true).
  { pose proof (calls_contracts E tag b _ Hin) as Hok.
    destruct ev; try discriminate Hev.
    destruct Hok as (status & error & n & _ & Hs & ->).
    rewrite !status_of_payload.
    destruct Hs as [[-> _] | [[-> _] | [[-> _] | [-> _]]]]; cbn; tauto. }
  assert (Hex : forall s s', has_status s ev = true ->
                             has_status s' ev = true -> s = s').
  { intros s s' H1 H2. destruct ev; try discriminate.
    cbn in H1, H2. destruct (dict_lookup payload "status") as [[]|];
      try discriminate.
    apply String.eqb_eq in H1, H2. congruence. }
  assert (Hmf : reports "failed" "Max retries exceeded" ev = true ->
                has_status "failed" ev = true).
  { destruct ev; try discriminate. cbn.
    destruct (dict_lookup payload "status") as [[]|]; try discriminate.
    destruct (dict_lookup payload "error") as [[]|]; try discriminate.
    intros H. now apply andb_true_iff in H as [H _]. }
  destruct (outcome_ok_parts _ (calls_outcome E tag b))
    as (Hraise & Hsucc & Hdel & Hdel' & Hskip & Hpend & Hpend' & Hretry
        & Hfail & Hfail' & Hmax & Hmax' & Hdecl & Hafter).
  rewrite Hd in Hdel, Hdel'. rewrite Hp in Hpend, Hpend'.
  rewrite Hf in Hfail, Hfail'. rewrite Hm in Hmax, Hmax'.
  assert (Hqd : existsb is_queue_declare (calls E tag b) = true ->
                has_status "pending" ev = true
                \/ has_status "failed" ev = true).
  { rewrite Hkinds. intros H. apply orb_true_iff in H as [H | H].
    - left. exact (Hpend' H Hst).
    - right. exact (Hfail' H Hst). }
  repeat split; apply eq_true_iff_eq; split; intros H.
  - exact (Hdel H).
  - exact (Hdel' H Hst).
  - exact (proj2 (Hpend H)).
  - exact (Hpend' H Hst).
  - exact (Hfail H).
  - exact (Hfail' H Hst).
  - apply negb_true_iff. apply orb_false_iff. split.
    + apply not_true_is_false. intros Hg.
      destruct (Hout Hg) as [H' | [H' | H']].
      * discriminate (Hex _ _ H (Hdel' H' Hst)).
      * destruct (Hafter H') as [H'' | H'']; [|congruence].
        destruct (Hqd H'') as [H3 | H3]; discriminate (Hex _ _ H H3).
      * destruct (Hraise H'). congruence.
    + apply not_true_is_false. intros Hq.
      destruct (Hqd Hq) as [H3 | H3]; discriminate (Hex _ _ H H3).
  - apply negb_true_iff in H. apply orb_false_iff in H as [Hg Hq].
    destruct Hone as [H' | [H' | [H' | H']]].
    + rewrite (Hsc (Hdel H')) in Hg. discriminate.
    + exact H'.
    + rewrite Hkinds, (proj2 (Hpend H')) in Hq. discriminate.
    + rewrite Hkinds, (Hfail H'), orb_true_r in Hq. discriminate.
  - apply orb_true_iff in H as [H | H].
    + exact (proj1 (Hpend H)).
    + exact (Hmax H).
  - apply orb_true_iff.
    destruct (Hafter H) as [H' | H']; [|congruence].
    rewrite Hkinds in H'. apply orb_true_iff in H' as [H' | H'].
    + left. exact (Hpend' H' Hst).
    + right. exact (Hmax' H' H Hst).
Qed.

Lemma status_report_tells_outcome_witness :
  has_status "pending"
    (StatusPost
       (status_payload (JStr "n-1") "pending" sample_time
          (Some "Retry scheduled (attempt 1)")))
  = existsb is_retry_declare
      (calls (rt := sample_runtime) failing_env 1
         (Encoded (JObj sample_fields))).
Proof.
  apply (status_report_tells_outcome (rt := sample_runtime) failing_env 1
           (Encoded (JObj sample_fields))).
  - vm_compute. tauto.
  - reflexivity.
Defined.

(** *** The gateway *)

Lemma delivery_failed_in (tr : list event) :
  existsb delivery_failed tr = true ->
  exists device_token title body_text data image_url,
    In (GatewayCall device_token title body_text data image_url (Ok false))
      tr.
Proof.
  intros H. apply existsb_exists in H as (g & Hin & Hg).
  destruct g as [| | | | |? ? ? ? ? [[|]|]]; try discriminate.
  do 5 eexists. exact Hin.
Qed.

(** X10. Without Firebase credentials the gateway is simulated and never
    reports a failure: a gateway call returns [True] when the push token
    is a string or a list, and otherwise raises while slicing the token
    for the log; nothing is ever retried, no retry queue is declared, and
    no item is dead-lettered for exhausted retries. *)
Theorem simulated_gateway_never_fails {rt : PyRuntime} (E : Env) (tag : Z)
  (b : body) :
  firebase_initialized E = false ->
  (forall device_token title body_text data image_url outcome,
     In (GatewayCall device_token title body_text data image_url outcome)
       (calls E tag b) ->
     match device_token with
     | JStr _ | JList _ => outcome = Ok true
     | _ => exists e, outcome = Raise e
     end)
  /\ existsb delivery_failed (calls E tag b) = false
  /\ existsb is_retry_declare (calls E tag b) = false
  /\ existsb is_retry_publish (calls E tag b) = false
  /\ existsb (has_status "pending") (calls E tag b) = false
  /\ existsb (reports "failed" "Max retries exceeded") (calls E tag b)
     = false.
Proof.
  intros Hsim.
  assert (Hcall : forall device_token title body_text data image_url outcome,
            In (GatewayCall device_token title body_text data image_url
                  outcome) (calls E tag b) ->
            match device_token with
            | JStr _ | JList _ => outcome = Ok true
            | _ => exists e, outcome = Raise e
            end).
  { intros tok title body_text data img outcome Hin.
    pose proof (calls_contracts E tag b _ Hin) as Hok.
    cbn [call_ok] in Hok. unfold gateway_request_ok in Hok.
    destruct Hok as (_ & _ & _ & _ & _ & _ & _ & _ & _ & ->).
    unfold gateway_outcome. rewrite Hsim. cbn [negb].
    destruct tok; first [reflexivity | now eexists]. }
  assert (Hnf : existsb delivery_failed (calls E tag b) = false).
  { apply not_true_is_false. intros H.
    apply delivery_failed_in in H as (tok & title & bt & data & img & Hin).
    specialize (Hcall _ _ _ _ _ _ Hin).
    destruct tok; try discriminate Hcall;
      destruct Hcall as [e He]; discriminate He. }
  destruct (outcome_ok_parts _ (calls_outcome E tag b))
    as (_ & _ & _ & _ & _ & Hpend & _ & Hretry & _ & _ & Hmax & _).
  split; [exact Hcall|]. split; [exact Hnf|].
  repeat split; apply not_true_is_false; intros H.
  - specialize (Hretry H). congruence.
  - apply existsb_exists in H as (ev & Hin & Hev).
    pose proof (calls_shape E tag b) as Hs.
    apply shape_ok_parts in Hs as (_ & _ & _ & _ & _ & _ & _ & _ & Hr & _).
    destruct (retries_follow_failure_in _ _ _ Hr Hin Hev); congruence.
  - destruct (Hpend H). congruence.
  - specialize (Hmax H). congruence.
Qed.

Lemma simulated_gateway_never_fails_witness :
  existsb delivery_failed
    (calls (rt := sample_runtime) (without_firebase failing_env) 1
       (Encoded (JObj sample_fields))) = false.
Proof.
  apply (simulated_gateway_never_fails (rt := sample_runtime)
           (without_firebase failing_env) 1 (Encoded (JObj sample_fields))).
  reflexivity.
Defined.

(** X11. The gateway is called only for a message that is a JSON object
    with a numeric [retry_count] and a [variables] object, after the user
    service answered 200 with a profile that holds a non-empty push token
    and has not opted out, and the template service answered 200 with a
    non-empty template; the call is the first one of the delivery and the
    only one to the gateway. *)
Theorem gateway_called_only_when_deliverable {rt : PyRuntime} (E : Env)
  (tag : Z) (b : body) (device_token title body_text : json) (data : pydict)
  (image_url : json) (outcome : result bool) :
  In (GatewayCall device_token title body_text data image_url outcome)
    (calls E tag b) ->
  exists d user_response user template_response template variables rest,
    b = Encoded (JObj d)
    /\ (exists next,
          py_add_int (field d "retry_count" (JInt 0)) 1 = Ok next)
    /\ field d "variables" (JObj []) = JObj variables
    /\ user_service E (field d "user_id" JNull)
       = HttpResponse 200 (Some (JObj user_response))
    /\ dict_lookup user_response "data" = Some (JObj user)
    /\ dict_lookup user "push_token" = Some device_token
    /\ truthy device_token = true
    /\ (exists preferences,
          field user "preferences" (JObj []) = JObj preferences
          /\ truthy (field preferences "push" (JBool true)) = true)
    /\ template_service E (field d "template_code" JNull)
       = HttpResponse 200 (Some (JObj template_response))
    /\ dict_lookup template_response "data" = Some (JObj template)
    /\ template <> []
    /\ calls E tag b
       = GatewayCall device_token title body_text data image_url outcome
         :: rest
    /\ existsb is_gateway_call rest = false.
Proof.
  intros Hin.
  assert (Hfetch : forall o v,
            fetch_data o = JObj v ->
            exists response,
              o = HttpResponse 200 (Some (JObj response))
              /\ dict_lookup response "data" = Some (JObj v)).
  { intros o v H.
    destruct o as [| |status [payload|]]; try discriminate H.
    cbn [fetch_data] in H.
    destruct (status =? 200) eqn:Hs; [|discriminate H].
    apply Z.eqb_eq in Hs. subst status.
    destruct payload; try discriminate H.
    cbn [py_get] in H. exists fields. split; [reflexivity|].
    destruct (dict_lookup fields "data"); [now subst|discriminate H]. }
  destruct (body_is_object_or_rejected E tag b) as [[d ->] | Hrej].
  2:{ rewrite Hrej in Hin. destruct Hin as [H | []]. discriminate H. }
  pose proof (calls_contracts E tag _ _ Hin) as Hok.
  cbn [call_ok message_fields] in Hok. unfold gateway_request_ok in Hok.
  destruct Hok as (Hu & Htok & Htt & (prefs & push & Hprefs & Hpush & Hpt)
                   & Ht & (title_template & Htitle & _) & _ & _
                   & (link & meta & Hlink & _) & _).
  unfold fetch_user_data in *. unfold fetch_template_data in *.
  destruct (fetch_data (user_service E (field d "user_id" JNull)))
    as [| | | | | |user] eqn:Hud; try discriminate Htok.
  destruct (fetch_data (template_service E (field d "template_code" JNull)))
    as [| | | | | |template] eqn:Htd; try discriminate Htitle.
  destruct (field d "variables" (JObj [])) as [| | | | | |variables] eqn:Hv;
    try discriminate Hlink.
  destruct prefs as [| | | | | |preferences]; try discriminate Hpush.
  destruct (Hfetch _ _ Hud) as (ur & Hur & Hurd).
  destruct (Hfetch _ _ Htd) as (tr & Htr & Htrd).
  pose proof (calls_shape E tag (Encoded (JObj d))) as Hs.
  apply shape_ok_parts in Hs as (Hc & _ & _ & _ & _ & _ & _ & _ & _ & _
                                 & Hfirst & _).
  destruct (calls E tag (Encoded (JObj d))) as [|first rest] eqn:Hcalls;
    [destruct Hin|].
  cbn [gateway_call_is_first] in Hfirst. apply negb_true_iff in Hfirst.
  assert (Hhead : first
                  = GatewayCall device_token title body_text data image_url
                      outcome).
  { destruct Hin as [H | H]; [exact H|].
    assert (existsb is_gateway_call rest = true); [|congruence].
    apply existsb_exists. eexists. split; [exact H | reflexivity]. }
  subst first.
  exists d, ur, user, tr, template, variables, rest.
  split; [reflexivity|].
  split.
  { destruct (retry_count_is_a_number E tag (Encoded (JObj d))) as [H | H];
      [|exact H].
    rewrite Hcalls in H. discriminate H. }
  split; [exact Hv|].
  split; [exact Hur|]. split; [exact Hurd|].
  cbn [py_get] in Htok, Hprefs, Hpush. injection Htok as Htok.
  injection Hprefs as Hprefs. injection Hpush as Hpush.
  split.
  { destruct (dict_lookup user "push_token") as [v|].
    - now subst.
    - subst device_token. discriminate Htt. }
  split; [exact Htt|].
  split.
  { exists preferences. unfold field. rewrite Hprefs.
    split; [reflexivity|]. now rewrite Hpush. }
  split; [exact Htr|]. split; [exact Htrd|].
  split; [now destruct template|].
  split; reflexivity || exact Hfirst.
Qed.

Lemma gateway_called_only_when_deliverable_witness :
  exists d user_response user template_response template variables rest,
    Encoded (JObj sample_fields) = Encoded (JObj d)
    /\ (exists next,
          py_add_int (field d "retry_count" (JInt 0)) 1 = Ok next)
    /\ field d "variables" (JObj []) = JObj variables
    /\ user_service delivering_env (field d "user_id" JNull)
       = HttpResponse 200 (Some (JObj user_response))
    /\ dict_lookup user_response "data" = Some (JObj user)
    /\ dict_lookup user "push_token" = Some (JStr "device-1")
    /\ truthy (JStr "device-1") = true
    /\ (exists preferences,
          field user "preferences" (JObj []) = JObj preferences
          /\ truthy (field preferences "push" (JBool true)) = true)
    /\ template_service delivering_env (field d "template_code" JNull)
       = HttpResponse 200 (Some (JObj template_response))
    /\ dict_lookup template_response "data" = Some (JObj template)
    /\ template <> []
    /\ calls (rt := sample_runtime) delivering_env 1
         (Encoded (JObj sample_fields))
       = GatewayCall (JStr "device-1") (JStr "Hello") (JStr "Hi Ada")
           [(JStr "notification_id", JStr "n-1"); (JStr "link", JStr "")]
           JNull (Ok true)
         :: rest
    /\ existsb is_gateway_call rest = false.
Proof.
  apply (gateway_called_only_when_deliverable (rt := sample_runtime)
           delivering_env 1 (Encoded (JObj sample_fields))).
  vm_compute. tauto.
Defined.

(** *** The data mapping handed to the gateway *)

Lemma pydict_lookup_set (d : pydict) (k k' : string) (v : json) :
  pydict_lookup (pydict_set d k v) k'
  = if (k =? k')%string then Some v else pydict_lookup d k'.
Proof.
  induction d as [|[key v'] d IH]; cbn.
  - reflexivity.
  - destruct key; cbn; try exact IH.
    destruct (s =? k)%string eqn:Hs; cbn.
    + apply String.eqb_eq in Hs. subst s.
      now destruct (k =? k')%string.
    + rewrite IH. destruct (k =? k')%string eqn:Hk; [|reflexivity].
      apply String.eqb_eq in Hk. subst k'. now rewrite Hs.
Qed.

Lemma dict_lookup_app (d1 d2 : list (string * json)) (k : string) :
  dict_lookup (d1 ++ d2) k
  = match dict_lookup d1 k with
    | Some v => Some v
    | None => dict_lookup d2 k
    end.
Proof.
  induction d1 as [|[k' v] d1 IH]; cbn; [reflexivity|].
  now destruct (k' =? k)%string.
Qed.

(** [dict.update] with a mapping: the last binding of a key wins, the keys
    it does not mention are kept. *)
Lemma data_payload_update_lookup {rt : PyRuntime} (fields : list (string * json))
  (d d' : pydict) (k : string) :
  data_payload_update d (JObj fields) = Ok d' ->
  pydict_lookup d' k
  = match dict_lookup (rev fields) k with
    | Some v => Some v
    | None => pydict_lookup d k
    end.
Proof.
  cbn [data_payload_update]. intros [= <-].
  revert d. induction fields as [|[k' v] fields IH]; intros d; cbn;
    [reflexivity|].
  rewrite IH, dict_lookup_app, pydict_lookup_set. cbn.
  destruct (dict_lookup (rev fields) k); [reflexivity|].
  now destruct (k' =? k)%string.
Qed.

(** X12. What the gateway receives: the title and the body are the
    renderings of the template's [title] (default "Notification") and
    [body] (default empty) with the message's variables, the image is the
    template's [image_url], and the data mapping holds the notification id
    and the [link] variable as a string, overridden and extended by the
    members of the [meta] variable when it is a non-empty object: a [meta]
    that holds [notification_id] or [link] replaces them. *)
Theorem gateway_receives_rendered_template {rt : PyRuntime} (E : Env)
  (tag : Z) (d template variables : list (string * json))
  (device_token title body_text : json) (data : pydict) (image_url : json)
  (outcome : result bool) :
  In (GatewayCall device_token title body_text data image_url outcome)
    (calls E tag (Encoded (JObj d))) ->
  fetch_template_data E (field d "template_code" JNull) = JObj template ->
  field d "variables" (JObj []) = JObj variables ->
  let base :=
    [(JStr "notification_id", field d "notification_id" JNull);
     (JStr "link", JStr (py_str (field variables "link" (JStr ""))))] in
  render_template_variables (field template "title" (JStr "Notification"))
    (JObj variables) = Ok title
  /\ render_template_variables (field template "body" (JStr ""))
       (JObj variables) = Ok body_text
  /\ image_url = field template "image_url" JNull
  /\ (truthy (field variables "meta" JNull) = false -> data = base)
  /\ (forall meta,
        field variables "meta" JNull = JObj meta ->
        forall k,
          pydict_lookup data k
          = match dict_lookup (rev meta) k with
            | Some v => Some v
            | None => pydict_lookup base k
            end)
  /\ outcome
     = gateway_outcome E device_token title body_text data image_url.
Proof.
  intros Hin Ht Hv base.
  pose proof (calls_contracts E tag _ _ Hin) as Hok.
  cbn [call_ok message_fields] in Hok. unfold gateway_request_ok in Hok.
  rewrite Ht, Hv in Hok. cbv zeta in Hok.
  destruct Hok as (_ & _ & _ & _ & _ & (title_template & Htt & Htitle)
                   & (bt & Hbt & Hbody) & Himg
                   & (link & meta & Hlink & Hmeta & Hdata) & Hout).
  rewrite py_get_obj in Htt, Hbt, Himg, Hlink, Hmeta.
  injection Htt as <-. injection Hbt as <-. injection Himg as <-.
  injection Hlink as <-. injection Hmeta as <-.
  repeat split; try assumption.
  - intros Hf. now rewrite Hf in Hdata.
  - intros m Hm k. rewrite Hm in Hdata.
    destruct m as [|kv m].
    + cbn in Hdata. now subst data.
    + cbn [truthy] in Hdata.
      exact (data_payload_update_lookup _ _ _ k Hdata).
Qed.

Lemma gateway_receives_rendered_template_witness :
  pydict_lookup
    [(JStr "notification_id", JStr "other"); (JStr "link", JStr "")]
    "notification_id"
  = Some (JStr "other").
Proof.
  refine (proj1 (proj2 (proj2 (proj2 (proj2
    (gateway_receives_rendered_template (rt := sample_runtime)
       delivering_env 1
       (dict_set sample_fields "variables"
          (JObj [("name", JStr "Ada");
                 ("meta", JObj [("notification_id", JStr "other")])]))
       [("title", JStr "Hello"); ("body", JStr "Hi {{name}}")]
       [("name", JStr "Ada");
        ("meta", JObj [("notification_id", JStr "other")])]
       (JStr "device-1") (JStr "Hello") (JStr "Hi Ada")
       [(JStr "notification_id", JStr "other"); (JStr "link", JStr "")]
       JNull (Ok true) _ _ _)))))
    [("notification_id", JStr "other")] _ "notification_id").
  - vm_compute. tauto.
  - reflexivity.
  - reflexivity.
  - reflexivity.
Defined.

(** *** Dead-lettering and broker faults *)

(** X13. When an item is dead-lettered and the delivery is reported, the
    report has status [failed] and its [error] is the [failure_reason]
    stored in the dead-lettered message, one of the four reasons the
    consumer knows. *)
Theorem dead_letter_reason_is_reported {rt : PyRuntime} (E : Env) (tag : Z)
  (b : body) (exchange : string) (fields : list (string * json)) (mode : Z)
  (payload : list (string * json)) :
  In (BasicPublish exchange "failed.queue" (Encoded (JObj fields)) mode)
    (calls E tag b) ->
  In (StatusPost payload) (calls E tag b) ->
  dict_lookup payload "status" = Some (JStr "failed")
  /\ dict_lookup payload "error" = dict_lookup fields "failure_reason"
  /\ exists reason,
       In reason
         ["User not found"; "Missing push token"; "Template not found";
          "Max retries exceeded"]
       /\ dict_lookup fields "failure_reason" = Some (JStr reason).
Proof.
  intros Hp Hs.
  pose proof (calls_reasons E tag b _ _ _ _ _ Hp Hs eq_refl) as Hagree.
  destruct (calls_contracts E tag b _ Hp)
    as (_ & _ & [(_ & reason & Hr & Hpay) | (delay & next & _ & Hq & _)]).
  2:{ discriminate Hq. }
  injection Hpay as ->.
  split.
  - pose proof (failed_status_iff_dead_letter_declared E tag b
                  (StatusPost payload) Hs eq_refl) as Hf.
    assert (Hd : existsb is_dead_letter_declare (calls E tag b) = true).
    { apply in_split in Hp as (pre & post & Heq).
      destruct (run_invariants E tag b) as (_ & _ & Hfollow & _).
      destruct (publish_follows_declare_split _ _ _ _ _ _ _ _ Hfollow Heq)
        as (arguments & [[_ Hnone] | [pre' ->]]); [discriminate|].
      rewrite Heq, <- app_assoc, existsb_app. cbn.
      apply orb_true_r. }
    rewrite <- Hf in Hd. cbn [has_status] in Hd.
    destruct (dict_lookup payload "status") as [[]|]; try discriminate Hd.
    apply String.eqb_eq in Hd. now subst.
  - split; [exact Hagree|].
    exists reason. split; [exact Hr|].
    unfold dead_lettered. apply dead_letter_reason_stored.
Qed.

Lemma dead_letter_reason_is_reported_witness :
  dict_lookup
    (status_payload (JStr "n-1") "failed" sample_time
       (Some "Max retries exceeded")) "status"
  = Some (JStr "failed")
  /\ dict_lookup
       (status_payload (JStr "n-1") "failed" sample_time
          (Some "Max retries exceeded")) "error"
     = dict_lookup
         (dead_lettered (sample_item 3) "Max retries exceeded" sample_time)
         "failure_reason"
  /\ exists reason,
       In reason
         ["User not found"; "Missing push token"; "Template not found";
          "Max retries exceeded"]
       /\ dict_lookup
            (dead_lettered (sample_item 3) "Max retries exceeded"
               sample_time) "failure_reason"
          = Some (JStr reason).
Proof.
  apply (dead_letter_reason_is_reported (rt := sample_runtime) failing_env 1
           (Encoded (JObj (sample_item 3))) "" _ 2).
  - vm_compute. tauto.
  - vm_compute. tauto.
Defined.

(** X14. A fault of the broker while storing the message is swallowed:
    when the declaration of the retry or dead-letter queue is refused,
    nothing is published, yet the delivery is still acknowledged, and, once
    the acknowledgement is accepted, reported as [pending] or [failed]:
    the message is then on no queue at all. *)
Theorem refused_declaration_loses_message {rt : PyRuntime} (E : Env)
  (tag : Z) (b : body) (queue : string) (durable : bool)
  (arguments : list (string * json)) :
  In (QueueDeclare queue durable arguments) (calls E tag b) ->
  channel_fault E (QueueDeclare queue durable arguments) = true ->
  existsb is_publish (calls E tag b) = false
  /\ existsb is_ack (calls E tag b) = true
  /\ (channel_fault E (BasicAck tag) = false ->
      existsb is_nack (calls E tag b) = false
      /\ existsb (has_status "pending") (calls E tag b)
         || existsb (has_status "failed") (calls E tag b) = true).
Proof.
  intros Hin Hfault.
  destruct (faults_ok_parts _ _ _ (calls_faults E tag b)) as [Hf Hack].
  destruct (outcome_ok_parts _ (calls_outcome E tag b))
    as (_ & _ & _ & _ & _ & _ & Hpend & _ & _ & Hfail & _ & _ & Hdecl & _).
  assert (Hd : existsb is_queue_declare (calls E tag b) = true).
  { apply existsb_exists. eexists. split; [exact Hin | reflexivity]. }
  pose proof (Hdecl Hd) as Ha.
  split.
  - specialize (Hf _ Hin eq_refl). rewrite Hfault in Hf.
    symmetry in Hf. now apply negb_true_iff in Hf.
  - split; [exact Ha|]. intros Hok.
    specialize (Hack Ha). rewrite Hok in Hack.
    split; [exact (status_excludes_nack _ (calls_shape E tag b) Hack)|].
    rewrite queue_declare_kinds in Hd.
    apply orb_true_iff in Hd as [Hd | Hd].
    + now rewrite (Hpend Hd Hack).
    + rewrite (Hfail Hd Hack). apply orb_true_r.
Qed.

Lemma refused_declaration_loses_message_witness :
  existsb is_publish
    (calls (rt := sample_runtime) (with_faults failing_env is_queue_declare)
       1 (Encoded (JObj sample_fields))) = false
  /\ existsb is_ack
       (calls (rt := sample_runtime)
          (with_faults failing_env is_queue_declare) 1
          (Encoded (JObj sample_fields))) = true
  /\ (channel_fault (with_faults failing_env is_queue_declare) (BasicAck 1)
      = false ->
      existsb is_nack
        (calls (rt := sample_runtime)
           (with_faults failing_env is_queue_declare) 1
           (Encoded (JObj sample_fields))) = false
      /\ existsb (has_status "pending")
           (calls (rt := sample_runtime)
              (with_faults failing_env is_queue_declare) 1
              (Encoded (JObj sample_fields)))
         || existsb (has_status "failed")
              (calls (rt := sample_runtime)
                 (with_faults failing_env is_queue_declare) 1
                 (Encoded (JObj sample_fields))) = true).
Proof.
  apply (refused_declaration_loses_message (rt := sample_runtime)
           (with_faults failing_env is_queue_declare) 1
           (Encoded (JObj sample_fields)) "push.retry.60" true
           [("x-message-ttl", JInt 60000);
            ("x-dead-letter-exchange", JStr "");
            ("x-dead-letter-routing-key", JStr "push.queue")]).
  - vm_compute. tauto.
  - reflexivity.
Defined.

(** *** The retry chain *)

Lemma retry_published_copy {rt : PyRuntime} (E : Env) (tag : Z)
  (d : list (string * json)) (b' : body) :
  retry_published E (calls E tag (Encoded (JObj d))) = Some b' ->
  exists next,
    py_lt_int (field d "retry_count" (JInt 0)) MAX_RETRY_COUNT = Ok true
    /\ py_add_int (field d "retry_count" (JInt 0)) 1 = Ok next
    /\ b' = Encoded (JObj (dict_set d "retry_count" next)).
Proof.
  unfold retry_published. intros H.
  destruct (find _ _) as [ev|] eqn:Hfind; [|discriminate H].
  apply find_some in Hfind as [Hin Hev].
  apply andb_true_iff in Hev as [Hev _].
  destruct ev; try discriminate H. injection H as ->.
  destruct (calls_contracts E tag _ _ Hin)
    as (_ & _ & [(-> & _) | (delay & next & _ & _ & Hlt & Hadd & ->)]);
    [discriminate Hev|].
  now exists next.
Qed.

(** X15. The retries that the consumer schedules are bounded. In the chain
    that starts with an item whose attempt count is the integer [k] and
    goes on, delivery after delivery, with the copy that the delivery just
    made left on a retry queue, there are at most
    [MAX_RETRY_COUNT - k + 1] deliveries, and only one when [k] has reached
    [MAX_RETRY_COUNT], whatever the gateway, the collaborators and the
    broker do within these deliveries. A delivery that the broker makes
    again because the previous one was left unsettled, its acknowledgement
    and its negative acknowledgement both refused, is no link of this
    chain and is not counted. *)
Theorem retry_chain_is_bounded {rt : PyRuntime}
  (deliveries : list (Env * Z)) (d : list (string * json)) (k : Z) :
  field d "retry_count" (JInt 0) = JInt k ->
  (List.length (lifecycle deliveries (Encoded (JObj d)))
   <= S (Z.to_nat (MAX_RETRY_COUNT - k)))%nat.
Proof.
  revert d k. induction deliveries as [|[E tag] rest IH]; intros d k Hk.
  - cbn. lia.
  - cbn [lifecycle List.length].
    destruct (retry_published E (calls E tag (Encoded (JObj d))))
      as [b'|] eqn:Hpub; [|cbn; lia].
    apply retry_published_copy in Hpub as (next & Hlt & Hadd & ->).
    rewrite Hk in Hlt, Hadd. cbn in Hlt, Hadd.
    injection Hlt as Hlt. injection Hadd as <-.
    apply Z.ltb_lt in Hlt. unfold MAX_RETRY_COUNT in *.
    specialize (IH (dict_set d "retry_count" (JInt (k + 1))) (k + 1)
                  (field_set_same _ _ _ _)).
    lia.
Qed.

Lemma retry_chain_is_bounded_witness :
  (List.length
     (lifecycle (rt := sample_runtime)
        [(failing_env, 1%Z); (failing_env, 2%Z); (failing_env, 3%Z);
         (failing_env, 4%Z); (failing_env, 5%Z); (failing_env, 6%Z)]
        (Encoded (JObj (sample_item 1))))
   <= S (Z.to_nat (MAX_RETRY_COUNT - 1)%Z))%nat.
Proof.
  apply (retry_chain_is_bounded (rt := sample_runtime)). reflexivity.
Defined.

(** *** The attempt count *)

Lemma failed_call_is_no_settlement (g : event) :
  delivery_failed g = true ->
  is_queue_declare g = false /\ is_nack g = false
  /\ is_status_post g = false.
Proof. destruct g; try discriminate. now intros _. Qed.

(** X16. A message whose [retry_count] is not a number is rejected before
    anything else is done with it: evaluating [retry_count + 1] for the
    log line raises, and the only call of the delivery is the negative
    acknowledgement. *)
Theorem non_numeric_retry_count_is_rejected {rt : PyRuntime} (E : Env)
  (tag : Z) (d : list (string * json)) (e : exn) :
  py_add_int (field d "retry_count" (JInt 0)) 1 = Raise e ->
  calls E tag (Encoded (JObj d)) = [BasicNack tag false].
Proof.
  intros H.
  destruct (retry_count_is_a_number E tag (Encoded (JObj d)))
    as [Hc | [next Hn]]; [exact Hc|].
  cbn [message_fields] in Hn. congruence.
Qed.

Lemma non_numeric_retry_count_is_rejected_witness :
  calls (rt := sample_runtime) delivering_env 1
    (Encoded (JObj (dict_set sample_fields "retry_count" (JStr "2"))))
  = [BasicNack 1 false].
Proof.
  apply (non_numeric_retry_count_is_rejected (rt := sample_runtime)
           delivering_env 1
           (dict_set sample_fields "retry_count" (JStr "2")) TypeError).
  reflexivity.
Defined.

(** X17. When the gateway reports a failure for a message whose attempt
    count is below the limit but is no index of the tier table (an integer
    below [-3], a float), looking up the delay raises: the delivery is
    negatively acknowledged right after the gateway call; the message is
    neither retried, nor dead-lettered, nor reported. *)
Theorem failed_delivery_dropped_when_count_is_no_index {rt : PyRuntime}
  (E : Env) (tag : Z) (d : list (string * json)) (e : exn) :
  existsb delivery_failed (calls E tag (Encoded (JObj d))) = true ->
  py_lt_int (field d "retry_count" (JInt 0)) MAX_RETRY_COUNT = Ok true ->
  py_index RETRY_DELAYS (field d "retry_count" (JInt 0)) = Raise e ->
  exists g,
    calls E tag (Encoded (JObj d)) = [g; BasicNack tag false]
    /\ delivery_failed g = true.
Proof.
  intros Hf Hlt Hidx.
  pose proof (calls_after_failure E tag (Encoded (JObj d)) Hf) as H.
  cbn [message_fields] in H. rewrite Hlt, Hidx in H.
  destruct H as [g Hg]. exists g. split; [exact Hg|].
  rewrite Hg in Hf. cbn in Hf. now rewrite orb_false_r in Hf.
Qed.

Lemma failed_delivery_dropped_when_count_is_no_index_witness :
  exists g,
    calls (rt := sample_runtime) failing_env 1
      (Encoded (JObj (sample_item (-4))))
    = [g; BasicNack 1 false]
    /\ delivery_failed g = true.
Proof.
  apply (failed_delivery_dropped_when_count_is_no_index
           (rt := sample_runtime) failing_env 1 (sample_item (-4))
           IndexError); reflexivity.
Defined.

(** X18. The retry queue is the one the attempt count selects in the tier
    table, with Python's indexing: the count is below the limit, and for an
    integer count [k] it lies between [-3] and [2], a negative count
    selecting a tier from the end of the table. *)
Theorem retry_queue_is_indexed_by_count {rt : PyRuntime} (E : Env)
  (tag : Z) (d : list (string * json)) (queue : string) (durable : bool)
  (arguments : list (string * json)) :
  In (QueueDeclare queue durable arguments)
    (calls E tag (Encoded (JObj d))) ->
  is_retry_declare (QueueDeclare queue durable arguments) = true ->
  exists delay,
    py_lt_int (field d "retry_count" (JInt 0)) MAX_RETRY_COUNT = Ok true
    /\ py_index RETRY_DELAYS (field d "retry_count" (JInt 0)) = Ok delay
    /\ queue = "push.retry." ++ str_of_Z delay
    /\ arguments = retry_queue_arguments E delay
    /\ forall k,
         field d "retry_count" (JInt 0) = JInt k ->
         -3 <= k < 3
         /\ delay = nth (Z.to_nat (k mod 3)) RETRY_DELAYS 0.
Proof.
  intros Hin Hr.
  destruct (outcome_ok_parts _ (calls_outcome E tag (Encoded (JObj d))))
    as (_ & _ & _ & _ & _ & _ & _ & Hretry & _).
  assert (Hex : existsb is_retry_declare (calls E tag (Encoded (JObj d)))
                = true).
  { apply existsb_exists. eexists. split; [exact Hin | exact Hr]. }
  pose proof (Hretry Hex) as Hf.
  pose proof (calls_after_failure E tag (Encoded (JObj d)) Hf) as H.
  cbn [message_fields] in H.
  pose proof (calls_shape E tag (Encoded (JObj d))) as Hs.
  apply shape_ok_parts in Hs as (_ & _ & _ & _ & _ & _ & _ & _ & _ & _ & _
                                 & _ & Hcount).
  destruct (py_lt_int (field d "retry_count" (JInt 0)) MAX_RETRY_COUNT)
    as [[|]|] eqn:Hlt; [| |destruct H].
  - destruct (py_index RETRY_DELAYS (field d "retry_count" (JInt 0)))
      as [delay|] eqn:Hidx.
    + pose proof (count_unique is_queue_declare _ _ _ Hcount Hin H
                    eq_refl eq_refl) as Heq.
      injection Heq as -> -> ->.
      exists delay. do 4 (split; [reflexivity|]).
      intros k Hk. unfold MAX_RETRY_COUNT in Hlt.
      rewrite Hk in Hlt, Hidx. cbn in Hlt. injection Hlt as Hlt.
      apply Z.ltb_lt in Hlt. unfold py_index in Hidx.
      cbn [List.length RETRY_DELAYS Z.of_nat Pos.of_succ_nat Pos.succ]
        in Hidx.
      assert (Hcases : k < -3 \/ k = -3 \/ k = -2 \/ k = -1 \/ k = 0
                       \/ k = 1 \/ k = 2) by lia.
      destruct Hcases as [Hlow | [-> | [-> | [-> | [-> | [-> | ->]]]]]];
        try (cbn in Hidx; injection Hidx as <-; split; [lia | reflexivity]).
      exfalso.
      assert (Hneg : (k <? 0) = true) by (apply Z.ltb_lt; lia).
      rewrite Hneg in Hidx.
      assert (Hout : (k + 3 <? 0) = true) by (apply Z.ltb_lt; lia).
      rewrite Hout in Hidx. discriminate Hidx.
    + destruct H as [g Hg]. rewrite Hg in Hin, Hf.
      cbn in Hf. rewrite orb_false_r in Hf.
      apply failed_call_is_no_settlement in Hf as (Hq & _).
      destruct Hin as [Hg' | [Hn | []]];
        [subst g; discriminate Hq | discriminate Hn].
  - destruct H as [Hdl _].
    apply existsb_exists in Hdl as (ev & Hev & Hdl).
    assert (Hq : is_queue_declare ev = true) by now destruct ev.
    pose proof (count_unique is_queue_declare _ _ _ Hcount Hin Hev
                  eq_refl Hq) as <-.
    cbn in Hr, Hdl. apply String.eqb_eq in Hdl. subst queue.
    discriminate Hr.
Qed.

Lemma retry_queue_is_indexed_by_count_witness :
  exists delay,
    py_lt_int (field (sample_item (-1)) "retry_count" (JInt 0))
      MAX_RETRY_COUNT = Ok true
    /\ py_index RETRY_DELAYS
         (field (sample_item (-1)) "retry_count" (JInt 0)) = Ok delay
    /\ "push.retry.900" = "push.retry." ++ str_of_Z delay
    /\ [("x-message-ttl", JInt 900000);
        ("x-dead-letter-exchange", JStr "");
        ("x-dead-letter-routing-key", JStr "push.queue")]
       = retry_queue_arguments failing_env delay
    /\ forall k,
         field (sample_item (-1)) "retry_count" (JInt 0) = JInt k ->
         -3 <= k < 3
         /\ delay = nth (Z.to_nat (k mod 3)) RETRY_DELAYS 0.
Proof.
  apply (retry_queue_is_indexed_by_count (rt := sample_runtime) failing_env
           1 (sample_item (-1)) "push.retry.900" true).
  - vm_compute. tauto.
  - reflexivity.
Defined.

(** X19. When the gateway reports a failure for a message whose attempt
    count is not below the limit (an integer from 3 on, a float from 3.0
    on), the item is dead-lettered whatever the broker does: the
    dead-letter queue is declared, no retry queue is, what is published is
    the message with the reason "Max retries exceeded" and the time of the
    dead-lettering, and what is reported is [failed] with that reason. *)
Theorem dead_lettered_at_or_beyond_limit {rt : PyRuntime} (E : Env)
  (tag : Z) (d : list (string * json)) :
  existsb delivery_failed (calls E tag (Encoded (JObj d))) = true ->
  py_lt_int (field d "retry_count" (JInt 0)) MAX_RETRY_COUNT = Ok false ->
  existsb is_dead_letter_declare (calls E tag (Encoded (JObj d))) = true
  /\ existsb is_retry_declare (calls E tag (Encoded (JObj d))) = false
  /\ (forall exchange routing_key payload mode,
        In (BasicPublish exchange routing_key payload mode)
          (calls E tag (Encoded (JObj d))) ->
        routing_key = "failed.queue"
        /\ payload
           = Encoded
               (JObj (dead_lettered d "Max retries exceeded" (utcnow E 0))))
  /\ (forall payload,
        In (StatusPost payload) (calls E tag (Encoded (JObj d))) ->
        reports "failed" "Max retries exceeded" (StatusPost payload) = true).
Proof.
  intros Hf Hlt.
  pose proof (calls_after_failure E tag (Encoded (JObj d)) Hf) as H.
  cbn [message_fields] in H. rewrite Hlt in H. destruct H as [Hdl Hpub].
  pose proof (calls_shape E tag (Encoded (JObj d))) as Hs.
  apply shape_ok_parts in Hs as (_ & _ & _ & _ & _ & _ & _ & _ & _ & _ & _
                                 & _ & Hcount).
  assert (Hnr : existsb is_retry_declare (calls E tag (Encoded (JObj d)))
                = false).
  { apply not_true_is_false. intros Hr.
    apply existsb_exists in Hr as (r & Hinr & Hr).
    apply existsb_exists in Hdl as (q & Hinq & Hq).
    assert (r = q).
    { apply (count_unique is_queue_declare _ _ _ Hcount Hinr Hinq);
        [now destruct r | now destruct q]. }
    subst q. destruct r; try discriminate.
    cbn in Hr, Hq. apply String.eqb_eq in Hq. subst queue.
    discriminate Hr. }
  split; [exact Hdl|]. split; [exact Hnr|]. split.
  - intros ex rk payload mode Hin. split; [|exact (Hpub _ _ _ _ Hin)].
    apply in_split in Hin as (pre & post & Heq).
    destruct (run_invariants E tag (Encoded (JObj d)))
      as (_ & _ & Hfollow & _).
    destruct (publish_follows_declare_split _ _ _ _ _ _ _ _ Hfollow Heq)
      as (arguments & [[_ Hnone] | [pre' ->]]); [discriminate|].
    assert (Hq : In (QueueDeclare rk true arguments)
                   (calls E tag (Encoded (JObj d)))).
    { rewrite Heq, <- app_assoc. apply in_elt. }
    apply existsb_exists in Hdl as (q & Hinq & Hdq).
    assert (q = QueueDeclare rk true arguments).
    { apply (count_unique is_queue_declare _ _ _ Hcount Hinq Hq);
        [now destruct q | reflexivity]. }
    subst q. cbn in Hdq. now apply String.eqb_eq in Hdq.
  - intros payload Hin.
    destruct (outcome_ok_parts _ (calls_outcome E tag (Encoded (JObj d))))
      as (_ & _ & _ & _ & _ & _ & _ & _ & _ & _ & _ & Hmax & _).
    assert (Hst : existsb is_status_post (calls E tag (Encoded (JObj d)))
                  = true).
    { apply existsb_exists. eexists. split; [exact Hin | reflexivity]. }
    rewrite <- (status_post_unique E tag _ (StatusPost payload)
                  (reports "failed" "Max retries exceeded") Hin eq_refl
                  (reports_is_status_post _ _)).
    exact (Hmax Hdl Hf Hst).
Qed.

Lemma dead_lettered_at_or_beyond_limit_witness :
  existsb is_dead_letter_declare
    (calls (rt := sample_runtime) failing_env 1
       (Encoded (JObj (sample_item 7)))) = true
  /\ existsb is_retry_declare
       (calls (rt := sample_runtime) failing_env 1
          (Encoded (JObj (sample_item 7)))) = false
  /\ (forall exchange routing_key payload mode,
        In (BasicPublish exchange routing_key payload mode)
          (calls (rt := sample_runtime) failing_env 1
             (Encoded (JObj (sample_item 7)))) ->
        routing_key = "failed.queue"
        /\ payload
           = Encoded
               (JObj (dead_lettered (sample_item 7) "Max retries exceeded"
                        (utcnow failing_env 0))))
  /\ (forall payload,
        In (StatusPost payload)
          (calls (rt := sample_runtime) failing_env 1
             (Encoded (JObj (sample_item 7)))) ->
        reports "failed" "Max retries exceeded" (StatusPost payload) = true).
Proof.
  apply (dead_lettered_at_or_beyond_limit (rt := sample_runtime) failing_env
           1 (sample_item 7)); reflexivity.
Defined.

(** ** Further properties of rendering *)

Lemma render_step_raise {rt : PyRuntime} (items : list (string * json))
  (e : exn) :
  fold_left render_step items (Raise e) = Raise e.
Proof. induction items as [|kv items IH]; [reflexivity | exact IH]. Qed.

(** X20. Rendering with ill-typed arguments: a template that Python holds
    for false renders to the empty string whatever the variables are, even
    when they are no mapping; a template that is not a string comes back
    unchanged when there is no variable and raises [AttributeError] at the
    first variable; and variables that are no mapping raise
    [AttributeError]. *)
Theorem render_of_ill_typed_arguments {rt : PyRuntime}
  (template variables : json) :
  (truthy template = false ->
   render_template_variables template variables = Ok (JStr ""))
  /\ (truthy template = true ->
      (forall items, variables <> JObj items) ->
      render_template_variables template variables = Raise AttributeError)
  /\ (truthy template = true ->
      (forall s, template <> JStr s) ->
      forall items,
        render_template_variables template (JObj items)
        = match items with
          | [] => Ok template
          | _ :: _ => Raise AttributeError
          end).
Proof.
  unfold render_template_variables. repeat split.
  - intros H. now rewrite H.
  - intros H Hv. rewrite H. cbn [negb].
    destruct variables; try reflexivity. now destruct (Hv fields).
  - intros H Ht items. rewrite H. cbn [negb].
    destruct items as [|kv items]; [reflexivity|].
    cbn [fold_left render_step].
    destruct template; try apply render_step_raise.
    now destruct (Ht s).
Qed.

Lemma render_of_ill_typed_arguments_witness :
  render_template_variables (rt := sample_runtime) (JInt 0) (JStr "x")
  = Ok (JStr "")
  /\ render_template_variables (rt := sample_runtime) (JStr "Hi") JNull
     = Raise AttributeError
  /\ render_template_variables (rt := sample_runtime) (JInt 7) (JObj [])
     = Ok (JInt 7)
  /\ render_template_variables (rt := sample_runtime) (JInt 7)
       (JObj [("name", JStr "Ada")])
     = Raise AttributeError.
Proof.
  split; [|split; [|split]].
  - apply (proj1 (render_of_ill_typed_arguments (rt := sample_runtime)
                    (JInt 0) (JStr "x"))).
    reflexivity.
  - apply (proj1 (proj2 (render_of_ill_typed_arguments
                           (rt := sample_runtime) (JStr "Hi") JNull)));
      [reflexivity | discriminate].
  - apply (proj2 (proj2 (render_of_ill_typed_arguments
                           (rt := sample_runtime) (JInt 7) JNull))
             eq_refl ltac:(discriminate) []).
  - apply (proj2 (proj2 (render_of_ill_typed_arguments
                           (rt := sample_runtime) (JInt 7) JNull))
             eq_refl ltac:(discriminate) [("name", JStr "Ada")]).
Defined.

Lemma substitute_plain {rt : PyRuntime} (items : list (string * json))
  (segs : list segment) :
  forallb plain_variable items = true ->
  forallb plain_segment segs = true ->
  forallb plain_segment (map (substitute items) segs) = true.
Proof.
  intros Hitems.
  assert (Hval : forall k v, dict_lookup items k = Some v ->
                             no_open_brace (py_str v) = true).
  { induction items as [|[k' v'] items IH]; intros k v H; [discriminate H|].
    cbn [forallb] in Hitems. apply andb_true_iff in Hitems as [Hkv Hitems].
    cbn [dict_lookup] in H. destruct (k' =? k)%string.
    - injection H as <-. now apply andb_true_iff in Hkv as [_ Hv].
    - exact (IH Hitems _ _ H). }
  induction segs as [|sg segs IH]; intros H; [reflexivity|].
  cbn [forallb map] in *. apply andb_true_iff in H as [Hsg H].
  rewrite (IH H), andb_true_r.
  destruct sg as [s | n]; cbn [substitute]; [exact Hsg|].
  destruct (dict_lookup items n) eqn:Hn; [|exact Hsg].
  exact (Hval _ _ Hn).
Qed.

Lemma substitute_twice {rt : PyRuntime} (items : list (string * json))
  (sg : segment) :
  substitute items (substitute items sg) = substitute items sg.
Proof.
  destruct sg as [s | n]; cbn [substitute]; [reflexivity|].
  destruct (dict_lookup items n) eqn:Hn; cbn [substitute];
    [reflexivity | now rewrite Hn].
Qed.

(** X21. On a plain template and plain variables rendering is idempotent:
    rendering the output again with the same variables changes nothing.
    This fails when a value holds the token of an earlier variable:
    "{{a}}" with [b = "X"] then [a = "{{b}}"] renders to "{{b}}", which
    renders to "X". *)
Theorem render_idempotent_on_plain {rt : PyRuntime} (segs : list segment)
  (items : list (string * json)) :
  forallb plain_segment segs = true ->
  forallb plain_variable items = true ->
  exists out,
    render_template_variables (JStr (flatten segs)) (JObj items)
    = Ok (JStr out)
    /\ render_template_variables (JStr out) (JObj items) = Ok (JStr out).
Proof.
  intros Hsegs Hitems.
  exists (flatten (map (substitute items) segs)).
  rewrite !render_template_variables_str.
  rewrite (render_str_flatten items Hitems segs Hsegs).
  split; [reflexivity|].
  rewrite (render_str_flatten items Hitems _
             (substitute_plain items segs Hitems Hsegs)).
  rewrite map_map. do 3 f_equal.
  apply map_ext. apply substitute_twice.
Qed.

Lemma render_idempotent_on_plain_witness :
  exists out,
    render_template_variables (rt := sample_runtime)
      (JStr (flatten [Text "Hi "; Token "name"; Token "other"]))
      (JObj [("name", JStr "Ada")])
    = Ok (JStr out)
    /\ render_template_variables (rt := sample_runtime) (JStr out)
         (JObj [("name", JStr "Ada")])
       = Ok (JStr out).
Proof.
  apply (render_idempotent_on_plain (rt := sample_runtime)
           [Text "Hi "; Token "name"; Token "other"]
           [("name", JStr "Ada")]); reflexivity.
Defined.

(** ** The helpers of the callback, on any state *)

(** Runs a helper on a state, keeping list and string concatenations
    folded. *)
Ltac helper_cbv H :=
  cbv beta iota zeta delta
    [bind ret lift try_except message_get message_setitem read_message
     write_message emit move_to_dlq schedule_retry channel_call
     update_notification_status read_utcnow json_dumps
     trace clock_reads message snd fst negb] in H.

Ltac helper_step H :=
  lazymatch type of H with
  | _ = ?rhs =>
      let r := head_scrut rhs in
      lazymatch r with
      | rhs => fail "done"
      | _ => destruct r eqn:?
      end
  end; helper_cbv H.

Ltac helper_exec H := helper_cbv H; repeat helper_step H.

(** X22. [move_to_dlq] never raises. It first declares the durable queue
    [failed.queue]; when the broker refuses the declaration, or the message
    is no mapping, nothing else happens: no publish, and in the first case
    the message and the clock are untouched. Otherwise the message itself
    is given the two dead-letter fields, whether or not the publish that
    follows is accepted. *)
Theorem move_to_dlq_effect (E : Env) (reason : string)
  (w : world) :
  let declare := QueueDeclare "failed.queue" true [] in
  let w' := snd (move_to_dlq E reason w) in
  fst (move_to_dlq E reason w) = Ok tt
  /\ (channel_fault E declare = true ->
      trace w' = (trace w ++ [declare])%list
      /\ message w' = message w
      /\ clock_reads w' = clock_reads w)
  /\ ((forall d, message w <> JObj d) ->
      trace w' = (trace w ++ [declare])%list)
  /\ (forall d,
        channel_fault E declare = false ->
        message w = JObj d ->
        let stored :=
          JObj (dead_lettered d reason (utcnow E (clock_reads w))) in
        trace w'
        = (trace w ++ [declare; BasicPublish "" "failed.queue"
                                  (Encoded stored) 2])%list
        /\ message w' = stored
        /\ clock_reads w' = S (clock_reads w)).
Proof.
  cbv zeta. destruct w as [tr n msg].
  remember (move_to_dlq E reason _) as r eqn:Hr.
  helper_exec Hr.
  all: subst r; cbn [fst snd trace message clock_reads].
  all: split; [reflexivity|].
  all: split; [first [discriminate | now intros _]|].
  all: split;
    [first [reflexivity | intros Hno; now destruct (Hno fields)]|].
  all: try discriminate.
  all: intros d' _ [= <-]; rewrite <- app_assoc.
  all: repeat split.
Qed.

Lemma move_to_dlq_effect_witness :
  trace
    (snd (move_to_dlq failing_env "User not found"
            {| trace := []; clock_reads := 0;
               message := JObj sample_fields |}))
  = [QueueDeclare "failed.queue" true [];
     BasicPublish "" "failed.queue"
       (Encoded
          (JObj (dead_lettered sample_fields "User not found" sample_time)))
       2]
  /\ message
       (snd (move_to_dlq failing_env "User not found"
               {| trace := []; clock_reads := 0;
                  message := JObj sample_fields |}))
     = JObj (dead_lettered sample_fields "User not found" sample_time)
  /\ clock_reads
       (snd (move_to_dlq failing_env "User not found"
               {| trace := []; clock_reads := 0;
                  message := JObj sample_fields |}))
     = 1%nat.
Proof.
  apply (proj2 (proj2 (proj2
           (move_to_dlq_effect failing_env "User not found"
              {| trace := []; clock_reads := 0;
                 message := JObj sample_fields |}))) sample_fields);
    reflexivity.
Defined.

(** X23. [schedule_retry] never raises, whatever the delay, the message
    and the broker. It declares the durable queue [push.retry.<delay>]
    whose messages expire after [delay * 1000] milliseconds and are then
    routed through the default exchange to the consumer's own queue, and,
    when that declaration is accepted, publishes the message as it is,
    persistent, on that queue. It changes neither the message nor the
    clock. *)
Theorem schedule_retry_effect (E : Env) (delay : Z)
  (w : world) :
  let retry_queue := "push.retry." ++ str_of_Z delay in
  let declare :=
    QueueDeclare retry_queue true
      [("x-message-ttl", JInt (delay * 1000));
       ("x-dead-letter-exchange", JStr "");
       ("x-dead-letter-routing-key", JStr (QUEUE_NAME E))] in
  let w' := snd (schedule_retry E delay w) in
  fst (schedule_retry E delay w) = Ok tt
  /\ message w' = message w
  /\ clock_reads w' = clock_reads w
  /\ trace w'
     = (trace w
        ++ declare
           :: (if channel_fault E declare then []
               else [BasicPublish "" retry_queue (Encoded (message w)) 2]))
       %list.
Proof.
  cbv zeta. destruct w as [tr n msg].
  remember (schedule_retry E delay _) as r eqn:Hr.
  helper_exec Hr.
  all: subst r; cbn [fst snd trace message clock_reads].
  all: repeat
         match goal with
         | K : channel_fault _ _ = _ |- _ => rewrite K; clear K
         end.
  all: rewrite <- ?app_assoc; repeat split.
Qed.

Lemma schedule_retry_effect_witness :
  trace (snd (schedule_retry
                (with_faults failing_env is_queue_declare) 42
                {| trace := [BasicAck 7]; clock_reads := 1;
                   message := JNull |}))
  = [BasicAck 7;
     QueueDeclare "push.retry.42" true
       [("x-message-ttl", JInt 42000);
        ("x-dead-letter-exchange", JStr "");
        ("x-dead-letter-routing-key", JStr "push.queue")]].
Proof.
  apply (proj2 (proj2 (proj2
           (schedule_retry_effect
              (with_faults failing_env is_queue_declare) 42
              {| trace := [BasicAck 7]; clock_reads := 1;
                 message := JNull |})))).
Defined.

(** X24. [update_notification_status] never raises; it reads the clock
    once and posts one report, which carries the notification id, the
    status and the time read, and the error text when one is given and is
    not empty; the message is left as it is. *)
Theorem update_notification_status_effect (E : Env)
  (notification_id : json) (status : string) (error : option string)
  (w : world) :
  let w' := snd (update_notification_status E notification_id status error w)
  in
  fst (update_notification_status E notification_id status error w) = Ok tt
  /\ message w' = message w
  /\ clock_reads w' = S (clock_reads w)
  /\ trace w'
     = (trace w
        ++ [StatusPost
              (status_payload notification_id status
                 (utcnow E (clock_reads w))
                 (match error with
                  | Some "" => None
                  | _ => error
                  end))])%list.
Proof.
  cbv zeta. destruct w as [tr n msg].
  unfold update_notification_status, try_except, bind, read_utcnow, emit.
  cbn [fst snd trace message clock_reads].
  repeat split.
  destruct error as [[|c e]|]; reflexivity.
Qed.

Lemma update_notification_status_effect_witness :
  trace (snd (update_notification_status failing_env
                (JStr "n-1") "failed" (Some "") init_world))
  = [StatusPost (status_payload (JStr "n-1") "failed" sample_time None)].
Proof.
  apply (proj2 (proj2 (proj2
           (update_notification_status_effect
              failing_env (JStr "n-1") "failed" (Some "") init_world)))).
Defined.

(** ** Properties of the consumer loop *)

Ltac session_step :=
  cbv beta iota; rewrite ?length_app; cbn [List.length];
  rewrite ?Nat.add_1_r.

Ltac session_calls_eq := rewrite <- ?app_assoc; reflexivity.

(** One session: the calls issued are a non-empty prefix of
    [session_calls], all of which returned except possibly the last, whose
    exception is the one of the session. *)
Lemma session_spec (E : Env) (outside : Outside)
  (issued : list consumer_call) :
  exists n,
    (1 <= n <= 6)%nat
    /\ snd (session E outside issued)
       = (issued ++ firstn n (session_calls E))%list
    /\ (forall i c,
          (i < n - 1)%nat -> nth_error (session_calls E) i = Some c ->
          outside (i + List.length issued)%nat c = None)
    /\ match fst (session E outside issued) with
       | inl _ =>
           n = 6%nat
           /\ outside (5 + List.length issued)%nat StartConsuming = None
       | inr e =>
           exists c,
             nth_error (session_calls E) (n - 1) = Some c
             /\ outside (n - 1 + List.length issued)%nat c = Some e
       end.
Proof.
  unfold session, then_, get_rabbitmq_connection, invoke, session_calls.
  destruct (outside (List.length issued) (Connect 600 300)) as [e|] eqn:H0.
  { exists 1%nat. split; [lia|].
    destruct e; cbn [fst snd firstn];
      (split; [reflexivity|]; split; [intros i c Hi; lia|]);
      eexists; (split; [reflexivity | first [exact H0 | reflexivity]]). }
  session_step.
  destruct (outside _ OpenChannel) as [e|] eqn:H1.
  { exists 2%nat. split; [lia|]. cbn [fst snd firstn].
    split; [session_calls_eq|]. split.
    - intros i c Hi Hc. assert (i = 0)%nat by lia. subst i.
      now injection Hc as <-.
    - eexists. split; [reflexivity | first [exact H1 | reflexivity]]. }
  session_step.
  destruct (outside _ (DeclareQueue _ _ _)) as [e|] eqn:H2.
  { exists 3%nat. split; [lia|]. cbn [fst snd firstn].
    split; [session_calls_eq|]. split.
    - intros i c Hi Hc.
      assert (Hi' : (i = 0 \/ i = 1)%nat) by lia.
      destruct Hi' as [-> | ->]; injection Hc as <-; assumption.
    - eexists. split; [reflexivity | first [exact H2 | reflexivity]]. }
  session_step.
  destruct (outside _ (BasicQos 1)) as [e|] eqn:H3.
  { exists 4%nat. split; [lia|]. cbn [fst snd firstn].
    split; [session_calls_eq|]. split.
    - intros i c Hi Hc.
      assert (Hi' : (i = 0 \/ i = 1 \/ i = 2)%nat) by lia.
      destruct Hi' as [-> | [-> | ->]]; injection Hc as <-; assumption.
    - eexists. split; [reflexivity | first [exact H3 | reflexivity]]. }
  session_step.
  destruct (outside _ (BasicConsume _ _)) as [e|] eqn:H4.
  { exists 5%nat. split; [lia|]. cbn [fst snd firstn].
    split; [session_calls_eq|]. split.
    - intros i c Hi Hc.
      assert (Hi' : (i = 0 \/ i = 1 \/ i = 2 \/ i = 3)%nat) by lia.
      destruct Hi' as [-> | [-> | [-> | ->]]]; injection Hc as <-;
        assumption.
    - eexists. split; [reflexivity | first [exact H4 | reflexivity]]. }
  session_step.
  exists 6%nat. split; [lia|]. cbn [fst snd firstn].
  assert (Hpre : forall i c,
            (i < 6 - 1)%nat ->
            nth_error
              [Connect 600 300; OpenChannel;
               DeclareQueue (QUEUE_NAME E) true [("x-max-priority", JInt 10)];
               BasicQos 1; BasicConsume (QUEUE_NAME E) false; StartConsuming]
              i = Some c ->
            outside (i + List.length issued)%nat c = None).
  { intros i c Hi Hc.
    assert (Hi' : (i = 0 \/ i = 1 \/ i = 2 \/ i = 3 \/ i = 4)%nat) by lia.
    destruct Hi' as [-> | [-> | [-> | [-> | ->]]]]; injection Hc as <-;
      assumption. }
  destruct (outside _ StartConsuming) as [e|] eqn:H5;
    cbn [fst snd];
    (split; [session_calls_eq|]; split; [exact Hpre|]).
  - eexists. split; [reflexivity | first [exact H5 | reflexivity]].
  - split; [reflexivity | first [exact H5 | reflexivity]].
Qed.

Lemma firstn_session_length (E : Env) (n : nat) :
  (n <= 6)%nat -> List.length (firstn n (session_calls E)) = n.
Proof. intros H. rewrite firstn_length_le; [reflexivity | exact H]. Qed.

Lemma firstn_snoc {A : Type} (l : list A) :
  forall n c, nth_error l n = Some c -> firstn (S n) l = (firstn n l ++ [c])%list.
Proof.
  induction l as [|x l IH]; intros [|n] c H; try discriminate H.
  - cbn in H. injection H as ->. now destruct l.
  - cbn [nth_error] in H. cbn [firstn app]. f_equal. exact (IH _ _ H).
Qed.

Lemma session_call_is_no_sleep (E : Env) (n : nat) (c : consumer_call) :
  nth_error (session_calls E) n = Some c ->
  In c (session_calls E) /\ is_sleep c = false.
Proof.
  intros H. split; [exact (nth_error_In _ _ H)|].
  do 6 (destruct n as [|n]; [now injection H as <-|]).
  now destruct n.
Qed.

(** What a session that raises leaves behind: the calls before the one
    that raised, then that call. *)
Lemma session_raised (E : Env) (outside : Outside)
  (issued issued' : list consumer_call) (e : raised) :
  session E outside issued = (inr e, issued') ->
  exists pre c,
    issued' = (issued ++ pre ++ [c])%list
    /\ outside (List.length (issued ++ pre)) c = Some e
    /\ In c (session_calls E) /\ is_sleep c = false
    /\ (forall i c',
          (i < List.length pre)%nat ->
          nth_error (session_calls E) i = Some c' ->
          outside (i + List.length issued)%nat c' = None)
    /\ (List.length pre < 6)%nat.
Proof.
  intros Hs.
  destruct (session_spec E outside issued) as (n & Hn & Hcalls & Hpre & Hres).
  rewrite Hs in Hcalls, Hres. cbn [fst snd] in Hcalls, Hres.
  destruct Hres as (c & Hc & Hout).
  exists (firstn (n - 1) (session_calls E)), c.
  assert (Hlen : List.length (firstn (n - 1) (session_calls E))
                 = (n - 1)%nat)
    by (apply firstn_session_length; lia).
  split.
  { rewrite Hcalls. f_equal.
    replace n with (S (n - 1)) at 1 by lia. now apply firstn_snoc. }
  split.
  { rewrite length_app, Hlen, Nat.add_comm. exact Hout. }
  destruct (session_call_is_no_sleep E _ _ Hc) as [Hin Hns].
  split; [exact Hin|]. split; [exact Hns|]. rewrite Hlen.
  split; [exact Hpre | lia].
Qed.

Lemma session_returned (E : Env) (outside : Outside)
  (issued issued' : list consumer_call) (u : unit) :
  session E outside issued = (inl u, issued') ->
  issued' = (issued ++ session_calls E)%list
  /\ forall i c,
       nth_error (session_calls E) i = Some c ->
       outside (i + List.length issued)%nat c = None.
Proof.
  intros Hs.
  destruct (session_spec E outside issued) as (n & Hn & Hcalls & Hpre & Hres).
  rewrite Hs in Hcalls, Hres. cbn [fst snd] in Hcalls, Hres.
  destruct Hres as [-> Hlast]. split; [exact Hcalls|].
  intros i c Hc.
  assert (Hi : (i < 6)%nat).
  { change 6%nat with (List.length (session_calls E)).
    apply nth_error_Some. rewrite Hc. discriminate. }
  destruct (Nat.eq_dec i 5) as [-> | Hne].
  - cbn in Hc. injection Hc as <-. exact Hlast.
  - apply Hpre; [lia | exact Hc].
Qed.

(** The calls of the loop are made of rounds. *)
Lemma start_consumer_rounds (E : Env) (outside : Outside) (fuel : nat) :
  forall issued,
  exists tr,
    snd (start_consumer E outside fuel issued) = (issued ++ tr)%list
    /\ rounds E outside (List.length issued) tr.
Proof.
  induction fuel as [|fuel IH]; intros issued.
  - exists []. cbn. rewrite app_nil_r. split; [reflexivity | constructor].
  - cbn [start_consumer].
    destruct (session E outside issued) as [[u|e] issued1] eqn:Hs.
    + destruct (session_returned E outside _ _ _ Hs) as [-> Hnone].
      destruct (IH (issued ++ session_calls E)%list)
        as (tr & Htr & Hrounds).
      exists (session_calls E ++ tr)%list.
      rewrite Htr, <- app_assoc. split; [reflexivity|].
      apply rounds_returned; [exact Hnone|].
      rewrite length_app in Hrounds. cbn [List.length session_calls] in *.
      now rewrite Nat.add_comm in Hrounds.
    + destruct (session_spec E outside issued)
        as (n & Hn & Hcalls & Hpre & _).
      rewrite Hs in Hcalls. cbn [snd] in Hcalls. subst issued1.
      assert (Hpause : exists tr,
                snd (then_ (invoke outside (Sleep 5))
                       (start_consumer E outside fuel)
                       (issued ++ firstn n (session_calls E))%list)
                = (issued ++ tr)%list
                /\ rounds E outside (List.length issued) tr).
      { unfold then_, invoke.
        destruct (outside _ (Sleep 5)); cbn [fst snd].
        - exists (firstn n (session_calls E) ++ [Sleep 5])%list.
          rewrite <- app_assoc. split; [reflexivity|].
          apply rounds_pause; try assumption. constructor.
        - destruct (IH ((issued ++ firstn n (session_calls E))
                        ++ [Sleep 5])%list) as (tr & Htr & Hrounds).
          exists (firstn n (session_calls E) ++ Sleep 5 :: tr)%list.
          rewrite Htr, <- !app_assoc. split; [reflexivity|].
          apply rounds_pause; try assumption.
          rewrite !length_app, firstn_session_length in Hrounds by lia.
          cbn [List.length] in Hrounds.
          replace (S (n + List.length issued))
            with (List.length issued + n + 1)%nat by lia.
          exact Hrounds. }
      destruct e; cbn [fst snd]; try exact Hpause;
        exists (firstn n (session_calls E)); split;
        try reflexivity; now apply rounds_left.
Qed.

(** X25. The loop is left by [break] only on a [KeyboardInterrupt] raised
    by one of the calls of a session: when [start_consumer] returns, its
    last call was a call of the session and raised that exception. *)
Theorem consumer_returns_only_on_interrupt (E : Env) (outside : Outside)
  (fuel : nat) :
  forall issued issued',
    start_consumer E outside fuel issued = (inl Stopped, issued') ->
    exists pre c,
      issued' = (pre ++ [c])%list
      /\ outside (List.length pre) c = Some KeyboardInterrupt
      /\ In c (session_calls E).
Proof.
  induction fuel as [|fuel IH]; intros issued issued' H; [discriminate H|].
  cbn [start_consumer] in H.
  destruct (session E outside issued) as [[u|e] issued1] eqn:Hs.
  - exact (IH _ _ H).
  - destruct (session_raised E outside _ _ _ Hs)
      as (pre & c & -> & Hout & Hin & _).
    assert (Hpause : then_ (invoke outside (Sleep 5))
                       (start_consumer E outside fuel)
                       (issued ++ pre ++ [c])%list
                     = (inl Stopped, issued') ->
                     exists pre0 c0,
                       issued' = (pre0 ++ [c0])%list
                       /\ outside (List.length pre0) c0
                          = Some KeyboardInterrupt
                       /\ In c0 (session_calls E)).
    { unfold then_, invoke.
      destruct (outside _ (Sleep 5)); [discriminate|]. apply IH. }
    destruct e; try exact (Hpause H); try discriminate H.
    injection H as <-. exists (issued ++ pre)%list, c.
    rewrite <- app_assoc. now repeat split.
Qed.

Lemma consumer_returns_only_on_interrupt_witness :
  exists pre c,
    [Connect 600 300; OpenChannel] = (pre ++ [c])%list
    /\ raises_at 1 KeyboardInterrupt (List.length pre) c
       = Some KeyboardInterrupt
    /\ In c (session_calls failing_env).
Proof.
  apply (consumer_returns_only_on_interrupt failing_env
           (raises_at 1 KeyboardInterrupt) 3 []).
  reflexivity.
Defined.

(** X26. No exception of class [Exception] ends the loop: when the calls
    of the sessions raise nothing else and [time.sleep] raises nothing,
    the loop is still turning after any number of turns, and each turn has
    issued at least one call. *)
Theorem consumer_restarts_after_any_error (E : Env) (outside : Outside) :
  (forall n c e,
     outside n c = Some e -> ends_loop e = false /\ is_sleep c = false) ->
  forall fuel issued,
    fst (start_consumer E outside fuel issued) = inl Running
    /\ (List.length issued + fuel
        <= List.length (snd (start_consumer E outside fuel issued)))%nat.
Proof.
  intros Hout. induction fuel as [|fuel IH]; intros issued.
  - cbn. split; [reflexivity | lia].
  - cbn [start_consumer].
    destruct (session E outside issued) as [[u|e] issued1] eqn:Hs.
    + destruct (session_returned E outside _ _ _ Hs) as [-> _].
      destruct (IH (issued ++ session_calls E)%list) as [Hr Hl].
      split; [exact Hr|]. rewrite length_app in Hl. cbn in Hl. lia.
    + destruct (session_raised E outside _ _ _ Hs)
        as (pre & c & -> & Hraise & _).
      destruct (Hout _ _ _ Hraise) as [He _].
      assert (Hpause :
                fst (then_ (invoke outside (Sleep 5))
                       (start_consumer E outside fuel)
                       (issued ++ pre ++ [c])%list) = inl Running
                /\ (List.length issued + S fuel
                    <= List.length
                         (snd (then_ (invoke outside (Sleep 5))
                                 (start_consumer E outside fuel)
                                 (issued ++ pre ++ [c])%list)))%nat).
      { unfold then_, invoke.
        destruct (outside _ (Sleep 5)) as [e'|] eqn:Hsleep.
        - destruct (Hout _ _ _ Hsleep) as [_ Hno]. discriminate Hno.
        - destruct (IH ((issued ++ pre ++ [c]) ++ [Sleep 5])%list)
            as [Hr Hl].
          split; [exact Hr|]. rewrite !length_app in Hl.
          cbn [List.length] in Hl. lia. }
      destruct e; try discriminate He; exact Hpause.
Qed.

Lemma consumer_restarts_after_any_error_witness :
  fst (start_consumer failing_env broker_down 4 []) = inl Running
  /\ (List.length (@nil consumer_call) + 4
      <= List.length (snd (start_consumer failing_env broker_down 4 [])))%nat.
Proof.
  apply (consumer_restarts_after_any_error failing_env broker_down).
  intros n c e. destruct c; cbn; try discriminate.
  intros [= <-]. split; reflexivity.
Defined.

(** X27. With enough turns the first [KeyboardInterrupt] ends the loop,
    provided that nothing but exceptions of class [Exception] was raised
    before and [time.sleep] raised none: the interrupted call is the last
    one; the loop is left by [break] when it is a call of a session, but an
    interrupt that arrives during the pause before reconnecting is not
    caught and escapes [start_consumer]. *)
Theorem first_interrupt_ends_loop (E : Env) (outside : Outside) (p : nat) :
  (forall n c e,
     (n < p)%nat -> outside n c = Some e ->
     ends_loop e = false /\ is_sleep c = false) ->
  (forall c, outside p c = Some KeyboardInterrupt) ->
  forall fuel,
    (p < fuel)%nat ->
    exists pre c,
      snd (start_consumer E outside fuel []) = (pre ++ [c])%list
      /\ List.length pre = p
      /\ fst (start_consumer E outside fuel [])
         = if is_sleep c then inr KeyboardInterrupt else inl Stopped.
Proof.
  intros Hbefore Hat.
  assert (Hgen : forall fuel issued,
            (List.length issued <= p)%nat ->
            (p < List.length issued + fuel)%nat ->
            exists pre c,
              snd (start_consumer E outside fuel issued) = (pre ++ [c])%list
              /\ List.length pre = p
              /\ fst (start_consumer E outside fuel issued)
                 = if is_sleep c then inr KeyboardInterrupt else inl Stopped).
  { induction fuel as [|fuel IH]; intros issued Hle Hlt; [lia|].
    cbn [start_consumer].
    destruct (session E outside issued) as [[u|e] issued1] eqn:Hs.
    - destruct (session_returned E outside _ _ _ Hs) as [-> Hnone].
      assert (Hp : (List.length issued + 6 <= p)%nat).
      { destruct (Nat.le_gt_cases (List.length issued + 6) p) as [H | H];
          [exact H|].
        destruct (nth_error (session_calls E) (p - List.length issued))
          as [c|] eqn:Hc.
        - specialize (Hnone _ _ Hc).
          replace (p - List.length issued + List.length issued)%nat
            with p in Hnone by lia.
          rewrite Hat in Hnone. discriminate Hnone.
        - apply nth_error_None in Hc. cbn in Hc. lia. }
      apply IH; rewrite length_app; cbn [List.length session_calls]; lia.
    - destruct (session_raised E outside _ _ _ Hs)
        as (pre & c & -> & Hraise & Hin & Hns & Hnone & Hlen).
      rewrite length_app in Hraise.
      assert (Hp : (List.length issued + List.length pre <= p)%nat).
      { destruct (Nat.le_gt_cases (List.length issued + List.length pre) p)
          as [H | H]; [exact H|].
        destruct (nth_error (session_calls E) (p - List.length issued))
          as [c'|] eqn:Hc.
        - assert (Hi : (p - List.length issued < List.length pre)%nat)
            by lia.
          specialize (Hnone _ _ Hi Hc).
          replace (p - List.length issued + List.length issued)%nat
            with p in Hnone by lia.
          rewrite Hat in Hnone. discriminate Hnone.
        - apply nth_error_None in Hc. cbn in Hc. lia. }
      destruct (Nat.eq_dec (List.length issued + List.length pre) p)
        as [Heq | Hne].
      + rewrite Heq, Hat in Hraise. injection Hraise as <-.
        cbn [fst snd]. exists (issued ++ pre)%list, c.
        rewrite <- app_assoc, length_app, Hns. now repeat split.
      + assert (Hlt' : (List.length issued + List.length pre < p)%nat)
          by lia.
        destruct (Hbefore _ _ _ Hlt' Hraise) as [He _].
        assert (Hpause :
                  exists pre0 c0,
                    snd (then_ (invoke outside (Sleep 5))
                           (start_consumer E outside fuel)
                           (issued ++ pre ++ [c])%list)
                    = (pre0 ++ [c0])%list
                    /\ List.length pre0 = p
                    /\ fst (then_ (invoke outside (Sleep 5))
                              (start_consumer E outside fuel)
                              (issued ++ pre ++ [c])%list)
                       = if is_sleep c0 then inr KeyboardInterrupt
                         else inl Stopped).
        { unfold then_, invoke.
          assert (Hpos : List.length (issued ++ pre ++ [c])
                         = S (List.length issued + List.length pre)).
          { rewrite !length_app. cbn [List.length]. lia. }
          destruct (Nat.eq_dec (S (List.length issued + List.length pre)) p)
            as [Heq | Hne'].
          - rewrite Hpos, Heq, Hat. cbn [fst snd].
            exists (issued ++ pre ++ [c])%list, (Sleep 5).
            rewrite Hpos. now repeat split.
          - destruct (outside _ (Sleep 5)) as [e'|] eqn:Hsleep.
            + rewrite Hpos in Hsleep.
              assert (Hlt'' : (S (List.length issued + List.length pre)
                               < p)%nat) by lia.
              destruct (Hbefore _ _ _ Hlt'' Hsleep) as [_ Hno].
              discriminate Hno.
            + apply IH; rewrite length_app, Hpos; cbn [List.length]; lia. }
        destruct e; try discriminate He; exact Hpause. }
  intros fuel Hfuel. apply Hgen; cbn [List.length]; lia.
Qed.

Lemma first_interrupt_ends_loop_witness :
  exists pre c,
    snd (start_consumer failing_env (raises_at 7 KeyboardInterrupt) 9 [])
    = (pre ++ [c])%list
    /\ List.length pre = 7%nat
    /\ fst (start_consumer failing_env (raises_at 7 KeyboardInterrupt) 9 [])
       = if is_sleep c then inr KeyboardInterrupt else inl Stopped.
Proof.
  apply (first_interrupt_ends_loop failing_env
           (raises_at 7 KeyboardInterrupt) 7).
  - intros n c e Hn. unfold raises_at.
    destruct (n =? 7)%nat eqn:H7; [|discriminate].
    apply Nat.eqb_eq in H7. lia.
  - reflexivity.
  - lia.
Defined.

(** *** The order of the calls of the loop *)

Lemma in_firstn {A : Type} (k : nat) (l : list A) (x : A) :
  In x (firstn k l) -> In x l.
Proof.
  intros H. rewrite <- (firstn_skipn k l). apply in_or_app. now left.
Qed.

Lemma firstn_session_cases (E : Env) (n : nat) :
  (1 <= n <= 6)%nat ->
  firstn n (session_calls E) = session_calls E
  \/ exists k, (1 <= k <= 5)%nat
               /\ firstn n (session_calls E) = firstn k (setup_calls E).
Proof.
  intros Hn.
  assert (H : (n = 1 \/ n = 2 \/ n = 3 \/ n = 4 \/ n = 5 \/ n = 6)%nat)
    by lia.
  destruct H as [-> | [-> | [-> | [-> | [-> | ->]]]]];
    [right; exists 1%nat | right; exists 2%nat | right; exists 3%nat
     | right; exists 4%nat | right; exists 5%nat | left; reflexivity];
    (split; [lia | reflexivity]).
Qed.

(** Where [StartConsuming] and [Connect] stand in a session. *)
Lemma setup_prefix_split (E : Env) (k : nat) (pre post : list consumer_call)
  (x : consumer_call) :
  firstn k (setup_calls E) = (pre ++ x :: post)%list ->
  x <> StartConsuming
  /\ (forall h b, x = Connect h b -> pre = [] /\ h = 600 /\ b = 300).
Proof.
  intros H.
  assert (Hin : In x (setup_calls E)).
  { apply (in_firstn k). rewrite H. apply in_elt. }
  split.
  - intros ->. cbn in Hin. intuition discriminate.
  - intros h b ->.
    destruct pre as [|y pre].
    + destruct k; [discriminate H|]. cbn in H. injection H as <- <- _.
      now repeat split.
    + exfalso.
      assert (Hin' : In (Connect h b) (tl (setup_calls E))).
      { destruct k; [discriminate H|]. cbn [firstn setup_calls] in H.
        cbn [app] in H. injection H as _ H.
        cbn [tl setup_calls].
        apply (in_firstn k). rewrite H. apply in_elt. }
      cbn in Hin'. intuition discriminate.
Qed.

Lemma session_calls_split (E : Env) (pre post : list consumer_call)
  (x : consumer_call) :
  session_calls E = (pre ++ x :: post)%list ->
  (x = StartConsuming -> pre = setup_calls E /\ post = [])
  /\ (forall h b, x = Connect h b -> pre = [] /\ h = 600 /\ b = 300).
Proof.
  intros H. unfold session_calls in H. split.
  - intros ->.
    do 5 (destruct pre as [|? pre]; [discriminate H|];
          cbn [app] in H; injection H as <- H).
    destruct pre as [|? pre].
    + injection H as <-. now split.
    + cbn [app] in H. injection H as _ H. now destruct pre.
  - intros h b ->.
    destruct pre as [|y pre].
    + injection H as <- <- _. now repeat split.
    + exfalso. cbn [app] in H. injection H as _ H.
      assert (Hin : In (Connect h b)
                      [OpenChannel;
                       DeclareQueue (QUEUE_NAME E) true
                         [("x-max-priority", JInt 10)];
                       BasicQos 1; BasicConsume (QUEUE_NAME E) false;
                       StartConsuming]).
      { rewrite H. apply in_elt. }
      cbn in Hin. intuition discriminate.
Qed.

Lemma rounds_head (E : Env) (outside : Outside) (p : nat)
  (x : consumer_call) (tr : list consumer_call) :
  rounds E outside p (x :: tr) -> x = Connect 600 300.
Proof.
  intros H. remember (x :: tr) as l eqn:Hl.
  destruct H as [p | p tr' _ _ | p n Hn _ | p n tr' Hn _ _].
  - discriminate Hl.
  - cbn in Hl. now injection Hl as <- _.
  - destruct n; [lia|]. cbn in Hl. now injection Hl as <- _.
  - destruct n; [lia|]. cbn in Hl. now injection Hl as <- _.
Qed.

(** The order of the calls, read off the rounds. *)
Lemma rounds_order (E : Env) (outside : Outside) (p : nat)
  (tr : list consumer_call) :
  rounds E outside p tr ->
  forall pre x post,
    tr = (pre ++ x :: post)%list ->
    (x = StartConsuming ->
     exists pre',
       pre = (pre' ++ setup_calls E)%list
       /\ forall i c,
            nth_error (setup_calls E) i = Some c ->
            outside (i + (List.length pre' + p))%nat c = None)
    /\ (forall h b,
          x = Connect h b ->
          h = 600 /\ b = 300
          /\ (pre = []
              \/ exists pre', pre = (pre' ++ [Sleep 5])%list
                              \/ pre = (pre' ++ [StartConsuming])%list)).
Proof.
  induction 1 as [p | p tr Hnone Hr IH | p n Hn Hnone
                  | p n tr Hn Hnone Hr IH];
    intros pre x post Heq.
  - destruct pre; discriminate Heq.
  - apply app_eq_app in Heq as (l & [[H1 H2] | [H1 H2]]).
    + destruct l as [|y l].
      * rewrite app_nil_r in H1. cbn in H2. subst pre tr.
        pose proof (rounds_head _ _ _ _ _ Hr) as ->.
        split; [discriminate|]. intros h b [= <- <-].
        split; [reflexivity|]. split; [reflexivity|].
        right. exists (setup_calls E). now right.
      * cbn in H2. injection H2 as <- ->.
        destruct (session_calls_split E _ _ _ H1) as [Hsc Hco].
        split.
        -- intros Hx. destruct (Hsc Hx) as [-> _].
           exists []. split; [reflexivity|].
           intros i c Hc. apply Hnone.
           unfold setup_calls in Hc. unfold session_calls.
           do 5 (destruct i as [|i]; [exact Hc|]). now destruct i.
        -- intros h b Hx. destruct (Hco _ _ Hx) as (-> & -> & ->).
           now repeat split; left.
    + subst pre. destruct (IH _ _ _ H2) as [Hsc Hco]. split.
      * intros Hx. destruct (Hsc Hx) as (pre' & -> & Hout).
        exists (session_calls E ++ pre')%list.
        rewrite app_assoc. split; [reflexivity|].
        intros i c Hc. specialize (Hout i c Hc).
        rewrite length_app. cbn [List.length session_calls].
        replace (i + (6 + List.length pre' + p))%nat
          with (i + (List.length pre' + (6 + p)))%nat by lia.
        exact Hout.
      * intros h b Hx. destruct (Hco _ _ Hx) as (-> & -> & Hpre).
        split; [reflexivity|]. split; [reflexivity|]. right.
        destruct Hpre as [-> | (pre' & [-> | ->])].
        -- exists (setup_calls E). right. now rewrite app_nil_r.
        -- exists (session_calls E ++ pre')%list. left.
           now rewrite app_assoc.
        -- exists (session_calls E ++ pre')%list. right.
           now rewrite app_assoc.
  - destruct (firstn_session_cases E n Hn) as [Hall | (k & Hk & Hfirst)].
    + rewrite Hall in Heq.
      destruct (session_calls_split E _ _ _ Heq) as [Hsc Hco]. split.
      * intros Hx. destruct (Hsc Hx) as [-> _].
        exists []. split; [reflexivity|].
        intros i c Hc. apply Hnone.
        -- assert (Hi : (i < 5)%nat).
           { change 5%nat with (List.length (setup_calls E)).
             apply nth_error_Some. rewrite Hc. discriminate. }
           assert (n = 6)%nat; [|lia].
           assert (Hl : List.length (firstn n (session_calls E)) = 6%nat)
             by now rewrite Hall.
           rewrite firstn_session_length in Hl by lia. exact Hl.
        -- unfold setup_calls in Hc. unfold session_calls.
           do 5 (destruct i as [|i]; [exact Hc|]). now destruct i.
      * intros h b Hx. destruct (Hco _ _ Hx) as (-> & -> & ->).
        now repeat split; left.
    + rewrite Hfirst in Heq.
      destruct (setup_prefix_split E _ _ _ _ Heq) as [Hsc Hco]. split.
      * intros Hx. now destruct (Hsc Hx).
      * intros h b Hx. destruct (Hco _ _ Hx) as (-> & -> & ->).
        now repeat split; left.
  - change (Sleep 5 :: tr) with ([Sleep 5] ++ tr)%list in Heq.
    rewrite app_assoc in Heq.
    apply app_eq_app in Heq as (l & [[H1 H2] | [H1 H2]]).
    + destruct l as [|y l].
      * rewrite app_nil_r in H1. cbn in H2. subst pre tr.
        pose proof (rounds_head _ _ _ _ _ Hr) as ->.
        split; [discriminate|]. intros h b [= <- <-].
        split; [reflexivity|]. split; [reflexivity|].
        right. exists (firstn n (session_calls E)). now left.
      * cbn in H2. injection H2 as <- ->.
        apply app_eq_app in H1 as (l' & [[H3 H4] | [H3 H4]]).
        -- destruct l' as [|z l'].
           ++ cbn in H4. injection H4 as -> _.
              split; [discriminate|]. intros h b Hx. discriminate Hx.
           ++ cbn in H4. injection H4 as <- H4.
              destruct (firstn_session_cases E n Hn)
                as [Hall | (k & Hk & Hfirst)].
              ** rewrite Hall in H3.
                 destruct (session_calls_split E _ _ _ H3) as [Hsc Hco].
                 split.
                 --- intros Hx. destruct (Hsc Hx) as [-> _].
                     exists []. split; [reflexivity|].
                     intros i c Hc. apply Hnone.
                     +++ assert (Hi : (i < 5)%nat).
                         { change 5%nat
                             with (List.length (setup_calls E)).
                           apply nth_error_Some. rewrite Hc.
                           discriminate. }
                         assert (n = 6)%nat; [|lia].
                         assert (Hl : List.length
                                        (firstn n (session_calls E))
                                      = 6%nat) by now rewrite Hall.
                         rewrite firstn_session_length in Hl by lia.
                         exact Hl.
                     +++ unfold setup_calls in Hc. unfold session_calls.
                         do 5 (destruct i as [|i]; [exact Hc|]).
                         now destruct i.
                 --- intros h b Hx.
                     destruct (Hco _ _ Hx) as (-> & -> & ->).
                     now repeat split; left.
              ** rewrite Hfirst in H3.
                 destruct (setup_prefix_split E _ _ _ _ H3) as [Hsc Hco].
                 split.
                 --- intros Hx. now destruct (Hsc Hx).
                 --- intros h b Hx.
                     destruct (Hco _ _ Hx) as (-> & -> & ->).
                     now repeat split; left.
        -- destruct l' as [|z l']; [|destruct l'; discriminate H4].
           cbn in H4. injection H4 as <- _.
           split; [discriminate|]. intros h b Hx. discriminate Hx.
    + subst pre. destruct (IH _ _ _ H2) as [Hsc Hco]. split.
      * intros Hx. destruct (Hsc Hx) as (pre' & -> & Hout).
        exists ((firstn n (session_calls E) ++ [Sleep 5]) ++ pre')%list.
        rewrite app_assoc. split; [reflexivity|].
        intros i c Hc. specialize (Hout i c Hc).
        rewrite !length_app, firstn_session_length by lia.
        cbn [List.length].
        replace (i + (n + 1 + List.length pre' + p))%nat
          with (i + (List.length pre' + S (n + p)))%nat by lia.
        exact Hout.
      * intros h b Hx. destruct (Hco _ _ Hx) as (-> & -> & Hpre).
        split; [reflexivity|]. split; [reflexivity|]. right.
        destruct Hpre as [-> | (pre' & [-> | ->])].
        -- exists (firstn n (session_calls E)). left.
           now rewrite app_nil_r.
        -- exists ((firstn n (session_calls E) ++ [Sleep 5]) ++ pre')%list.
           left. now rewrite app_assoc.
        -- exists ((firstn n (session_calls E) ++ [Sleep 5]) ++ pre')%list.
           right. now rewrite app_assoc.
Qed.

Lemma rounds_calls (E : Env) (outside : Outside) (p : nat)
  (tr : list consumer_call) :
  rounds E outside p tr ->
  forall x, In x tr -> In x (session_calls E) \/ x = Sleep 5.
Proof.
  induction 1 as [p | p tr Hnone Hr IH | p n Hn Hnone
                  | p n tr Hn Hnone Hr IH]; intros x Hin.
  - destruct Hin.
  - apply in_app_or in Hin as [Hin | Hin]; [now left | now apply IH].
  - left. exact (in_firstn _ _ _ Hin).
  - apply in_app_or in Hin as [Hin | [<- | Hin]].
    + left. exact (in_firstn _ _ _ Hin).
    + now right.
    + now apply IH.
Qed.

(** X28. [start_consuming] is only ever called on a session that was set
    up completely: right before it come, in this order and all having
    returned, the connection with a heartbeat of 600 s and a blocked
    connection timeout of 300 s, the opening of the channel, the
    declaration of the consumer's queue as durable with priorities up to
    10, the prefetch limit of one message, and the registration of the
    callback with manual acknowledgements. *)
Theorem consuming_follows_setup (E : Env) (outside : Outside) (fuel : nat)
  (pre post : list consumer_call) :
  snd (start_consumer E outside fuel [])
  = (pre ++ StartConsuming :: post)%list ->
  exists pre',
    pre
    = (pre'
       ++ [Connect 600 300;
           OpenChannel;
           DeclareQueue (QUEUE_NAME E) true [("x-max-priority", JInt 10)];
           BasicQos 1;
           BasicConsume (QUEUE_NAME E) false])%list
    /\ forall i c,
         nth_error (setup_calls E) i = Some c ->
         outside (i + List.length pre')%nat c = None.
Proof.
  intros Heq.
  destruct (start_consumer_rounds E outside fuel []) as (tr & Htr & Hr).
  cbn [app List.length] in Htr, Hr. rewrite Htr in Heq.
  destruct (proj1 (rounds_order E outside _ _ Hr _ _ _ Heq) eq_refl)
    as (pre' & Hpre & Hout).
  exists pre'. split; [exact Hpre|].
  intros i c Hc. specialize (Hout i c Hc).
  now rewrite Nat.add_0_r in Hout.
Qed.

Lemma consuming_follows_setup_witness :
  exists pre',
    [Connect 600 300; Sleep 5;
     Connect 600 300; OpenChannel;
     DeclareQueue "push.queue" true [("x-max-priority", JInt 10)];
     BasicQos 1; BasicConsume "push.queue" false]
    = (pre'
       ++ [Connect 600 300;
           OpenChannel;
           DeclareQueue (QUEUE_NAME failing_env) true
             [("x-max-priority", JInt 10)];
           BasicQos 1;
           BasicConsume (QUEUE_NAME failing_env) false])%list
    /\ forall i c,
         nth_error (setup_calls failing_env) i = Some c ->
         raises_at 0 AMQPConnectionError (i + List.length pre')%nat c = None.
Proof.
  apply (consuming_follows_setup failing_env
           (raises_at 0 AMQPConnectionError) 2 _ []).
  reflexivity.
Defined.

(** X29. Every connection is opened with the same parameters, and a new
    one is opened only at the start, after the pause of five seconds that
    follows a failed session, or right after [start_consuming]
    returned. *)
Theorem reconnects_after_pause_or_return (E : Env) (outside : Outside)
  (fuel : nat) (pre post : list consumer_call) (heartbeat timeout : Z) :
  snd (start_consumer E outside fuel [])
  = (pre ++ Connect heartbeat timeout :: post)%list ->
  heartbeat = 600 /\ timeout = 300
  /\ (pre = []
      \/ exists pre', pre = (pre' ++ [Sleep 5])%list
                      \/ pre = (pre' ++ [StartConsuming])%list).
Proof.
  intros Heq.
  destruct (start_consumer_rounds E outside fuel []) as (tr & Htr & Hr).
  cbn [app List.length] in Htr. rewrite Htr in Heq.
  exact (proj2 (rounds_order E outside _ _ Hr _ _ _ Heq) _ _ eq_refl).
Qed.

Lemma reconnects_after_pause_or_return_witness :
  600 = 600 /\ 300 = 300
  /\ ([Connect 600 300; OpenChannel; Sleep 5] = []
      \/ exists pre',
           [Connect 600 300; OpenChannel; Sleep 5] = (pre' ++ [Sleep 5])%list
           \/ [Connect 600 300; OpenChannel; Sleep 5]
              = (pre' ++ [StartConsuming])%list).
Proof.
  apply (reconnects_after_pause_or_return failing_env
           (raises_at 1 OtherException) 2 _
           [OpenChannel; DeclareQueue "push.queue" true
                           [("x-max-priority", JInt 10)];
            BasicQos 1; BasicConsume "push.queue" false; StartConsuming]).
  reflexivity.
Defined.

(** X30. The loop and the callback agree on the queue: the callback is
    registered with manual acknowledgements on the queue that the loop
    declared, and that queue is the one to which every retry queue
    declared by the callback routes its expired messages, through the
    default exchange. *)
Theorem retries_return_to_consumed_queue {rt : PyRuntime} (E : Env)
  (outside : Outside) (fuel : nat) (queue : string) (auto_ack : bool)
  (tag : Z) (b : body) (retry_queue : string) (durable : bool)
  (arguments : list (string * json)) :
  In (BasicConsume queue auto_ack) (snd (start_consumer E outside fuel [])) ->
  In (QueueDeclare retry_queue durable arguments) (calls E tag b) ->
  is_retry_declare (QueueDeclare retry_queue durable arguments) = true ->
  auto_ack = false
  /\ (forall pre post,
        snd (start_consumer E outside fuel [])
        = (pre ++ BasicConsume queue auto_ack :: post)%list ->
        In (DeclareQueue queue true [("x-max-priority", JInt 10)]) pre)
  /\ dict_lookup arguments "x-dead-letter-routing-key" = Some (JStr queue)
  /\ dict_lookup arguments "x-dead-letter-exchange" = Some (JStr "").
Proof.
  intros Hc Hd Hr.
  destruct (start_consumer_rounds E outside fuel []) as (tr & Htr & Hrounds).
  cbn [app List.length] in Htr. rewrite Htr in *.
  assert (Hq : queue = QUEUE_NAME E /\ auto_ack = false).
  { destruct (rounds_calls E outside _ _ Hrounds _ Hc) as [H | H];
      [|discriminate H].
    cbn in H.
    destruct H as [H | [H | [H | [H | [H | [H | []]]]]]];
      try discriminate H.
    now injection H as <- <-. }
  destruct Hq as [-> ->]. split; [reflexivity|]. split.
  - intros pre post Heq.
    assert (Hsplit : forall p l,
              rounds E outside p l ->
              forall pre post,
                l = (pre ++ BasicConsume (QUEUE_NAME E) false :: post)%list ->
                In (DeclareQueue (QUEUE_NAME E) true
                      [("x-max-priority", JInt 10)]) pre).
    { clear. intros p l H.
      assert (Hfirst : forall n pre post,
                firstn n (session_calls E)
                = (pre ++ BasicConsume (QUEUE_NAME E) false :: post)%list ->
                In (DeclareQueue (QUEUE_NAME E) true
                      [("x-max-priority", JInt 10)]) pre).
      { intros n pre post Heq.
        do 5 (destruct n as [|n];
              [cbn in Heq;
               repeat (destruct pre as [|? pre];
                       [discriminate Heq
                       |cbn [app] in Heq; injection Heq as <- Heq]);
               destruct pre; discriminate Heq|]).
        assert (Hall : firstn (S (S (S (S (S n))))) (session_calls E)
                       = (setup_calls E
                          ++ firstn n [StartConsuming])%list)
          by reflexivity.
        rewrite Hall in Heq. unfold setup_calls in Heq.
        do 4 (destruct pre as [|? pre];
              [discriminate Heq
              |cbn [app] in Heq; injection Heq as <- Heq]).
        cbn. tauto. }
      induction H as [p | p tr Hnone Hr IH | p n Hn Hnone
                      | p n tr Hn Hnone Hr IH]; intros pre post Heq.
      - destruct pre; discriminate Heq.
      - apply app_eq_app in Heq as (l & [[H1 H2] | [H1 H2]]).
        + destruct l as [|y l].
          * cbn in H2. subst tr.
            pose proof (rounds_head _ _ _ _ _ Hr) as Hx. discriminate Hx.
          * cbn in H2. injection H2 as <- _.
            exact (Hfirst 6%nat _ _ H1).
        + subst pre. apply in_or_app. right. exact (IH _ _ H2).
      - exact (Hfirst _ _ _ Heq).
      - apply app_eq_app in Heq as (l & [[H1 H2] | [H1 H2]]).
        + destruct l as [|y l].
          * cbn in H2. discriminate H2.
          * cbn in H2. injection H2 as <- _.
            exact (Hfirst _ _ _ H1).
        + subst pre. destruct l as [|y l]; [discriminate H2|].
          cbn in H2. injection H2 as <- H2.
          apply in_or_app. right. right. exact (IH _ _ H2). }
    exact (Hsplit _ _ Hrounds _ _ Heq).
  - destruct (calls_contracts E tag b _ Hd)
      as (_ & [[-> _] | (delay & _ & _ & ->)]); [discriminate Hr|].
    split; reflexivity.
Qed.

Lemma retries_return_to_consumed_queue_witness :
  false = false
  /\ (forall pre post,
        snd (start_consumer failing_env (raises_at 5 KeyboardInterrupt) 1 [])
        = (pre ++ BasicConsume "push.queue" false :: post)%list ->
        In (DeclareQueue "push.queue" true [("x-max-priority", JInt 10)])
          pre)
  /\ dict_lookup
       [("x-message-ttl", JInt 60000);
        ("x-dead-letter-exchange", JStr "");
        ("x-dead-letter-routing-key", JStr "push.queue")]
       "x-dead-letter-routing-key" = Some (JStr "push.queue")
  /\ dict_lookup
       [("x-message-ttl", JInt 60000);
        ("x-dead-letter-exchange", JStr "");
        ("x-dead-letter-routing-key", JStr "push.queue")]
       "x-dead-letter-exchange" = Some (JStr "").
Proof.
  apply (retries_return_to_consumed_queue (rt := sample_runtime)
           failing_env (raises_at 5 KeyboardInterrupt) 1 "push.queue" false
           1 (Encoded (JObj sample_fields)) "push.retry.60" true).
  - vm_compute. tauto.
  - vm_compute. tauto.
  - reflexivity.
Defined.
